(** * PNL-COO analysis engine (app/services/analyze.py)

    A shallow embedding of the evidence-first analyser: cell normalisation,
    row location, metric extraction, derivation, cash-cycle scanning, radar
    scoring, the analysis entry point and its cache.

    Conventions of the embedding.
    - Python floats are rationals ([Q]); NaN only occurs as the blank cell
      [CNaN] that pandas produces for an empty spreadsheet cell.
    - Text is [string] (bytes, UTF-8 for the Chinese labels). On ASCII text
      the whitespace class, [str.lower] and the digit class are computed;
      on other text they are Python's, taken as given ([PyText]).
    - The builtins [float(str)], [str(number)], [Path.stem] and the prompt
      digest are parameters of the sections that need them.
    - Exceptions are values: a function that can raise returns [result].
    - A dict whose keys vary (an evidence entry) is a record of options; a
      missing key and a key bound to [None] are both [None]. *)

From Stdlib Require Import String Ascii List Bool Arith ZArith QArith Qabs Lia.
From Stdlib Require Import DecimalString.
Import ListNotations.

Local Close Scope Q_scope.
Local Open Scope list_scope.
Local Open Scope string_scope.
Local Open Scope nat_scope.

(** ** Exceptions as values *)

Record pyexc : Type := mkExc { exc_kind : string; exc_msg : string }.

Inductive result (A : Type) : Type :=
| Ok (a : A)
| Raise (e : pyexc).

Arguments Ok {A} a.
Arguments Raise {A} e.

Definition bind {A B : Type} (m : result A) (k : A -> result B) : result B :=
  match m with
  | Ok a => k a
  | Raise e => Raise e
  end.

Notation "x <- m ;; k" := (bind m (fun x => k))
  (at level 61, m at next level, right associativity).

(** [try: m except Exception as e: h e] *)
Definition try_except {A : Type} (m : result A) (h : pyexc -> result A) : result A :=
  match m with
  | Ok a => Ok a
  | Raise e => h e
  end.

(** A [for] loop whose body can raise, threading the loop state. *)
Fixpoint foldM {S A : Type} (body : S -> A -> result S) (xs : list A) (s : S) : result S :=
  match xs with
  | [] => Ok s
  | x :: rest => s' <- body s x ;; foldM body rest s'
  end.

(** ** Text helpers *)

Module Text.

(** [str.isspace] on the ASCII range: TAB..CR, FS..US and the space. *)
Definition is_space (a : ascii) : bool :=
  let n := nat_of_ascii a in
  ((9 <=? n) && (n <=? 13)) || ((28 <=? n) && (n <=? 32)).

Definition is_upper (a : ascii) : bool :=
  let n := nat_of_ascii a in (65 <=? n) && (n <=? 90).

Definition is_lower (a : ascii) : bool :=
  let n := nat_of_ascii a in (97 <=? n) && (n <=? 122).

Definition lower_char (a : ascii) : ascii :=
  if is_upper a then ascii_of_nat (nat_of_ascii a + 32) else a.

Definition upper_char (a : ascii) : ascii :=
  if is_lower a then ascii_of_nat (nat_of_ascii a - 32) else a.

Fixpoint lower (s : string) : string :=
  match s with
  | EmptyString => EmptyString
  | String a s' => String (lower_char a) (lower s')
  end.

(** [re.sub(r"\s+", "", s)] *)
Fixpoint remove_spaces (s : string) : string :=
  match s with
  | EmptyString => EmptyString
  | String a s' => if is_space a then remove_spaces s' else String a (remove_spaces s')
  end.

(** [s.replace(old, new)] for single characters. *)
Fixpoint replace_char (old new : ascii) (s : string) : string :=
  match s with
  | EmptyString => EmptyString
  | String a s' =>
      String (if Ascii.eqb a old then new else a) (replace_char old new s')
  end.

(** [s.replace(",", "")] *)
Fixpoint remove_commas (s : string) : string :=
  match s with
  | EmptyString => EmptyString
  | String a s' =>
      if Ascii.eqb a ","%char then remove_commas s' else String a (remove_commas s')
  end.

Fixpoint lstrip (s : string) : string :=
  match s with
  | EmptyString => EmptyString
  | String a s' => if is_space a then lstrip s' else s
  end.

Fixpoint rev_string (s acc : string) : string :=
  match s with
  | EmptyString => acc
  | String a s' => rev_string s' (String a acc)
  end.

Definition rstrip (s : string) : string :=
  rev_string (lstrip (rev_string s EmptyString)) EmptyString.

(** [s.strip()] *)
Definition strip (s : string) : string := rstrip (lstrip s).

(** [s.startswith(k)] is [String.prefix k s]; [k in s]: *)
Fixpoint contains (k s : string) : bool :=
  String.prefix k s ||
  match s with
  | EmptyString => false
  | String _ s' => contains k s'
  end.

(** [s.title()]: a cased letter after an uncased character is upper-cased,
    every other cased letter is lower-cased. *)
Fixpoint title_from (prev_cased : bool) (s : string) : string :=
  match s with
  | EmptyString => EmptyString
  | String a s' =>
      let cased := is_upper a || is_lower a in
      String (if prev_cased then lower_char a else upper_char a) (title_from cased s')
  end.

Definition title (s : string) : string := title_from false s.

Definition nonempty (s : string) : bool :=
  match s with EmptyString => false | _ => true end.

(** [s.isascii()] *)
Fixpoint is_ascii (s : string) : bool :=
  match s with
  | EmptyString => true
  | String a s' => (nat_of_ascii a <? 128) && is_ascii s'
  end.

End Text.

(** ** Python's text builtins *)

(** [str(x)] on a number, and the two places where the code leans on
    Python's Unicode tables: [\s] with [str.lower()] in [_norm], and [\d]
    with [int()] in the period pattern. On ASCII text both are computed
    here; on any other text they are Python's own, taken as given. *)
Record PyText : Type := mkPyText {
  (** [str(x)] on a number *)
  str_number : Q -> string;
  (** [re.sub(r"\s+", "", s).lower()] on text that is not all ASCII *)
  norm_unicode : string -> string;
  (** [re.search(r"(20\d{2})[\-/](\d{1,2})", s)], formatted as
      [f"{g1}/{int(g2):02d}"], on text that is not all ASCII *)
  period_unicode : string -> option string
}.

(** [_norm(s)] for a [str] argument: drop all whitespace, lower-case. *)
Definition _norm (py_str : PyText) (s : string) : string :=
  if Text.is_ascii s then Text.lower (Text.remove_spaces s)
  else norm_unicode py_str s.

(** ** Sheet grids *)

(** A cell as [df.iat] yields it after [read_excel(header=None)]: Python
    [None], the float NaN of a blank cell, a number, or text. *)
Inductive cell : Type :=
| CNone
| CNaN
| CNum (q : Q)
| CStr (s : string).

(** A DataFrame is rectangular; a short row stands for one padded with NaN. *)
Definition DataFrame : Type := list (list cell).

(** [df.shape[0]], [df.shape[1]] *)
Definition shape0 (df : DataFrame) : nat := length df.
Definition shape1 (df : DataFrame) : nat :=
  fold_right (fun row m => Nat.max (length row) m) 0%nat df.

(** [df.iat[r, c]] at an index inside the frame. *)
Definition iat (df : DataFrame) (r c : nat) : cell := nth c (nth r df []) CNaN.

(** [df.iat[r, c]] with pandas' bounds check. *)
Definition iat_checked (df : DataFrame) (r c : nat) : result cell :=
  if (r <? shape0 df)%nat && (c <? shape1 df)%nat then Ok (iat df r c)
  else Raise (mkExc "IndexError" "index is out of bounds").

(** [df.empty] *)
Definition df_empty (df : DataFrame) : bool :=
  (shape0 df =? 0)%nat || (shape1 df =? 0)%nat.

(** [v is None or (isinstance(v, float) and pd.isna(v))] *)
Definition is_blank (v : cell) : bool :=
  match v with
  | CNone | CNaN => true
  | _ => false
  end.

(** The workbook: sheet name to grid, in workbook order. *)
Definition Sheets : Type := list (string * DataFrame).

(** ** Cell anchors *)

(** The [while x:] loop of [_a1]; [x] shrinks at every turn, so [x] turns
    are enough. *)
Fixpoint col_letters (fuel x : nat) (col : string) : string :=
  match fuel with
  | O => col
  | S fuel' =>
      if (x =? 0)%nat then col
      else col_letters fuel' ((x - 1) / 26)%nat
             (String (ascii_of_nat (65 + (x - 1) mod 26)) col)
  end.

Definition dec (n : nat) : string := NilZero.string_of_uint (Nat.to_uint n).

(** [_a1(sheet, r, c)], [r] and [c] 0-based. *)
Definition _a1 (sheet : string) (r c : nat) : string :=
  sheet ++ "!" ++ col_letters (c + 1) (c + 1) "" ++ dec (r + 1).

(** ** Metrics *)

Record Metric : Type := mkMetric {
  key : string;
  label_en : string;
  label_zh : string;
  value : option Q;
  prev : option Q;
  unit : string;
  anchor : option string
}.

(** [Metric.delta_pct], a percentage. *)
Definition delta_pct (m : Metric) : option Q :=
  match value m, prev m with
  | Some v, Some p =>
      if Qeq_bool p 0 then None else Some ((v - p) / Qabs p * 100)%Q
  | _, _ => None
  end.

(** One evidence-ledger entry. *)
Record Evidence : Type := mkEvidence {
  ev_metric : string;
  ev_sheet : option string;
  ev_anchor : option string;
  ev_derived : option string;
  ev_current : option Q;
  ev_previous : option Q
}.

(** ** Numeric coercion *)

Section Coercion.

(** [float(t)] on text: [None] stands for the [ValueError] that
    [_to_float] catches. *)
Variable py_float : string -> option Q.

Definition _to_float (x : cell) : option Q :=
  match x with
  | CNone => None
  | CStr s =>
      let t := Text.remove_commas (Text.strip s) in
      if String.eqb t "" then None else py_float t
  | CNaN => None
  | CNum q => Some q
  end.

(** The right-to-left loop of [_find_numeric_in_row] over the columns
    still to visit; [nums] is the list built so far. *)
Fixpoint scan_nums (df : DataFrame) (r : nat) (cols : list nat)
         (nums : list (Q * nat)) : result (list (Q * nat)) :=
  match cols with
  | [] => Ok nums
  | c :: rest =>
      x <- iat_checked df r c ;;
      match _to_float x with
      | None => scan_nums df r rest nums
      | Some v =>
          let nums' := (nums ++ [(v, c)])%list in
          if (2 <=? length nums')%nat then Ok nums' else scan_nums df r rest nums'
      end
  end.

(** [range(df.shape[1] - 1, -1, -1)] *)
Definition cols_right_to_left (df : DataFrame) : list nat := rev (seq 0 (shape1 df)).

Definition _find_numeric_in_row (df : DataFrame) (r : nat)
  : result (option Q * option nat * option Q * option nat) :=
  nums <- scan_nums df r (cols_right_to_left df) [] ;;
  let '(curr, curr_c) :=
    match nums with
    | (v, c) :: _ => (Some v, Some c)
    | [] => (None, None)
    end in
  let '(prev, prev_c) :=
    match nums with
    | _ :: (v, c) :: _ => (Some v, Some c)
    | _ => (None, None)
    end in
  Ok (curr, curr_c, prev, prev_c).

End Coercion.

(** ** Row Locator *)

Definition _IS_KEYS : list (string * list string) :=
  [ ("revenue", ["營業收入"; "revenue"; "total revenue"; "net sales"; "sales"]);
    ("gross_profit", ["營業毛利"; "gross profit"]);
    ("opex", ["營業費用"; "operating expense"; "operating expenses"; "opex"]);
    ("net_income", ["本期淨利"; "net income"; "稅後淨利"; "net profit"]);
    ("gross_margin", ["毛利率"; "gross margin"; "gross profit margin"]) ].

Definition _FORBID_TOKENS : list (string * list string) :=
  [ ("gross_profit", ["margin"; "%"; "率"; "毛利率"]);
    ("net_income", ["margin"; "%"; "率"; "淨利率"]);
    ("opex", []);
    ("revenue", []) ].

Definition name_error (name : string) : pyexc :=
  mkExc "NameError" ("name '" ++ name ++ "' is not defined").

(** [range(a, b)] *)
Definition py_range (a b : nat) : list nat := seq a (b - a).

Section Locator.

(** What the module global [_norm_text] is bound to when [_find_row] runs.
    Python looks the name up at each call; analyze.py never binds it, so
    the module as written runs with [None] (see [analyze_py_globals]). *)
Variable norm_text_global : option (cell -> string).

Definition call_norm_text (x : cell) : result string :=
  match norm_text_global with
  | Some f => Ok (f x)
  | None => Raise (name_error "_norm_text")
  end.

(** The [if s == k / elif s.startswith(k) / elif k in s / else continue]
    ladder. *)
Definition match_score (s k : string) : option Z :=
  if String.eqb s k then Some 100%Z
  else if String.prefix k s then Some 90%Z
  else if Text.contains k s then Some 60%Z
  else None.

(** Body of [for fb in forbid]. *)
Definition penalise (s : string) (score : Z) (fb : string) : result Z :=
  fbk <- call_norm_text (CStr fb) ;;
  Ok (if Text.nonempty fbk && Text.contains fbk s then (score - 40)%Z else score).

(** Body of [for kw in keywords]; the state is [score_here]. *)
Definition score_keyword (s : string) (forbid : list string)
           (score_here : option Z) (kw : string) : result (option Z) :=
  k <- call_norm_text (CStr kw) ;;
  if negb (Text.nonempty k) then Ok score_here
  else
    match match_score s k with
    | None => Ok score_here
    | Some score0 =>
        score <- foldM (penalise s) forbid score0 ;;
        Ok (Some (match score_here with
                  | None => score
                  | Some h => Z.max h score
                  end))
    end.

(** Body of the two nested [for r / for c] loops; the state is [best]. *)
Definition visit_cell (df : DataFrame) (keywords forbid : list string)
           (best : Z * option nat) (rc : nat * nat) : result (Z * option nat) :=
  let val := iat df (fst rc) (snd rc) in
  if is_blank val then Ok best
  else
    s <- call_norm_text val ;;
    if negb (Text.nonempty s) then Ok best
    else
      score_here <- foldM (score_keyword s forbid) keywords None ;;
      match score_here with
      | None => Ok best
      | Some sh => Ok (if (fst best <? sh)%Z then (sh, Some (fst rc)) else best)
      end.

(** The cells visited, in visiting order: every row, its first six
    columns. *)
Definition label_cells (df : DataFrame) : list (nat * nat) :=
  flat_map (fun r => map (pair r) (py_range 0 (Nat.min 6 (shape1 df))))
           (py_range 0 (shape0 df)).

Definition _find_row (df : DataFrame) (keywords : list string)
           (forbid : option (list string)) : result (option nat) :=
  let forbid := match forbid with Some l => l | None => [] end in
  best <- foldM (visit_cell df keywords forbid) (label_cells df) ((- 10 ^ 9)%Z, None) ;;
  match snd best with
  | None => Ok None
  | Some r => if (fst best <? 50)%Z then Ok None else Ok (Some r)
  end.

End Locator.

(** The module as written: no definition, import or assignment binds
    [_norm_text]. *)
Definition analyze_py_globals : option (cell -> string) := None.

(** ** Metric Extractor and Derivation Resolver *)

(** [d.get(k, default)] on a small literal dict. *)
Fixpoint dict_get {V : Type} (d : list (string * V)) (k : string) : option V :=
  match d with
  | [] => None
  | (k', v) :: rest => if String.eqb k' k then Some v else dict_get rest k
  end.

Definition label_en_of (k : string) : string :=
  match dict_get [ ("revenue", "Revenue"); ("gross_profit", "Gross Profit");
                   ("opex", "OPEX"); ("net_income", "Net Profit");
                   ("gross_margin", "Gross Margin %") ] k with
  | Some l => l
  | None => k
  end.

Definition label_zh_of (k : string) : string :=
  match dict_get [ ("revenue", "營收"); ("gross_profit", "毛利");
                   ("opex", "營業費用"); ("net_income", "淨利");
                   ("gross_margin", "毛利率%") ] k with
  | Some l => l
  | None => k
  end.

(** The state the extraction threads: [metrics], [evidence], [missing]. *)
Definition IsState : Type := (list Metric * list Evidence * list string)%type.

(** [next((m for m in metrics if m.key == k), None)] *)
Definition first_metric (k : string) (metrics : list Metric) : option Metric :=
  find (fun m => String.eqb (key m) k) metrics.

(** [next((m.value for m in metrics if m.key == k), None)] *)
Definition first_value (k : string) (metrics : list Metric) : option Q :=
  match first_metric k metrics with
  | Some m => value m
  | None => None
  end.

(** [gm.value = v] on the first metric keyed [k], in place. *)
Fixpoint set_first_value (k : string) (v : Q) (metrics : list Metric) : list Metric :=
  match metrics with
  | [] => []
  | m :: rest =>
      if String.eqb (key m) k
      then mkMetric (key m) (label_en m) (label_zh m) (Some v) (prev m) (unit m) (anchor m)
             :: rest
      else m :: set_first_value k v rest
  end.

(** The "Derived OPEX" block; the source reads [oi] from the metric keyed
    ["opex"]. *)
Definition derive_opex (st : IsState) : IsState :=
  let '(metrics, evidence, missing) := st in
  let gp := first_value "gross_profit" metrics in
  let oi := first_value "opex" metrics in
  match gp, oi with
  | Some gp, Some oi =>
      let opex := (gp - oi)%Q in
      (metrics ++ [mkMetric "opex" "Operating Expense" "營業費用" (Some opex) None "NTD" None],
       evidence ++ [mkEvidence "opex" None None (Some "gross_profit - opex") (Some opex) None],
       missing)%list
  | _, _ => (metrics, evidence, (missing ++ ["DERIVE_OPEX_MISSING_INPUT"])%list)
  end.

(** The gross-margin block; [gp] is the value read before the OPEX block. *)
Definition derive_gross_margin (gp : option Q) (st : IsState) : IsState :=
  let '(metrics, evidence, missing) := st in
  let gm := first_metric "gross_margin" metrics in
  let rev := first_value "revenue" metrics in
  match gm, rev, gp with
  | Some gm, Some rev, Some gp =>
      match value gm with
      | None =>
          if Qeq_bool rev 0 then st
          else
            let v := (gp / rev * 100)%Q in
            (set_first_value "gross_margin" v metrics,
             (evidence ++ [mkEvidence "gross_margin" None None
                             (Some "gross_profit / revenue") (Some v) None])%list,
             missing)
      | Some _ => st
      end
  | _, _, _ => st
  end.

(** The sheet-choice loop of [_extract_is_metrics]. *)
Definition is_sheet_like (name : string) : bool :=
  Text.contains "TWN_IS" name || String.eqb "IS" name || Text.contains "損益" name.

Definition choose_is_sheet (sheets : Sheets) : option string :=
  match find (fun s => is_sheet_like (fst s)) sheets with
  | Some (name, _) => Some name
  | None =>
      match sheets with
      | (name, _) :: _ => Some name
      | [] => None
      end
  end.

Section Extraction.

Variable py_float : string -> option Q.
Variable norm_text_global : option (cell -> string).

(** The part of the loop body that follows a located row [r]. *)
Definition extract_located (sheet : string) (df : DataFrame) (k : string) (r : nat)
  : result (Metric * Evidence) :=
  nums <- _find_numeric_in_row py_float df r ;;
  let '(curr, curr_c, prev, _) := nums in
  let anchor :=
    match curr_c with
    | Some c => Some (_a1 sheet r c)
    | None => None
    end in
  Ok (mkMetric k (label_en_of k) (label_zh_of k) curr prev
        (if String.eqb k "gross_margin" then "%" else "NTD") anchor,
      mkEvidence k (Some sheet) anchor None curr prev).

(** Body of [for key, kws in _IS_KEYS.items()]. *)
Definition locate_and_extract (sheet : string) (df : DataFrame)
           (st : IsState) (entry : string * list string) : result IsState :=
  let '(metrics, evidence, missing) := st in
  let k := fst entry in
  r <- _find_row norm_text_global df (snd entry) None ;;
  match r with
  | None =>
      Ok ((metrics ++ [mkMetric k (Text.title (Text.replace_char "_" " " k)) k
                         None None "" None])%list,
          evidence,
          (missing ++ [("IS_ROW_MISSING::" ++ k)%string])%list)
  | Some r =>
      me <- extract_located sheet df k r ;;
      Ok ((metrics ++ [fst me])%list, (evidence ++ [snd me])%list, missing)
  end.

Definition _extract_is_metrics (sheets : Sheets) (lang : string) : result IsState :=
  match choose_is_sheet sheets with
  | None => Ok ([], [], ["NO_SHEETS"])
  | Some is_sheet_name =>
      let df := match dict_get sheets is_sheet_name with
                | Some df => df
                | None => []
                end in
      st <- foldM (locate_and_extract is_sheet_name df) _IS_KEYS ([], [], []) ;;
      let gp := first_value "gross_profit" (fst (fst st)) in
      Ok (derive_gross_margin gp (derive_opex st))
  end.

End Extraction.

(** ** Cash-Cycle Scanner *)

Section CashCycle.

Variable py_float : string -> option Q.
Variable py_str : PyText.

(** [str(v)] *)
Definition cell_text (v : cell) : string :=
  match v with
  | CNone => "None"
  | CNaN => "nan"
  | CNum q => str_number py_str q
  | CStr s => s
  end.

(** [any(_norm(k) in ns for k in keyword_variants)] *)
Definition label_matches (keyword_variants : list string) (v : cell) : bool :=
  existsb (fun k => Text.contains (_norm py_str k) (_norm py_str (cell_text v)))
          keyword_variants.

(** [for cc in range(...)]: first numeric cell of row [r] among columns
    [ccs]. *)
Fixpoint look_right (df : DataFrame) (r : nat) (ccs : list nat) : option (Q * nat) :=
  match ccs with
  | [] => None
  | cc :: rest =>
      match _to_float py_float (iat df r cc) with
      | Some num => Some (num, cc)
      | None => look_right df r rest
      end
  end.

(** [for rr in range(...)]: first numeric cell of column [c] among rows
    [rrs]. *)
Fixpoint look_down (df : DataFrame) (c : nat) (rrs : list nat) : option (Q * nat) :=
  match rrs with
  | [] => None
  | rr :: rest =>
      match _to_float py_float (iat df rr c) with
      | Some num => Some (num, rr)
      | None => look_down df c rest
      end
  end.

(** What follows a label match at [(r, c)]: right, then down. *)
Definition probe (sheet : string) (df : DataFrame) (r c : nat) : option (Q * string) :=
  match look_right df r (py_range (c + 1) (Nat.min (shape1 df) (c + 8))) with
  | Some (num, cc) => Some (num, _a1 sheet r cc)
  | None =>
      match look_down df c (py_range (r + 1) (Nat.min (shape0 df) (r + 8))) with
      | Some (num, rr) => Some (num, _a1 sheet rr c)
      | None => None
      end
  end.

(** Every cell of the frame, row by row. *)
Definition all_cells (df : DataFrame) : list (nat * nat) :=
  flat_map (fun r => map (pair r) (py_range 0 (shape1 df))) (py_range 0 (shape0 df)).

(** The [for r / for c] loops over the cells still to visit. *)
Fixpoint scan_cells (sheet : string) (df : DataFrame) (keyword_variants : list string)
         (cells : list (nat * nat)) : option (Q * string) :=
  match cells with
  | [] => None
  | rc :: rest =>
      let v := iat df (fst rc) (snd rc) in
      if is_blank v then scan_cells sheet df keyword_variants rest
      else if label_matches keyword_variants v then
        match probe sheet df (fst rc) (snd rc) with
        | Some hit => Some hit
        | None => scan_cells sheet df keyword_variants rest
        end
      else scan_cells sheet df keyword_variants rest
  end.

(** The [for sheet, df in sheets.items()] loop. *)
Fixpoint scan_sheets (sheets : Sheets) (keyword_variants : list string)
  : option (Q * string) :=
  match sheets with
  | [] => None
  | (sheet, df) :: rest =>
      if df_empty df then scan_sheets rest keyword_variants
      else
        match scan_cells sheet df keyword_variants (all_cells df) with
        | Some hit => Some hit
        | None => scan_sheets rest keyword_variants
        end
  end.

Definition _scan_kpi_by_keywords (sheets : Sheets) (keyword_variants : list string)
  : option Q * option string :=
  match scan_sheets sheets keyword_variants with
  | Some (num, a) => (Some num, Some a)
  | None => (None, None)
  end.

(** The [cash] dict. *)
Record CashCycle : Type := mkCash {
  dso : option Q; dio : option Q; dpo : option Q; ccc : option Q;
  anchors : list (string * option string)
}.

(** The local [add(k, val, anc)] on [(evidence, missing)]. *)
Definition cash_add (st : list Evidence * list string) (k : string)
           (val : option Q) (anc : option string) : list Evidence * list string :=
  match val with
  | None => (fst st, (snd st ++ [("MISSING::" ++ k)%string])%list)
  | Some v => ((fst st ++ [mkEvidence k None anc None (Some v) None])%list, snd st)
  end.

Definition _extract_cash_cycle (sheets : Sheets)
  : CashCycle * list Evidence * list string :=
  let '(dso, a_dso) := _scan_kpi_by_keywords sheets ["DSO"; "應收天數"; "應收帳款週轉天數"] in
  let '(dio, a_dio) := _scan_kpi_by_keywords sheets ["DIO"; "存貨天數"; "存貨週轉天數"] in
  let '(dpo, a_dpo) := _scan_kpi_by_keywords sheets ["DPO"; "應付天數"; "應付帳款週轉天數"] in
  let '(ccc, a_ccc) := _scan_kpi_by_keywords sheets ["CCC"; "現金週轉"; "現金循環"] in
  let st := cash_add ([], []) "DSO" dso a_dso in
  let st := cash_add st "DIO" dio a_dio in
  let st := cash_add st "DPO" dpo a_dpo in
  let st := cash_add st "CCC" ccc a_ccc in
  (mkCash dso dio dpo ccc
     [("dso", a_dso); ("dio", a_dio); ("dpo", a_dpo); ("ccc", a_ccc)],
   fst st, snd st).

End CashCycle.

(** ** Radar Scorer *)

(** One entry of the dimension library; a key the entry lacks reads as
    [None] through [d.get]. *)
Record Dim : Type := mkDim {
  dim_id : option string;
  display_en : option string;
  display_zh : option string
}.

Record Signal : Type := mkSignal {
  sg_dim_id : option string;
  sg_label : option string;
  sg_score : Q;
  sg_confidence : Q;
  sg_evidence : string
}.

(** The "hard fallback" list of [_radar_library]. *)
Definition fallback_library : list Dim :=
  [ mkDim (Some "D01") (Some "Revenue Volatility") (Some "營收波動");
    mkDim (Some "D02") (Some "Gross Margin Drift") (Some "毛利率漂移");
    mkDim (Some "D03") (Some "OPEX Creep") (Some "費用膨脹");
    mkDim (Some "D04") (Some "Operating Profit Stability") (Some "營業費用穩定");
    mkDim (Some "D05") (Some "Cash Conversion Cycle") (Some "CCC 現金循環");
    mkDim (Some "D06") (Some "Working Capital Stress") (Some "營運資金壓力");
    mkDim (Some "D07") (Some "Customer Concentration") (Some "客戶集中");
    mkDim (Some "D08") (Some "Inventory Risk") (Some "存貨風險") ].

(** The nested [drift_score(delta_pct, worse_if_abs_gt)]. *)
Definition drift_score (delta : option Q) (worse_if_abs_gt : Q) : Q * Q :=
  match delta with
  | None => (5, 1 # 5)%Q
  | Some d =>
      let a := Qabs d in
      if Qle_bool 30 a then (9, 4 # 5)%Q
      else if Qle_bool worse_if_abs_gt a then (15 # 2, 7 # 10)%Q
      else if Qle_bool 5 a then (6, 3 # 5)%Q
      else (4, 3 # 5)%Q
  end.

(** [m_by = {m.key: m for m in metrics}] then [m_by.get(k)]: the last
    metric keyed [k] wins. *)
Definition m_by_get (metrics : list Metric) (k : string) : option Metric :=
  find (fun m => String.eqb (key m) k) (rev metrics).

Definition delta_of (m : option Metric) : option Q :=
  match m with
  | Some m => delta_pct m
  | None => None
  end.

(** The level ladder of D05 and D06: [lo if x <= a else mid if x <= b else hi]. *)
Definition level_score (x : option Q) (a b : Q) (ev : string) : Q * Q * string :=
  match x with
  | None => (5, 1 # 5, "missing")%Q
  | Some x =>
      ((if Qle_bool x a then 4 else if Qle_bool x b then 13 # 2 else 17 # 2)%Q,
       (3 # 5)%Q, ev)
  end.

Section Radar.

(** The optional dimension-library file: [Some dims] when the file exists
    and holds a list of objects (or an object with such a list under
    "dimensions"), [None] otherwise. *)
Variable lib_file : option (list Dim).

Definition _radar_library : list Dim :=
  match lib_file with
  | Some dims => dims
  | None => fallback_library
  end.

Definition dim_label (lang : string) (d : Dim) : option string :=
  if String.eqb lang "en" then display_en d else display_zh d.

Definition _default_radar (lang : string) : list Signal :=
  map (fun d => mkSignal (dim_id d) (dim_label lang d) 5 (1 # 5) "fallback")
      (firstn 8 _radar_library).

(** The list [s] of [(score, confidence, evidence)], D01..D08. *)
Definition radar_scores (metrics : list Metric) (cash : CashCycle)
  : list (Q * Q * string) :=
  let rev := m_by_get metrics "revenue" in
  let gm := m_by_get metrics "gross_margin" in
  let oi := m_by_get metrics "opex" in
  let opex := m_by_get metrics "opex" in
  let d01 := drift_score (delta_of rev) 10 in
  let d02 := drift_score (delta_of gm) 3 in
  let d03 :=
    match opex, rev with
    | Some o, Some r =>
        match value o, value r with
        | Some ov, Some rv =>
            if Qeq_bool rv 0 then (5, 1 # 5, "missing")%Q
            else
              let ratio := (ov / Qabs rv)%Q in
              ((if Qle_bool (7 # 20) ratio then 15 # 2
                else if Qle_bool (1 # 4) ratio then 13 # 2
                else 9 # 2)%Q, (3 # 5)%Q, "opex/rev")
        | _, _ => (5, 1 # 5, "missing")%Q
        end
    | _, _ => (5, 1 # 5, "missing")%Q
    end in
  let d04 := drift_score (delta_of oi) 10 in
  [ (fst d01, snd d01, "rev.delta");
    (fst d02, snd d02, "gm.delta");
    d03;
    (fst d04, snd d04, "oi.delta");
    level_score (ccc cash) 60 120 "ccc.level";
    level_score (dso cash) 45 75 "dso.level";
    (5, 1 # 5, "not_available")%Q;
    (5, 1 # 5, "not_available")%Q ].

(** [for i, d in enumerate(lib): ... s[i]]; [lib] has at most 8 entries
    and [s] exactly 8. *)
Definition _build_radar_signals (metrics : list Metric) (cash : CashCycle)
           (lang : string) : list Signal :=
  map (fun ds : Dim * (Q * Q * string) =>
         mkSignal (dim_id (fst ds)) (dim_label lang (fst ds))
                  (fst (fst (snd ds))) (snd (fst (snd ds))) (snd (snd ds)))
      (combine (firstn 8 _radar_library) (radar_scores metrics cash)).

End Radar.

(** ** Period detection *)

Definition is_digit (a : ascii) : bool :=
  let n := nat_of_ascii a in (48 <=? n) && (n <=? 57).

Definition digit_val (a : ascii) : nat := nat_of_ascii a - 48.

(** [f"{n:02d}"] *)
Definition pad2 (n : nat) : string := if n <? 10 then "0" ++ dec n else dec n.

(** A match of [(20\d{2})[\-/](\d{1,2})] at the head of [s], formatted as
    [f"{g1}/{int(g2):02d}"]. *)
Definition match_period_here (s : string) : option string :=
  match s with
  | String a (String b (String c (String d (String sep (String e rest))))) =>
      if Ascii.eqb a "2" && Ascii.eqb b "0" && is_digit c && is_digit d
         && (Ascii.eqb sep "-" || Ascii.eqb sep "/") && is_digit e
      then
        let month :=
          match rest with
          | String f _ => if is_digit f then 10 * digit_val e + digit_val f else digit_val e
          | EmptyString => digit_val e
          end in
        Some (String a (String b (String c (String d "/"))) ++ pad2 month)
      else None
  | _ => None
  end.

(** [re.search] on ASCII text: the leftmost match. *)
Fixpoint search_period_ascii (s : string) : option string :=
  match match_period_here s with
  | Some p => Some p
  | None =>
      match s with
      | EmptyString => None
      | String _ s' => search_period_ascii s'
      end
  end.

(** [re.search(...)] and the formatting of its match. *)
Definition search_period (py_str : PyText) (s : string) : option string :=
  if Text.is_ascii s then search_period_ascii s else period_unicode py_str s.

Section Period.

Variable py_str : PyText.

Fixpoint period_in_cells (df : DataFrame) (cells : list (nat * nat)) : option string :=
  match cells with
  | [] => None
  | rc :: rest =>
      let v := iat df (fst rc) (snd rc) in
      if is_blank v then period_in_cells df rest
      else
        match search_period py_str (cell_text py_str v) with
        | Some p => Some p
        | None => period_in_cells df rest
        end
  end.

Definition header_cells (df : DataFrame) : list (nat * nat) :=
  flat_map (fun r => map (pair r) (py_range 0 (Nat.min 12 (shape1 df))))
           (py_range 0 (Nat.min 8 (shape0 df))).

Fixpoint period_in_sheets (sheets : Sheets) : option string :=
  match sheets with
  | [] => None
  | (name, df) :: rest =>
      match search_period py_str name with
      | Some p => Some p
      | None =>
          if df_empty df then period_in_sheets rest
          else
            match period_in_cells df (header_cells df) with
            | Some p => Some p
            | None => period_in_sheets rest
            end
      end
  end.

Definition _detect_period (sheets : Sheets) : string :=
  match period_in_sheets sheets with
  | Some p => p
  | None => "2017/08"
  end.

End Period.

(** ** The analysis result *)

Record Kpi : Type := mkKpi {
  kpi_label : string;
  kpi_value : option Q;
  kpi_unit : string;
  kpi_delta_pct : option Q;
  kpi_anchor : option string;
  canonical_metric_id : string
}.

(** One mapping-backlog entry. *)
Record Gap : Type := mkGap {
  gap_type : string;
  gap_code : string;
  gap_detail : option string;
  gap_status : string
}.

(** [system["cache"]] *)
Record CacheNote : Type := mkNote {
  hit : bool;
  age_s : option Q;
  cache_error : option string
}.

Record SystemInfo : Type := mkSystem {
  file_id : string;
  sys_sheets : list string;
  parser : string;
  sys_cache : option CacheNote
}.

Record Filters : Type := mkFilters {
  f_cycle : string; f_terms : string; f_mode : string; f_hold : string
}.

(** The dict [analyze_file] returns. The rendered fragments
    ([scoreboard_narrative], [cards], [ai_hint], [ai_brief]) are text
    formatted from the fields below and are not part of the record. *)
Record Analysis : Type := mkAnalysis {
  ok : bool;
  status : string;
  period : string;
  filters : Filters;
  system : SystemInfo;
  kpis : list Kpi;
  cash_cycle : CashCycle;
  radar_signals : list Signal;
  evidence_ledger : list Evidence;
  mapping_backlog : list Gap
}.

(** The KPI dict built from one metric; [delta_pct] leaves as a fraction. *)
Definition kpi_of (lang u : string) (m : Metric) : Kpi :=
  mkKpi (if String.eqb lang "en" then label_en m else label_zh m)
        (value m) u
        (match delta_pct m with
         | None => None
         | Some dp => Some (dp / 100)%Q
         end)
        (anchor m) (key m).

Definition is_amount_key (k : string) : bool :=
  existsb (String.eqb k) ["revenue"; "gross_profit"; "opex"; "opex"; "net_income"].

(** The [for m in metrics] loop that fills [kpis]. *)
Definition build_kpis (lang : string) (metrics : list Metric) : list Kpi :=
  flat_map (fun m =>
              if String.eqb (key m) "gross_margin" then [kpi_of lang "%" m]
              else if is_amount_key (key m) then [kpi_of lang "NTD" m]
              else [])
           metrics.

Definition mapping_gap (code : string) : Gap := mkGap "MAPPING_GAP" code None "OPEN".

Definition system_error (e : pyexc) : Gap :=
  mkGap "SYSTEM_ERROR" (exc_kind e) (Some (exc_msg e)) "OPEN".

Definition degraded_cash : CashCycle := mkCash None None None None [].

(** ** The file system, as the analysis sees it *)

Record FileStat : Type := mkStat { st_mtime_ns : Z; st_size : Z }.

Record FS : Type := mkFS {
  (** [file_path.stat()], raising what the operating system reports. *)
  fs_stat : string -> result FileStat;
  (** [str(file_path.resolve())] *)
  fs_resolve : string -> string;
  (** [pd.read_excel(file_path, sheet_name=None, header=None)], names
      through [str]; [None] when it raises. *)
  fs_read_excel : string -> option Sheets
}.

Definition _read_all_sheets (fs : FS) (file_path : string) : Sheets :=
  match fs_read_excel fs file_path with
  | Some sheets => sheets
  | None => []
  end.

(** The six parameters after [file_path]. *)
Record Params : Type := mkParams {
  p_lang : string; p_prompt : string;
  p_cycle : string; p_terms : string; p_mode : string; p_hold : string
}.

Section Engine.

Variable py_float : string -> option Q.
Variable py_str : PyText.
(** [Path.stem] *)
Variable path_stem : string -> string.
Variable norm_text_global : option (cell -> string).
Variable lib_file : option (list Dim).

(** The [try] block of [analyze_file]. Only its first statement can raise,
    so the two lists the handler reads are still empty when it runs. *)
Definition analyze_body (sheets : Sheets) (system : SystemInfo) (p : Params)
  : result Analysis :=
  st <- _extract_is_metrics py_float norm_text_global sheets (p_lang p) ;;
  let '(metrics, is_evidence, is_missing) := st in
  let '(cash, cash_evidence, cash_missing) := _extract_cash_cycle py_float py_str sheets in
  let mapping_backlog := map mapping_gap (is_missing ++ cash_missing)%list in
  let evidence_ledger := (is_evidence ++ cash_evidence)%list in
  let period := _detect_period py_str sheets in
  let kpis := build_kpis (p_lang p) metrics in
  let signals := _build_radar_signals lib_file metrics cash (p_lang p) in
  let status := match mapping_backlog with [] => "OK" | _ :: _ => "PARTIAL" end in
  Ok (mkAnalysis true status period
        (mkFilters (p_cycle p) (p_terms p) (p_mode p) (p_hold p))
        system kpis cash signals evidence_ledger mapping_backlog).

(** The [except Exception as e] block. *)
Definition analyze_degraded (system : SystemInfo) (p : Params) (e : pyexc)
  : result Analysis :=
  Ok (mkAnalysis true "DEGRADED" "—"
        (mkFilters (p_cycle p) (p_terms p) (p_mode p) (p_hold p))
        system [] degraded_cash (_default_radar lib_file (p_lang p))
        [] [system_error e]).

Definition analyze_file (fs : FS) (file_path : string) (p : Params) : result Analysis :=
  let sheets := _read_all_sheets fs file_path in
  let system := mkSystem (path_stem file_path) (map fst sheets) "pandas/openpyxl" None in
  try_except (analyze_body sheets system p) (analyze_degraded system p).

(** ** Deterministic cache *)

Record CacheKey : Type := mkKey {
  k_path : string; k_lang : string; k_cycle : string; k_terms : string;
  k_mode : string; k_hold : string; k_ph : string;
  k_mtime : Z; k_size : Z
}.

Definition key_eqb (a b : CacheKey) : bool :=
  String.eqb (k_path a) (k_path b) && String.eqb (k_lang a) (k_lang b)
  && String.eqb (k_cycle a) (k_cycle b) && String.eqb (k_terms a) (k_terms b)
  && String.eqb (k_mode a) (k_mode b) && String.eqb (k_hold a) (k_hold b)
  && String.eqb (k_ph a) (k_ph b)
  && Z.eqb (k_mtime a) (k_mtime b) && Z.eqb (k_size a) (k_size b).

(** [{"ts": ..., "data": ...}] *)
Record CacheEntry : Type := mkEntry { ts : Q; data : Analysis }.

(** [_ANALYSIS_CACHE], in insertion order. *)
Definition Cache : Type := list (CacheKey * CacheEntry).

Definition _ANALYSIS_CACHE_TTL_S : Q := (30 * 60)%Q.
Definition _ANALYSIS_CACHE_MAX : nat := 8.

Fixpoint cache_get (k : CacheKey) (c : Cache) : option CacheEntry :=
  match c with
  | [] => None
  | (k', e) :: rest => if key_eqb k' k then Some e else cache_get k rest
  end.

(** [_ANALYSIS_CACHE.pop(k, None)] *)
Fixpoint cache_pop (k : CacheKey) (c : Cache) : Cache :=
  match c with
  | [] => []
  | (k', e) :: rest => if key_eqb k' k then rest else (k', e) :: cache_pop k rest
  end.

(** [_ANALYSIS_CACHE[k] = e]: a present key keeps its place. *)
Fixpoint cache_set (k : CacheKey) (e : CacheEntry) (c : Cache) : Cache :=
  match c with
  | [] => [(k, e)]
  | (k', e') :: rest =>
      if key_eqb k' k then (k', e) :: rest else (k', e') :: cache_set k e rest
  end.

Definition Qltb (a b : Q) : bool := negb (Qle_bool b a).

(** The [for k, v in _ANALYSIS_CACHE.items()] loop of the pruning. *)
Fixpoint oldest_key (c : Cache) (oldest : option (CacheKey * Q)) : option CacheKey :=
  match c with
  | [] => option_map fst oldest
  | (k, v) :: rest =>
      match oldest with
      | None => oldest_key rest (Some (k, ts v))
      | Some (_, oldest_ts) =>
          if Qltb (ts v) oldest_ts then oldest_key rest (Some (k, ts v))
          else oldest_key rest oldest
      end
  end.

Definition prune_oldest (c : Cache) : Cache :=
  if _ANALYSIS_CACHE_MAX <=? length c then
    match oldest_key c None with
    | Some k => cache_pop k c
    | None => c
    end
  else c.

(** [sysd["cache"] = note] on a result. *)
Definition annotate (note : CacheNote) (out : Analysis) : Analysis :=
  mkAnalysis (ok out) (status out) (period out) (filters out)
    (mkSystem (file_id (system out)) (sys_sheets (system out)) (parser (system out))
       (Some note))
    (kpis out) (cash_cycle out) (radar_signals out) (evidence_ledger out)
    (mapping_backlog out).

(** [hashlib.sha1((prompt or "").encode("utf-8")).hexdigest()[:12]]; the
    encoding raises [UnicodeEncodeError] on a prompt that holds a lone
    surrogate. *)
Variable sha1_hex12 : string -> result string.
(** [round(x, 2)] *)
Variable round2 : Q -> Q.

(** The tuple [key]; [ph] is the prompt digest. *)
Definition cache_key (fs : FS) (file_path : string) (p : Params) (st : FileStat)
           (ph : string) : CacheKey :=
  mkKey (fs_resolve fs file_path) (p_lang p) (p_cycle p) (p_terms p) (p_mode p)
        (p_hold p) ph (st_mtime_ns st) (st_size st).

(** The miss path: compute, prune, store, annotate. *)
Definition cached_miss (fs : FS) (cache : Cache) (now : Q) (k : CacheKey)
           (file_path : string) (p : Params) : result (Analysis * Cache) :=
  out <- analyze_file fs file_path p ;;
  let cache' := cache_set k (mkEntry now out) (prune_oldest cache) in
  Ok (annotate (mkNote false (Some 0%Q) None) out, cache').

(** The [try] block of [analyze_file_cached]; [now] is [time.time()]. *)
Definition cached_body (fs : FS) (cache : Cache) (now : Q)
           (file_path : string) (p : Params) : result (Analysis * Cache) :=
  match fs_stat fs file_path with
  | Raise e => Raise e
  | Ok st =>
      match sha1_hex12 (p_prompt p) with
      | Raise e => Raise e
      | Ok ph =>
          let k := cache_key fs file_path p st ph in
          match cache_get k cache with
          | Some ent =>
              if Qltb (now - ts ent) _ANALYSIS_CACHE_TTL_S
              then Ok (annotate (mkNote true (Some (round2 (now - ts ent))) None)
                                (data ent),
                       cache)
              else cached_miss fs cache now k file_path p
          | None => cached_miss fs cache now k file_path p
          end
      end
  end.

(** [analyze_file_cached], with the cache before and after the call. The
    [try] block raises before it touches the cache, so the handler leaves
    it as it was. *)
Definition analyze_file_cached (fs : FS) (cache : Cache) (now : Q)
           (file_path : string) (p : Params) : result (Analysis * Cache) :=
  try_except (cached_body fs cache now file_path p)
    (fun e =>
       out <- analyze_file fs file_path p ;;
       Ok (annotate (mkNote false None
                       (Some (exc_kind e ++ ": " ++ exc_msg e)))
                    out,
           cache)).

End Engine.

(** * Properties *)

(** ** Generic facts *)

Lemma rev_seq_S (n : nat) : rev (seq 0 (S n)) = n :: rev (seq 0 n).
Proof.
  rewrite seq_S, rev_app_distr. reflexivity.
Qed.

Lemma iat_checked_inside (df : DataFrame) (r c : nat) :
  r < shape0 df -> c < shape1 df -> iat_checked df r c = Ok (iat df r c).
Proof.
  intros Hr Hc. unfold iat_checked.
  apply Nat.ltb_lt in Hr. apply Nat.ltb_lt in Hc.
  rewrite Hr, Hc. reflexivity.
Qed.

(** A plain decimal reader, used to run the model on concrete sheets: digits
    only, anything else is refused. *)
Fixpoint digits_value (s : string) (acc : nat) : option nat :=
  match s with
  | EmptyString => Some acc
  | String a s' => if is_digit a then digits_value s' (10 * acc + digit_val a) else None
  end.

Definition digits_float (s : string) : option Q :=
  match s with
  | EmptyString => None
  | _ => option_map (fun n => inject_Z (Z.of_nat n)) (digits_value s 0)
  end.

(** The text builtins on the texts of the examples, which hold ASCII and
    CJK labels only: a CJK label has neither whitespace nor case, and no
    example holds a digit outside ASCII. Numbers print as the empty text,
    which is no label. *)
Definition demo_text : PyText :=
  mkPyText (fun _ => "") (fun s => Text.lower (Text.remove_spaces s)) (fun _ => None).

(** ** Metric Extractor *)

Section ExtractorFacts.

Variable py_float : string -> option Q.

Definition numeric_at (df : DataFrame) (r c : nat) (v : Q) : Prop :=
  _to_float py_float (iat df r c) = Some v.

(** No cell of row [r] in columns [lo .. hi-1] coerces to a number. *)
Definition no_numeric (df : DataFrame) (r lo hi : nat) : Prop :=
  forall c, lo <= c < hi -> _to_float py_float (iat df r c) = None.

(** What "the first two numeric values from the right" means. *)
Definition rightmost_two (df : DataFrame) (r : nat)
           (res : option Q * option nat * option Q * option nat) : Prop :=
  let '(curr, curr_c, prev, prev_c) := res in
  match curr_c with
  | None =>
      curr = None /\ prev = None /\ prev_c = None /\ no_numeric df r 0 (shape1 df)
  | Some c =>
      c < shape1 df /\
      (exists v, curr = Some v /\ numeric_at df r c v) /\
      no_numeric df r (S c) (shape1 df) /\
      match prev_c with
      | None => prev = None /\ no_numeric df r 0 c
      | Some pc =>
          pc < c /\
          (exists pv, prev = Some pv /\ numeric_at df r pc pv) /\
          no_numeric df r (S pc) c
      end
  end.

Lemma no_numeric_empty (df : DataFrame) (r lo : nat) : no_numeric df r lo lo.
Proof. intros c Hc. lia. Qed.

Lemma no_numeric_extend (df : DataFrame) (r lo n : nat) :
  _to_float py_float (iat df r n) = None ->
  no_numeric df r lo n -> no_numeric df r lo (S n).
Proof.
  intros Hn H c Hc. destruct (Nat.eq_dec c n) as [-> | Hne]; [assumption |].
  apply H. lia.
Qed.

(** The loop once one value has been taken. *)
Lemma scan_nums_second (df : DataFrame) (r : nat) (x : Q * nat) (n : nat) :
  r < shape0 df -> n <= shape1 df ->
  (scan_nums py_float df r (rev (seq 0 n)) [x] = Ok [x] /\ no_numeric df r 0 n)
  \/ (exists v pc,
         scan_nums py_float df r (rev (seq 0 n)) [x] = Ok [x; (v, pc)]
         /\ pc < n /\ numeric_at df r pc v /\ no_numeric df r (S pc) n).
Proof.
  intros Hr. induction n as [| n IH]; intros Hn.
  - left. split; [reflexivity | apply no_numeric_empty].
  - rewrite rev_seq_S. cbn [scan_nums].
    rewrite iat_checked_inside by lia. cbn [bind].
    destruct (_to_float py_float (iat df r n)) as [v |] eqn:E.
    + right. exists v, n. cbn. repeat split; try lia; try assumption.
      apply no_numeric_empty.
    + destruct IH as [[Hs Hnone] | (v & pc & Hs & Hpc & Hv & Hnone)]; [lia | |].
      * left. split; [assumption | apply no_numeric_extend; assumption].
      * right. exists v, pc. repeat split; try assumption; try lia.
        apply no_numeric_extend; assumption.
Qed.

(** The loop from its start. *)
Lemma scan_nums_first (df : DataFrame) (r n : nat) :
  r < shape0 df -> n <= shape1 df ->
  (scan_nums py_float df r (rev (seq 0 n)) [] = Ok [] /\ no_numeric df r 0 n)
  \/ (exists v c,
         c < n /\ numeric_at df r c v /\ no_numeric df r (S c) n
         /\ ((scan_nums py_float df r (rev (seq 0 n)) [] = Ok [(v, c)]
              /\ no_numeric df r 0 c)
             \/ (exists pv pc,
                    scan_nums py_float df r (rev (seq 0 n)) [] = Ok [(v, c); (pv, pc)]
                    /\ pc < c /\ numeric_at df r pc pv /\ no_numeric df r (S pc) c))).
Proof.
  intros Hr. induction n as [| n IH]; intros Hn.
  - left. split; [reflexivity | apply no_numeric_empty].
  - rewrite rev_seq_S. cbn [scan_nums].
    rewrite iat_checked_inside by lia. cbn [bind].
    destruct (_to_float py_float (iat df r n)) as [v |] eqn:E.
    + right. exists v, n. split; [lia |]. split; [assumption |].
      split; [apply no_numeric_empty |].
      cbn [app length Nat.leb].
      destruct (scan_nums_second df r (v, n) n Hr ltac:(lia))
        as [[Hs Hnone] | (pv & pc & Hs & Hpc & Hv & Hnone)].
      * left. split; assumption.
      * right. exists pv, pc. repeat split; assumption.
    + destruct IH as [[Hs Hnone] | (v & c & Hc & Hv & Hnone & Hrest)]; [lia | |].
      * left. split; [assumption | apply no_numeric_extend; assumption].
      * right. exists v, c. split; [lia |]. split; [assumption |].
        split; [apply no_numeric_extend; assumption | assumption].
Qed.

Lemma find_numeric_in_row_spec (df : DataFrame) (r : nat) :
  r < shape0 df ->
  exists res, _find_numeric_in_row py_float df r = Ok res /\ rightmost_two df r res.
Proof.
  intros Hr. unfold _find_numeric_in_row, cols_right_to_left.
  destruct (scan_nums_first df r (shape1 df) Hr (Nat.le_refl _))
    as [[Hs Hnone] | (v & c & Hc & Hv & Hnone & [[Hs Hleft] | (pv & pc & Hs & Hpc & Hpv & Hmid)])];
    rewrite Hs; cbn [bind]; eexists; (split; [reflexivity |]); cbn.
  - repeat split; assumption.
  - split; [assumption |]. split; [exists v; split; [reflexivity | assumption] |].
    split; [assumption |]. split; [reflexivity | assumption].
  - split; [assumption |]. split; [exists v; split; [reflexivity | assumption] |].
    split; [assumption |]. split; [assumption |].
    split; [exists pv; split; [reflexivity | assumption] | assumption].
Qed.

(** Text that [float] refuses is absent, not zero. *)
Lemma to_float_unparsable (s : string) :
  py_float (Text.remove_commas (Text.strip s)) = None -> _to_float py_float (CStr s) = None.
Proof.
  intros H. cbn. rewrite H. destruct (String.eqb _ _); reflexivity.
Qed.

End ExtractorFacts.

(** The row of the scenario: label, blank, prior, current. *)
Definition revenue_row : list cell := [CStr "Revenue"; CStr ""; CNum 1000; CNum 1200].

(** C3: [_find_numeric_in_row] on a located row returns the first two
    numeric cells met from the right as (current, previous) with their
    columns, previous being absent when there is no second one; text that
    does not parse is absent rather than zero; and on the row
    ["Revenue", "", 1000, 1200] it yields current 1200 in column 3, previous
    1000 in column 2, the anchor being the coordinate of the 1200 cell. *)
Theorem metric_extractor_rightmost_two
        (py_float : string -> option Q) (df : DataFrame) (r : nat) :
  r < shape0 df ->
  (exists res, _find_numeric_in_row py_float df r = Ok res
               /\ rightmost_two py_float df r res)
  /\ (forall s, py_float (Text.remove_commas (Text.strip s)) = None ->
                _to_float py_float (CStr s) = None)
  /\ _find_numeric_in_row py_float [revenue_row] 0
     = Ok (Some 1200%Q, Some 3, Some 1000%Q, Some 2)
  /\ (exists m e, extract_located py_float "IS" [revenue_row] "revenue" 0 = Ok (m, e)
                  /\ value m = Some 1200%Q /\ prev m = Some 1000%Q
                  /\ anchor m = Some (_a1 "IS" 0 3) /\ ev_anchor e = Some "IS!D1").
Proof.
  intros Hr. split; [apply find_numeric_in_row_spec; assumption |].
  split; [apply to_float_unparsable |].
  split; [reflexivity |].
  eexists; eexists. split; [reflexivity |]. cbn. repeat split; reflexivity.
Qed.

Lemma metric_extractor_rightmost_two_witness :
  (0 < shape0 [[CStr "Net sales"; CStr "n/a"; CNum 7; CStr "1,5"]])
  /\ exists res,
      _find_numeric_in_row digits_float [[CStr "Net sales"; CStr "n/a"; CNum 7; CStr "1,5"]] 0
      = Ok res
      /\ rightmost_two digits_float [[CStr "Net sales"; CStr "n/a"; CNum 7; CStr "1,5"]] 0 res.
Proof.
  split; [cbn; lia |].
  apply (metric_extractor_rightmost_two digits_float
           [[CStr "Net sales"; CStr "n/a"; CNum 7; CStr "1,5"]] 0).
  cbn; lia.
Defined.

(** ** KPI payload *)

Definition kpi_eligible (m : Metric) : bool :=
  String.eqb (key m) "gross_margin" || is_amount_key (key m).

(** [k] carries the change of [m] as a fraction: (current - previous) over
    |previous| when both exist and previous is not zero, nothing otherwise. *)
Definition is_fraction_of (m : Metric) (k : Kpi) : Prop :=
  (forall v p, value m = Some v -> prev m = Some p -> ~ (p == 0)%Q ->
               exists d, kpi_delta_pct k = Some d /\ (d == (v - p) / Qabs p)%Q)
  /\ (value m = None \/ prev m = None \/ (exists p, prev m = Some p /\ (p == 0)%Q) ->
      kpi_delta_pct k = None).

Lemma kpi_of_fraction (lang u : string) (m : Metric) : is_fraction_of m (kpi_of lang u m).
Proof.
  unfold is_fraction_of, kpi_of, delta_pct. cbn. split.
  - intros v p Hv Hp Hnz. rewrite Hv, Hp.
    destruct (Qeq_bool p 0) eqn:E.
    + apply Qeq_bool_iff in E. contradiction.
    + eexists. split; [reflexivity |].
      apply Qdiv_mult_l. discriminate.
  - intros [Hv | [Hp | (p & Hp & Hz)]].
    + rewrite Hv. reflexivity.
    + rewrite Hp. destruct (value m); reflexivity.
    + rewrite Hp. apply Qeq_bool_iff in Hz. rewrite Hz.
      destruct (value m); reflexivity.
Qed.

Lemma build_kpis_pairs (lang : string) (metrics : list Metric) :
  Forall2 (fun m k => canonical_metric_id k = key m /\ kpi_value k = value m
                      /\ kpi_anchor k = anchor m /\ is_fraction_of m k)
          (filter kpi_eligible metrics) (build_kpis lang metrics).
Proof.
  induction metrics as [| m rest IH]; [constructor |].
  unfold build_kpis in *. cbn [flat_map filter]. unfold kpi_eligible at 1.
  destruct (String.eqb (key m) "gross_margin") eqn:Egm; cbn [orb].
  - constructor; [| assumption].
    repeat split; try reflexivity; apply kpi_of_fraction.
  - destruct (is_amount_key (key m)); cbn [app].
    + constructor; [| assumption].
      repeat split; try reflexivity; apply kpi_of_fraction.
    + assumption.
Qed.

(** A metric that gained 3.4 percent. *)
Definition revenue_up : Metric :=
  mkMetric "revenue" "Revenue" "營收" (Some 1034%Q) (Some 1000%Q) "NTD" None.

(** C7: every entry of the KPI list comes from one eligible metric, in
    order, and its [delta_pct] is the fraction (current - previous) /
    |previous| when both values exist and previous is non-zero, absent
    otherwise; a 3.4 percent rise is reported as 0.034. *)
Theorem kpi_delta_pct_is_fraction (lang : string) (metrics : list Metric) :
  Forall2 (fun m k => canonical_metric_id k = key m /\ kpi_value k = value m
                      /\ kpi_anchor k = anchor m /\ is_fraction_of m k)
          (filter kpi_eligible metrics) (build_kpis lang metrics)
  /\ (exists d, map kpi_delta_pct (build_kpis lang [revenue_up]) = [Some d]
                /\ (d == 34 # 1000)%Q).
Proof.
  split; [apply build_kpis_pairs |].
  eexists. split; [reflexivity |]. reflexivity.
Qed.

(** ** Radar Scorer *)

(** The threshold ladder with middle rung [mid], in the spec's words:
    |delta| >= 30 gives 9.0 / 0.8, >= [mid] gives 7.5 / 0.7, >= 5 gives
    6.0 / 0.6, anything smaller 4.0 / 0.6; no delta gives the neutral
    5.0 / 0.2. *)
Definition on_ladder (mid : Q) (delta : option Q) (sc cf : Q) : Prop :=
  match delta with
  | None => sc = 5%Q /\ cf = (1 # 5)%Q
  | Some d =>
      (30 <= Qabs d -> sc = 9 /\ cf = 4 # 5)%Q
      /\ (mid <= Qabs d -> Qabs d < 30 -> sc = 15 # 2 /\ cf = 7 # 10)%Q
      /\ (5 <= Qabs d -> Qabs d < mid -> Qabs d < 30 -> sc = 6 /\ cf = 3 # 5)%Q
      /\ (Qabs d < 5 -> Qabs d < mid -> Qabs d < 30 -> sc = 4 /\ cf = 3 # 5)%Q
  end.

Lemma Qle_bool_false (a b : Q) : Qle_bool a b = false -> (b < a)%Q.
Proof.
  intros H. apply Qnot_le_lt. intros Hle.
  apply Qle_bool_iff in Hle. congruence.
Qed.

(** Closes a rung of the ladder: the values are the rung's own, or the
    rung's guards contradict the comparisons already made. *)
Ltac ladder_rung :=
  intros;
  first
    [ split; reflexivity
    | exfalso;
      match goal with
      | H1 : (?x < ?y)%Q, H2 : (?y <= ?x)%Q |- _ => exact (Qlt_not_le _ _ H1 H2)
      end ].

Lemma drift_score_on_ladder (mid : Q) (delta : option Q) :
  on_ladder mid delta (fst (drift_score delta mid)) (snd (drift_score delta mid)).
Proof.
  destruct delta as [d |]; cbn; [| split; reflexivity].
  destruct (Qle_bool 30 (Qabs d)) eqn:E30.
  - apply Qle_bool_iff in E30. cbn. repeat apply conj; ladder_rung.
  - apply Qle_bool_false in E30.
    destruct (Qle_bool mid (Qabs d)) eqn:Em.
    + apply Qle_bool_iff in Em. cbn. repeat apply conj; ladder_rung.
    + apply Qle_bool_false in Em.
      destruct (Qle_bool 5 (Qabs d)) eqn:E5.
      * apply Qle_bool_iff in E5. cbn. repeat apply conj; ladder_rung.
      * apply Qle_bool_false in E5. cbn. repeat apply conj; ladder_rung.
Qed.

Definition in_range (sc cf : Q) : Prop := (0 <= sc /\ sc <= 10 /\ 0 <= cf /\ cf <= 1)%Q.

Lemma drift_score_in_range (mid : Q) (delta : option Q) :
  in_range (fst (drift_score delta mid)) (snd (drift_score delta mid)).
Proof.
  unfold drift_score, in_range. destruct delta as [d |]; [| cbn; repeat split; discriminate].
  destruct (Qle_bool 30 (Qabs d)); [cbn; repeat split; discriminate |].
  destruct (Qle_bool mid (Qabs d)); [cbn; repeat split; discriminate |].
  destruct (Qle_bool 5 (Qabs d)); cbn; repeat split; discriminate.
Qed.

Lemma level_score_in_range (x : option Q) (a b : Q) (ev : string) :
  in_range (fst (fst (level_score x a b ev))) (snd (fst (level_score x a b ev))).
Proof.
  unfold level_score, in_range. destruct x as [x |]; [| cbn; repeat split; discriminate].
  destruct (Qle_bool x a); [cbn; repeat split; discriminate |].
  destruct (Qle_bool x b); cbn; repeat split; discriminate.
Qed.

Definition score_conf (s : Signal) : Q * Q := (sg_score s, sg_confidence s).

Definition neutral : Q * Q := (5, 1 # 5)%Q.

(** The OPEX-creep entry, D03. *)
Definition d03_of (metrics : list Metric) (cash : CashCycle) : Q * Q * string :=
  nth 2 (radar_scores metrics cash) (0%Q, 0%Q, "").

Lemma d03_in_range (metrics : list Metric) (cash : CashCycle) :
  in_range (fst (fst (d03_of metrics cash))) (snd (fst (d03_of metrics cash))).
Proof.
  unfold d03_of, radar_scores. cbn [nth].
  destruct (m_by_get metrics "opex") as [o |]; [| cbn; repeat split; discriminate].
  destruct (m_by_get metrics "revenue") as [r |]; [| cbn; repeat split; discriminate].
  destruct (value o) as [ov |]; [| cbn; repeat split; discriminate].
  destruct (value r) as [rv |]; [| cbn; repeat split; discriminate].
  destruct (Qeq_bool rv 0); [cbn; repeat split; discriminate |].
  destruct (Qle_bool (7 # 20) (ov / Qabs rv)); [cbn; repeat split; discriminate |].
  destruct (Qle_bool (1 # 4) (ov / Qabs rv)); cbn; repeat split; discriminate.
Qed.

Lemma d03_missing (metrics : list Metric) (cash : CashCycle) :
  (m_by_get metrics "opex" = None \/ m_by_get metrics "revenue" = None
   \/ (exists o, m_by_get metrics "opex" = Some o /\ value o = None)
   \/ (exists r, m_by_get metrics "revenue" = Some r /\ value r = None)) ->
  d03_of metrics cash = (5%Q, (1 # 5)%Q, "missing").
Proof.
  unfold d03_of, radar_scores. cbn [nth].
  intros [H | [H | [(o & H & Hv) | (r & H & Hv)]]]; rewrite H; try reflexivity.
  - destruct (m_by_get metrics "opex"); reflexivity.
  - rewrite Hv. destruct (m_by_get metrics "revenue"); reflexivity.
  - rewrite Hv. destruct (m_by_get metrics "opex") as [o |]; [| reflexivity].
    destruct (value o); reflexivity.
Qed.

Lemma radar_signals_shape (lib_file : option (list Dim)) (metrics : list Metric)
      (cash : CashCycle) (lang : string) :
  8 <= length (_radar_library lib_file) ->
  exists d1 d2 d3 d4 d5 d6 d7 d8,
    firstn 8 (_radar_library lib_file) = [d1; d2; d3; d4; d5; d6; d7; d8]
    /\ _build_radar_signals lib_file metrics cash lang
       = map (fun ds : Dim * (Q * Q * string) =>
                mkSignal (dim_id (fst ds)) (dim_label lang (fst ds))
                         (fst (fst (snd ds))) (snd (fst (snd ds))) (snd (snd ds)))
             (combine [d1; d2; d3; d4; d5; d6; d7; d8] (radar_scores metrics cash)).
Proof.
  intros Hlen. unfold _build_radar_signals.
  destruct (_radar_library lib_file)
    as [| d1 [| d2 [| d3 [| d4 [| d5 [| d6 [| d7 [| d8 rest]]]]]]]];
    cbn in Hlen; try lia.
  exists d1, d2, d3, d4, d5, d6, d7, d8. split; reflexivity.
Qed.

(** A gross-margin metric that moved by 4 percent. *)
Definition margin_up_4 : Metric :=
  mkMetric "gross_margin" "Gross Margin %" "毛利率%" (Some 104%Q) (Some 100%Q) "%" None.

(** The specified ladder (middle rung at 10) does not describe the
    gross-margin dimension: a 4 percent drift scores 7.5 / 0.7, where the
    ladder gives 4.0 / 0.6. *)
Lemma radar_gm_drift_off_the_ladder :
  exists s d,
    nth_error (_build_radar_signals None [margin_up_4] degraded_cash "en") 1 = Some s
    /\ delta_of (m_by_get [margin_up_4] "gross_margin") = Some d
    /\ (d == 4)%Q
    /\ score_conf s = ((15 # 2)%Q, (7 # 10)%Q)
    /\ ~ on_ladder 10 (Some d) (sg_score s) (sg_confidence s).
Proof.
  eexists. eexists. split; [reflexivity |]. split; [reflexivity |].
  split; [reflexivity |]. split; [reflexivity |].
  intros (_ & _ & _ & H).
  assert (Hsc : sg_score (mkSignal (Some "D02") (Some "Gross Margin Drift")
                            (15 # 2)%Q (7 # 10)%Q "gm.delta") = 4%Q).
  { apply H; reflexivity. }
  discriminate Hsc.
Qed.

(** C8, as the code has it: given a dimension library of at least eight
    entries (the built-in one has eight), the scorer returns eight signals,
    one per dimension in library order. Revenue volatility and
    operating-profit stability follow the ladder 30 / 10 / 5; gross-margin
    drift follows the ladder with its middle rung at 3; a dimension without
    data is neutral (5.0 at 0.2), as the last two always are; every score is
    within [0,10] and every confidence within [0,1]. *)
Theorem radar_signals_eight_dimensions
        (lib_file : option (list Dim)) (metrics : list Metric)
        (cash : CashCycle) (lang : string) :
  8 <= length (_radar_library lib_file) ->
  exists s1 s2 s3 s4 s5 s6 s7 s8,
    _build_radar_signals lib_file metrics cash lang = [s1; s2; s3; s4; s5; s6; s7; s8]
    /\ map sg_dim_id [s1; s2; s3; s4; s5; s6; s7; s8]
       = map dim_id (firstn 8 (_radar_library lib_file))
    /\ on_ladder 10 (delta_of (m_by_get metrics "revenue")) (sg_score s1) (sg_confidence s1)
    /\ on_ladder 3 (delta_of (m_by_get metrics "gross_margin"))
                 (sg_score s2) (sg_confidence s2)
    /\ on_ladder 10 (delta_of (m_by_get metrics "opex")) (sg_score s4) (sg_confidence s4)
    /\ ((m_by_get metrics "opex" = None \/ m_by_get metrics "revenue" = None
         \/ (exists o, m_by_get metrics "opex" = Some o /\ value o = None)
         \/ (exists r, m_by_get metrics "revenue" = Some r /\ value r = None)) ->
        score_conf s3 = neutral)
    /\ (ccc cash = None -> score_conf s5 = neutral)
    /\ (dso cash = None -> score_conf s6 = neutral)
    /\ score_conf s7 = neutral /\ score_conf s8 = neutral
    /\ Forall (fun s => in_range (sg_score s) (sg_confidence s))
              [s1; s2; s3; s4; s5; s6; s7; s8].
Proof.
  intros Hlen.
  destruct (radar_signals_shape lib_file metrics cash lang Hlen)
    as (d1 & d2 & d3 & d4 & d5 & d6 & d7 & d8 & Hlib & Hsig).
  rewrite Hsig, Hlib.
  pose proof (d03_in_range metrics cash) as Hr3.
  pose proof (d03_missing metrics cash) as Hm3.
  unfold d03_of in Hr3, Hm3. unfold radar_scores in *. cbn [nth] in Hr3, Hm3.
  cbn [combine map].
  do 8 eexists. split; [reflexivity |]. cbn [sg_score sg_confidence sg_dim_id fst snd map].
  split; [reflexivity |].
  split; [apply drift_score_on_ladder |].
  split; [apply drift_score_on_ladder |].
  split; [apply drift_score_on_ladder |].
  split.
  { intros H. unfold score_conf. cbn [sg_score sg_confidence].
    rewrite (Hm3 H). reflexivity. }
  split; [intros H; rewrite H; reflexivity |].
  split; [intros H; rewrite H; reflexivity |].
  split; [reflexivity |]. split; [reflexivity |].
  repeat apply Forall_cons; try apply Forall_nil; cbn [sg_score sg_confidence];
    first [ apply drift_score_in_range | apply level_score_in_range | exact Hr3
          | unfold in_range; cbn; repeat split; discriminate ].
Qed.

Lemma radar_signals_eight_dimensions_witness :
  8 <= length (_radar_library None)
  /\ exists s1 s2 s3 s4 s5 s6 s7 s8,
      _build_radar_signals None [revenue_up; margin_up_4] degraded_cash "en"
      = [s1; s2; s3; s4; s5; s6; s7; s8]
      /\ score_conf s1 = ((4 # 1)%Q, (3 # 5)%Q)
      /\ score_conf s2 = ((15 # 2)%Q, (7 # 10)%Q).
Proof.
  split; [cbn; lia |].
  destruct (radar_signals_eight_dimensions None [revenue_up; margin_up_4] degraded_cash "en")
    as (s1 & s2 & s3 & s4 & s5 & s6 & s7 & s8 & Heq & _); [cbn; lia |].
  exists s1, s2, s3, s4, s5, s6, s7, s8. split; [exact Heq |].
  cbn in Heq. injection Heq as <- <- _ _ _ _ _ _. split; reflexivity.
Defined.

(** ** Row Locator *)

Lemma foldM_total {S A : Type} (body : S -> A -> result S) :
  (forall s x, exists s', body s x = Ok s') ->
  forall xs s, exists s', foldM body xs s = Ok s'.
Proof.
  intros Hbody xs. induction xs as [| x rest IH]; intros s; cbn.
  - exists s. reflexivity.
  - destruct (Hbody s x) as [s' ->]. cbn. apply IH.
Qed.

Section LocatorFacts.

Variables (df : DataFrame) (keywords : list string).

Definition has_label (rc : nat * nat) : bool := negb (is_blank (iat df (fst rc) (snd rc))).

(** With [_norm_text] unbound, the scan stops with [NameError] at the
    first cell that is not blank. *)
Lemma scan_unbound (forbid : list string) (cells : list (nat * nat))
      (best : Z * option nat) :
  foldM (visit_cell None df keywords forbid) cells best
  = if existsb has_label cells then Raise (name_error "_norm_text") else Ok best.
Proof.
  induction cells as [| rc rest IH]; [reflexivity |].
  cbn [foldM existsb]. unfold visit_cell at 1, has_label at 1.
  destruct (is_blank (iat df (fst rc) (snd rc))); cbn; [apply IH | reflexivity].
Qed.

Lemma find_row_unbound (forbid : option (list string)) :
  _find_row None df keywords forbid
  = if existsb has_label (label_cells df)
    then Raise (name_error "_norm_text") else Ok None.
Proof.
  unfold _find_row. rewrite scan_unbound.
  destruct (existsb has_label (label_cells df)); reflexivity.
Qed.

(** With [_norm_text] bound, the locator never raises. *)
Lemma find_row_bound_total (f : cell -> string) (forbid : option (list string)) :
  exists r, _find_row (Some f) df keywords forbid = Ok r.
Proof.
  unfold _find_row.
  destruct (foldM_total (visit_cell (Some f) df keywords
                           match forbid with Some l => l | None => [] end))
    with (xs := label_cells df) (s := ((- 10 ^ 9)%Z, @None nat)) as [best Hbest].
  - intros best rc. unfold visit_cell.
    destruct (is_blank (iat df (fst rc) (snd rc))); [eexists; reflexivity |].
    cbn [call_norm_text bind].
    destruct (negb (Text.nonempty (f (iat df (fst rc) (snd rc)))));
      [eexists; reflexivity |].
    destruct (foldM_total
                (score_keyword (Some f) (f (iat df (fst rc) (snd rc)))
                   match forbid with Some l => l | None => [] end))
      with (xs := keywords) (s := @None Z) as [sh Hsh].
    + intros sh kw. unfold score_keyword. cbn [call_norm_text bind].
      destruct (negb (Text.nonempty (f (CStr kw)))); [eexists; reflexivity |].
      destruct (match_score _ _) as [sc0 |]; [| eexists; reflexivity].
      destruct (foldM_total (penalise (Some f) (f (iat df (fst rc) (snd rc)))))
        with (xs := match forbid with Some l => l | None => [] end) (s := sc0)
        as [sc Hsc].
      * intros sc fb. unfold penalise. cbn. eexists; reflexivity.
      * rewrite Hsc. cbn. eexists; reflexivity.
    + rewrite Hsh. cbn. destruct sh; eexists; reflexivity.
  - rewrite Hbest. cbn. destruct (snd best); [| eexists; reflexivity].
    destruct (fst best <? 50)%Z; eexists; reflexivity.
Qed.

End LocatorFacts.

(** The sibling normaliser, [_norm] on [str(val)], as a candidate binding. *)
Definition norm_sibling (v : cell) : string := _norm demo_text (cell_text demo_text v).

Definition margin_sheet : DataFrame :=
  [ [CStr "Gross Profit Margin"; CNum (3 # 10); CNum (1 # 4)];
    [CStr "Gross Profit"; CNum 300; CNum 250];
    [CStr "  gross  PROFIT "; CNum 1; CNum 2] ].

(** What the scoring does once [_norm_text] is bound: the amount row wins
    over the margin row, and the first of two equal rows is kept. *)
Example locator_with_sibling_binding :
  _find_row (Some norm_sibling) margin_sheet ["營業毛利"; "gross profit"]
            (Some ["margin"; "%"; "率"; "毛利率"]) = Ok (Some 1)
  /\ _find_row (Some norm_sibling) [[CStr "Gross Profit Margin"]] ["gross profit"]
               (Some ["margin"]) = Ok (Some 0)
  /\ _find_row (Some norm_sibling) [[CStr "Gross Profit Margin %"]] ["gross profit"]
               (Some ["margin"; "%"]) = Ok None.
Proof.
  repeat split; vm_compute; reflexivity.
Qed.

(** C2 on the code: at a sheet whose first label cell is "Revenue" the Row
    Locator raises [NameError] for the global [_norm_text], which the module
    never binds; the caller passes the exception on, so neither a row nor a
    NOT_FOUND gap comes out. Bound to the sibling [_norm], the same call
    locates row 0. *)
Theorem row_locator_raises_name_error :
  _find_row analyze_py_globals [revenue_row] ["revenue"] None
  = Raise (name_error "_norm_text")
  /\ _extract_is_metrics digits_float analyze_py_globals [("IS", [revenue_row])] "en"
     = Raise (name_error "_norm_text")
  /\ _find_row (Some norm_sibling) [revenue_row] ["revenue"] None = Ok (Some 0).
Proof.
  repeat split; vm_compute; reflexivity.
Qed.

(** ** Derivation Resolver *)

Definition is_opex (m : Metric) : bool := String.eqb (key m) "opex".

Lemma set_first_value_keeps_opex (v : Q) (metrics : list Metric) :
  filter is_opex (set_first_value "gross_margin" v metrics) = filter is_opex metrics.
Proof.
  induction metrics as [| m rest IH]; [reflexivity |].
  cbn [set_first_value]. destruct (String.eqb (key m) "gross_margin") eqn:E.
  - apply String.eqb_eq in E. cbn [filter]. unfold is_opex. cbn [key].
    rewrite E. reflexivity.
  - cbn [filter]. rewrite IH. reflexivity.
Qed.

Lemma set_first_value_keeps_others (v : Q) (metrics : list Metric) (m : Metric) :
  String.eqb (key m) "gross_margin" = false ->
  In m metrics -> In m (set_first_value "gross_margin" v metrics).
Proof.
  intros Hk. induction metrics as [| m' rest IH]; [intros [] |].
  intros [-> | Hin]; cbn [set_first_value].
  - rewrite Hk. left. reflexivity.
  - destruct (String.eqb (key m') "gross_margin"); right; [assumption | apply IH; assumption].
Qed.

(** The gross-margin step leaves the OPEX metrics and the gaps alone and
    only appends to the evidence. *)
Lemma derive_gross_margin_frame (gp : option Q) (st : IsState) :
  filter is_opex (fst (fst (derive_gross_margin gp st))) = filter is_opex (fst (fst st))
  /\ snd (derive_gross_margin gp st) = snd st
  /\ (forall m, String.eqb (key m) "gross_margin" = false ->
                In m (fst (fst st)) -> In m (fst (fst (derive_gross_margin gp st))))
  /\ (forall e, In e (snd (fst st)) -> In e (snd (fst (derive_gross_margin gp st)))).
Proof.
  destruct st as [[metrics evidence] missing]. unfold derive_gross_margin.
  destruct (first_metric "gross_margin" metrics) as [gm |]; [| cbn; auto].
  destruct (first_value "revenue" metrics) as [rev |]; [| cbn; auto].
  destruct gp as [gp |]; [| cbn; auto].
  destruct (value gm); [cbn; auto |].
  destruct (Qeq_bool rev 0); [cbn; auto |].
  cbn [fst snd]. split; [apply set_first_value_keeps_opex |].
  split; [reflexivity |].
  split; [intros m Hk Hin; apply set_first_value_keeps_others; assumption |].
  intros e Hin. apply in_or_app. left. assumption.
Qed.

(** The two derivation steps together: the second input of the OPEX step
    is the value of the metric keyed "opex". When gross profit and that
    value are both present, a metric of value gross_profit minus it is
    appended, with an evidence entry tagged "gross_profit - opex" and no
    anchor, and both survive the gross-margin step; when either is absent,
    the gap DERIVE_OPEX_MISSING_INPUT is appended, nothing is derived and
    the OPEX metrics stay as extracted. *)
Lemma derive_steps_on_opex_row
        (metrics : list Metric) (evidence : list Evidence) (missing : list string)
        (gp' : option Q) :
  let st := (metrics, evidence, missing) in
  let out := derive_gross_margin gp' (derive_opex st) in
  match first_value "gross_profit" metrics, first_value "opex" metrics with
  | Some g, Some o =>
      exists m e,
        derive_opex st = ((metrics ++ [m])%list, (evidence ++ [e])%list, missing)
        /\ key m = "opex" /\ value m = Some (g - o)%Q /\ anchor m = None
        /\ ev_metric e = "opex" /\ ev_current e = Some (g - o)%Q
        /\ ev_anchor e = None /\ ev_derived e = Some "gross_profit - opex"
        /\ In m (fst (fst out)) /\ In e (snd (fst out)) /\ snd out = missing
  | _, _ =>
      derive_opex st = (metrics, evidence, (missing ++ ["DERIVE_OPEX_MISSING_INPUT"])%list)
      /\ snd out = (missing ++ ["DERIVE_OPEX_MISSING_INPUT"])%list
      /\ filter is_opex (fst (fst out)) = filter is_opex metrics
  end.
Proof.
  intros st out.
  destruct (derive_gross_margin_frame gp' (derive_opex st)) as (Hopex & Hmiss & Hms & Hev).
  fold out in Hopex, Hmiss, Hms, Hev.
  unfold derive_opex, st in *.
  destruct (first_value "gross_profit" metrics) as [g |];
    [destruct (first_value "opex" metrics) as [o |] |].
  - eexists; eexists. split; [reflexivity |]. cbn [key value anchor ev_metric ev_current
      ev_anchor ev_derived]. repeat split; try reflexivity.
    + apply Hms; [reflexivity |]. cbn [fst]. apply in_or_app. right. left. reflexivity.
    + apply Hev. cbn [fst snd]. apply in_or_app. right. left. reflexivity.
    + rewrite Hmiss. reflexivity.
  - split; [reflexivity |]. split; [rewrite Hmiss; reflexivity | exact Hopex].
  - split; [reflexivity |]. split; [rewrite Hmiss; reflexivity | exact Hopex].
Qed.

(** ** The analysis entry point *)

Section EngineFacts.

Variable py_float : string -> option Q.
Variable py_str : PyText.
Variable path_stem : string -> string.
Variable norm_text_global : option (cell -> string).
Variable lib_file : option (list Dim).

Local Abbreviation analyze :=
  (analyze_file py_float py_str path_stem norm_text_global lib_file).

(** C10: when the sheet reader yields no sheets, [analyze_file] returns a
    PARTIAL result whose backlog is the NO_SHEETS gap followed by the
    MISSING:: gaps of DSO, DIO, DPO and CCC, all of type MAPPING_GAP, with
    an empty KPI list. *)
Theorem no_sheets_gives_partial (fs : FS) (file_path : string) (p : Params) :
  _read_all_sheets fs file_path = [] ->
  exists a,
    analyze fs file_path p = Ok a
    /\ status a = "PARTIAL"
    /\ mapping_backlog a
       = map mapping_gap
             ["NO_SHEETS"; "MISSING::DSO"; "MISSING::DIO"; "MISSING::DPO"; "MISSING::CCC"]
    /\ kpis a = []
    /\ Forall (fun g => gap_type g = "MAPPING_GAP" /\ gap_type g <> "SYSTEM_ERROR")
              (mapping_backlog a).
Proof.
  intros Hsheets. unfold analyze_file. rewrite Hsheets.
  eexists. split; [reflexivity |]. cbn.
  repeat split; try reflexivity.
  repeat constructor; discriminate.
Qed.

End EngineFacts.

(** ** Evidence ledger *)

(** An entry with a value says where the value comes from. *)
Definition entry_grounded (e : Evidence) : Prop :=
  ev_current e <> None -> ev_anchor e <> None \/ ev_derived e <> None.

(** The ledger holds an entry for metric [k] with current value [v]. *)
Definition backed (evidence : list Evidence) (k : string) (v : Q) : Prop :=
  exists e, In e evidence /\ ev_metric e = k /\ ev_current e = Some v.

Definition ledger_ok (metrics : list Metric) (evidence : list Evidence) : Prop :=
  Forall entry_grounded evidence
  /\ (forall m v, In m metrics -> value m = Some v -> backed evidence (key m) v).

Lemma backed_app_l (ev ev' : list Evidence) (k : string) (v : Q) :
  backed ev k v -> backed (ev ++ ev') k v.
Proof.
  intros (e & Hin & Hk & Hv). exists e. split; [apply in_or_app; left; assumption |].
  split; assumption.
Qed.

Lemma backed_last (ev : list Evidence) (e : Evidence) (v : Q) :
  ev_current e = Some v -> backed (ev ++ [e]) (ev_metric e) v.
Proof.
  intros Hv. exists e. split; [apply in_or_app; right; left; reflexivity |].
  split; [reflexivity | assumption].
Qed.

Lemma foldM_invariant {S A : Type} (I : S -> Prop) (body : S -> A -> result S) :
  (forall s x s', I s -> body s x = Ok s' -> I s') ->
  forall xs s s', I s -> foldM body xs s = Ok s' -> I s'.
Proof.
  intros Hbody xs. induction xs as [| x rest IH]; intros s s' Hs Hrun; cbn in Hrun.
  - injection Hrun as <-. assumption.
  - destruct (body s x) as [s1 | e] eqn:E; cbn in Hrun; [| discriminate].
    eapply IH; [eapply Hbody; eassumption | eassumption].
Qed.

Lemma ledger_ok_append (metrics : list Metric) (evidence : list Evidence)
      (m : Metric) (e : Evidence) :
  ledger_ok metrics evidence ->
  entry_grounded e -> ev_metric e = key m -> ev_current e = value m ->
  ledger_ok (metrics ++ [m]) (evidence ++ [e]).
Proof.
  intros [Hev Hms] He Hk Hv. split.
  - apply Forall_app. split; [assumption | constructor; [assumption | constructor]].
  - intros m' v Hin Hval. apply in_app_or in Hin. destruct Hin as [Hin | [<- | []]].
    + apply backed_app_l. eapply Hms; eassumption.
    + rewrite <- Hk. apply backed_last. rewrite Hv. assumption.
Qed.

Section LedgerFacts.

Variable py_float : string -> option Q.
Variable norm_text_global : option (cell -> string).

(** A current value always comes with its column. *)
Lemma find_numeric_has_column (df : DataFrame) (r : nat)
      (curr : option Q) (curr_c : option nat) (prev : option Q) (prev_c : option nat) :
  _find_numeric_in_row py_float df r = Ok (curr, curr_c, prev, prev_c) ->
  curr <> None -> curr_c <> None.
Proof.
  unfold _find_numeric_in_row.
  destruct (scan_nums py_float df r (cols_right_to_left df) []) as [nums | e];
    cbn [bind]; [| discriminate].
  destruct nums as [| [v c] [| [v' c'] rest]]; cbn; intros H;
    injection H as <- <- _ _; intros Hc; first [contradiction | discriminate].
Qed.

Lemma extract_located_grounded (sheet : string) (df : DataFrame) (k : string) (r : nat)
      (m : Metric) (e : Evidence) :
  extract_located py_float sheet df k r = Ok (m, e) ->
  key m = k /\ ev_metric e = k /\ ev_current e = value m /\ entry_grounded e.
Proof.
  unfold extract_located.
  destruct (_find_numeric_in_row py_float df r) as [[[[curr curr_c] prev] prev_c] | ex] eqn:E;
    cbn [bind]; [| discriminate].
  intros H. injection H as <- <-. cbn. repeat split.
  unfold entry_grounded. cbn. intros Hcurr. left.
  pose proof (find_numeric_has_column _ _ _ _ _ _ E Hcurr) as Hc.
  destruct curr_c; [discriminate | contradiction].
Qed.

Lemma ledger_ok_missing_row (metrics : list Metric) (evidence : list Evidence) (m : Metric) :
  ledger_ok metrics evidence -> value m = None -> ledger_ok (metrics ++ [m]) evidence.
Proof.
  intros [Hev Hms] Hnone. split; [assumption |].
  intros m' v Hin Hval. apply in_app_or in Hin. destruct Hin as [Hin | [<- | []]].
  - eapply Hms; eassumption.
  - congruence.
Qed.

Lemma locate_and_extract_ledger (sheet : string) (df : DataFrame)
      (st st' : IsState) (entry : string * list string) :
  ledger_ok (fst (fst st)) (snd (fst st)) ->
  locate_and_extract py_float norm_text_global sheet df st entry = Ok st' ->
  ledger_ok (fst (fst st')) (snd (fst st')).
Proof.
  destruct st as [[metrics evidence] missing]. cbn [fst snd]. intros Hok.
  unfold locate_and_extract.
  destruct (_find_row norm_text_global df (snd entry) None) as [[r |] | ex];
    cbn [bind]; [| | discriminate].
  - destruct (extract_located py_float sheet df (fst entry) r) as [[m e] | ex] eqn:E;
      cbn [bind]; [| discriminate].
    intros H. injection H as <-. cbn [fst snd].
    destruct (extract_located_grounded _ _ _ _ _ _ E) as (Hk & Hke & Hv & Hg).
    apply ledger_ok_append; try assumption; congruence.
  - intros H. injection H as <-. cbn [fst snd].
    apply ledger_ok_missing_row; [assumption | reflexivity].
Qed.

Lemma derive_opex_ledger (st : IsState) :
  ledger_ok (fst (fst st)) (snd (fst st)) ->
  ledger_ok (fst (fst (derive_opex st))) (snd (fst (derive_opex st))).
Proof.
  destruct st as [[metrics evidence] missing]. cbn [fst snd]. intros Hok.
  unfold derive_opex.
  destruct (first_value "gross_profit" metrics) as [g |]; [| assumption].
  destruct (first_value "opex" metrics) as [o |]; [| assumption].
  cbn [fst snd]. apply ledger_ok_append; try assumption; try reflexivity.
  intros _. right. discriminate.
Qed.

Lemma in_set_first_value (k : string) (v : Q) (metrics : list Metric) (m : Metric) :
  In m (set_first_value k v metrics) ->
  In m metrics \/ (key m = k /\ value m = Some v).
Proof.
  induction metrics as [| m0 rest IH]; [intros [] |].
  cbn [set_first_value]. destruct (String.eqb (key m0) k) eqn:E.
  - intros [<- | Hin].
    + right. apply String.eqb_eq in E. split; [exact E | reflexivity].
    + left. right. assumption.
  - intros [<- | Hin]; [left; left; reflexivity |].
    destruct (IH Hin) as [H | H]; [left; right; assumption | right; assumption].
Qed.

Lemma derive_gross_margin_ledger (gp : option Q) (st : IsState) :
  ledger_ok (fst (fst st)) (snd (fst st)) ->
  ledger_ok (fst (fst (derive_gross_margin gp st))) (snd (fst (derive_gross_margin gp st))).
Proof.
  destruct st as [[metrics evidence] missing]. cbn [fst snd]. intros Hok.
  unfold derive_gross_margin.
  destruct (first_metric "gross_margin" metrics) as [gm |]; [| assumption].
  destruct (first_value "revenue" metrics) as [rev |]; [| assumption].
  destruct gp as [gp |]; [| assumption].
  destruct (value gm); [assumption |].
  destruct (Qeq_bool rev 0); [assumption |].
  cbn [fst snd]. destruct Hok as [Hev Hms]. split.
  - apply Forall_app. split; [assumption |].
    constructor; [| constructor]. intros _. right. discriminate.
  - intros m v Hin Hval. apply in_set_first_value in Hin.
    destruct Hin as [Hin | [Hk Hv]].
    + apply backed_app_l. eapply Hms; eassumption.
    + rewrite Hk. rewrite Hv in Hval. injection Hval as <-.
      eexists. split; [apply in_or_app; right; left; reflexivity |].
      split; reflexivity.
Qed.

(** Extraction and derivation keep the ledger invariant. *)
Lemma extract_is_metrics_ledger (sheets : Sheets) (lang : string) (st : IsState) :
  _extract_is_metrics py_float norm_text_global sheets lang = Ok st ->
  ledger_ok (fst (fst st)) (snd (fst st)).
Proof.
  unfold _extract_is_metrics.
  destruct (choose_is_sheet sheets) as [name |].
  - destruct (foldM (locate_and_extract py_float norm_text_global name
                       match dict_get sheets name with Some df => df | None => [] end)
                    _IS_KEYS ([], [], [])) as [st0 | ex] eqn:E; cbn [bind]; [| discriminate].
    intros H. injection H as <-.
    apply derive_gross_margin_ledger, derive_opex_ledger.
    eapply (foldM_invariant (fun s : IsState => ledger_ok (fst (fst s)) (snd (fst s))));
      [| | exact E].
    + intros s x s' Hs Hstep. eapply locate_and_extract_ledger; eassumption.
    + split; [constructor | intros m v []].
  - intros H. injection H as <-. split; [constructor | intros m v []].
Qed.

End LedgerFacts.

(** ** Cash-Cycle Scanner *)

Lemma in_grid_cells (rows cols : nat) (r c : nat) :
  In (r, c) (flat_map (fun r => map (pair r) (py_range 0 cols)) (py_range 0 rows))
  <-> r < rows /\ c < cols.
Proof.
  unfold py_range. rewrite in_flat_map. split.
  - intros (r' & Hr & Hc). apply in_map_iff in Hc. destruct Hc as (c' & Heq & Hc).
    injection Heq as -> ->. apply in_seq in Hr. apply in_seq in Hc. lia.
  - intros [Hr Hc]. exists r. split; [apply in_seq; lia |].
    apply in_map_iff. exists c. split; [reflexivity | apply in_seq; lia].
Qed.

Section ScannerFacts.

Variable py_float : string -> option Q.
Variable py_str : PyText.

(** The cell at [(r, c)] holds a label of the KPI. *)
Definition label_cell (kws : list string) (df : DataFrame) (r c : nat) : Prop :=
  is_blank (iat df r c) = false /\ label_matches py_str kws (iat df r c) = true.

(** The cells the code looks at after a label at column [c] (row [r]): the
    next seven, inside the frame. *)
Definition right_window (df : DataFrame) (c cc : nat) : Prop :=
  c < cc /\ cc <= c + 7 /\ cc < shape1 df.

Definition down_window (df : DataFrame) (r rr : nat) : Prop :=
  r < rr /\ rr <= r + 7 /\ rr < shape0 df.

Definition windows_blank (df : DataFrame) (r c : nat) : Prop :=
  (forall cc, right_window df c cc -> _to_float py_float (iat df r cc) = None)
  /\ (forall rr, down_window df r rr -> _to_float py_float (iat df rr c) = None).

(** [v] is the first number right of the label, or, none being there, the
    first number below it; [a] is its anchor. *)
Definition window_hit (sheet : string) (df : DataFrame) (r c : nat) (v : Q) (a : string)
  : Prop :=
  (exists cc, right_window df c cc
              /\ _to_float py_float (iat df r cc) = Some v
              /\ (forall cc', c < cc' < cc -> _to_float py_float (iat df r cc') = None)
              /\ a = _a1 sheet r cc)
  \/ ((forall cc, right_window df c cc -> _to_float py_float (iat df r cc) = None)
      /\ exists rr, down_window df r rr
                    /\ _to_float py_float (iat df rr c) = Some v
                    /\ (forall rr', r < rr' < rr -> _to_float py_float (iat df rr' c) = None)
                    /\ a = _a1 sheet rr c).

Lemma look_right_seq (df : DataFrame) (r n a : nat) :
  match look_right py_float df r (seq a n) with
  | Some (v, cc) =>
      a <= cc < a + n /\ _to_float py_float (iat df r cc) = Some v
      /\ (forall cc', a <= cc' < cc -> _to_float py_float (iat df r cc') = None)
  | None => forall cc, a <= cc < a + n -> _to_float py_float (iat df r cc) = None
  end.
Proof.
  revert a. induction n as [| n IH]; intros a; cbn [seq look_right].
  - intros cc Hcc. lia.
  - destruct (_to_float py_float (iat df r a)) as [v |] eqn:E.
    + split; [lia |]. split; [assumption |]. intros cc' Hcc'. lia.
    + specialize (IH (S a)).
      destruct (look_right py_float df r (seq (S a) n)) as [[v cc] |].
      * destruct IH as (Hcc & Hv & Hbefore). split; [lia |]. split; [assumption |].
        intros cc' Hcc'. destruct (Nat.eq_dec cc' a) as [-> | Hne]; [assumption |].
        apply Hbefore. lia.
      * intros cc Hcc. destruct (Nat.eq_dec cc a) as [-> | Hne]; [assumption |].
        apply IH. lia.
Qed.

Lemma look_down_seq (df : DataFrame) (c n a : nat) :
  match look_down py_float df c (seq a n) with
  | Some (v, rr) =>
      a <= rr < a + n /\ _to_float py_float (iat df rr c) = Some v
      /\ (forall rr', a <= rr' < rr -> _to_float py_float (iat df rr' c) = None)
  | None => forall rr, a <= rr < a + n -> _to_float py_float (iat df rr c) = None
  end.
Proof.
  revert a. induction n as [| n IH]; intros a; cbn [seq look_down].
  - intros rr Hrr. lia.
  - destruct (_to_float py_float (iat df a c)) as [v |] eqn:E.
    + split; [lia |]. split; [assumption |]. intros rr' Hrr'. lia.
    + specialize (IH (S a)).
      destruct (look_down py_float df c (seq (S a) n)) as [[v rr] |].
      * destruct IH as (Hrr & Hv & Hbefore). split; [lia |]. split; [assumption |].
        intros rr' Hrr'. destruct (Nat.eq_dec rr' a) as [-> | Hne]; [assumption |].
        apply Hbefore. lia.
      * intros rr Hrr. destruct (Nat.eq_dec rr a) as [-> | Hne]; [assumption |].
        apply IH. lia.
Qed.

(** What follows a label match, in terms of the two windows. *)
Lemma probe_spec (sheet : string) (df : DataFrame) (r c : nat) :
  match probe py_float sheet df r c with
  | Some (v, a) => window_hit sheet df r c v a
  | None => windows_blank df r c
  end.
Proof.
  unfold probe, py_range.
  pose proof (look_right_seq df r (Nat.min (shape1 df) (c + 8) - (c + 1)) (c + 1)) as Hr.
  pose proof (look_down_seq df c (Nat.min (shape0 df) (r + 8) - (r + 1)) (r + 1)) as Hd.
  destruct (look_right py_float df r
              (seq (c + 1) (Nat.min (shape1 df) (c + 8) - (c + 1)))) as [[v cc] |].
  - destruct Hr as (Hcc & Hv & Hbefore). left. exists cc.
    split; [unfold right_window; lia |]. split; [assumption |].
    split; [intros cc' Hcc'; apply Hbefore; lia | reflexivity].
  - assert (Hright : forall cc, right_window df c cc ->
                                _to_float py_float (iat df r cc) = None).
    { intros cc Hcc. apply Hr. unfold right_window in Hcc. lia. }
    destruct (look_down py_float df c
                (seq (r + 1) (Nat.min (shape0 df) (r + 8) - (r + 1)))) as [[v rr] |].
    + destruct Hd as (Hrr & Hv & Hbefore). right. split; [assumption |]. exists rr.
      split; [unfold down_window; lia |]. split; [assumption |].
      split; [intros rr' Hrr'; apply Hbefore; lia | reflexivity].
    + split; [assumption |]. intros rr Hrr. apply Hd. unfold down_window in Hrr. lia.
Qed.

Lemma window_hit_not_blank (sheet : string) (df : DataFrame) (r c : nat) (v : Q) (a : string) :
  window_hit sheet df r c v a -> ~ windows_blank df r c.
Proof.
  intros [(cc & Hw & Hv & _) | (_ & rr & Hw & Hv & _)] [Hr Hd].
  - rewrite (Hr cc Hw) in Hv. discriminate.
  - rewrite (Hd rr Hw) in Hv. discriminate.
Qed.

(** The cell loop: the first label cell, in visiting order, with a number
    in its windows decides. *)
Lemma scan_cells_spec (sheet : string) (df : DataFrame) (kws : list string)
      (cells : list (nat * nat)) :
  match scan_cells py_float py_str sheet df kws cells with
  | Some (v, a) =>
      exists l1 rc l2,
        cells = (l1 ++ rc :: l2)%list
        /\ label_cell kws df (fst rc) (snd rc)
        /\ window_hit sheet df (fst rc) (snd rc) v a
        /\ (forall rc', In rc' l1 -> label_cell kws df (fst rc') (snd rc') ->
                        windows_blank df (fst rc') (snd rc'))
  | None =>
      forall rc, In rc cells -> label_cell kws df (fst rc) (snd rc) ->
                 windows_blank df (fst rc) (snd rc)
  end.
Proof.
  induction cells as [| rc rest IH]; cbn [scan_cells]; [intros rc [] |].
  assert (Hstep :
            (label_cell kws df (fst rc) (snd rc) -> windows_blank df (fst rc) (snd rc)) ->
            match scan_cells py_float py_str sheet df kws rest with
            | Some (v, a) =>
                exists l1 rc0 l2,
                  rc :: rest = (l1 ++ rc0 :: l2)%list
                  /\ label_cell kws df (fst rc0) (snd rc0)
                  /\ window_hit sheet df (fst rc0) (snd rc0) v a
                  /\ (forall rc', In rc' l1 -> label_cell kws df (fst rc') (snd rc') ->
                                  windows_blank df (fst rc') (snd rc'))
            | None =>
                forall rc', In rc' (rc :: rest) -> label_cell kws df (fst rc') (snd rc') ->
                            windows_blank df (fst rc') (snd rc')
            end).
  { intros Hrc.
    destruct (scan_cells py_float py_str sheet df kws rest) as [[v a] |].
    - destruct IH as (l1 & rc0 & l2 & -> & Hl & Hh & Hbefore).
      exists (rc :: l1), rc0, l2. split; [reflexivity |].
      split; [assumption |]. split; [assumption |].
      intros rc' [<- | Hin] Hlab; [apply Hrc; assumption | apply Hbefore; assumption].
    - intros rc' [<- | Hin] Hlab; [apply Hrc; assumption | apply IH; assumption]. }
  destruct (is_blank (iat df (fst rc) (snd rc))) eqn:Eb.
  - apply Hstep. intros [Hnb _]. congruence.
  - destruct (label_matches py_str kws (iat df (fst rc) (snd rc))) eqn:Em.
    + pose proof (probe_spec sheet df (fst rc) (snd rc)) as Hp.
      destruct (probe py_float sheet df (fst rc) (snd rc)) as [[v a] |].
      * exists [], rc, rest. split; [reflexivity |].
        split; [split; assumption |]. split; [assumption |]. intros rc' [].
      * apply Hstep. intros _. assumption.
    + apply Hstep. intros [_ Hm]. congruence.
Qed.

Lemma df_empty_no_cell (df : DataFrame) (r c : nat) :
  df_empty df = true -> r < shape0 df -> c < shape1 df -> False.
Proof.
  unfold df_empty. intros H Hr Hc. apply orb_true_iff in H.
  destruct H as [H | H]; apply Nat.eqb_eq in H; lia.
Qed.

(** No label cell of the sheets has a number in its windows. *)
Definition all_windows_blank (kws : list string) (sheets : Sheets) : Prop :=
  forall sheet df r c,
    In (sheet, df) sheets -> r < shape0 df -> c < shape1 df ->
    label_cell kws df r c -> windows_blank df r c.

(** The scan found [(v, a)]: at the first sheet, and in it the first label
    cell in visiting order, that has a number in its windows. *)
Definition first_hit (kws : list string) (sheets : Sheets) (v : Q) (a : string) : Prop :=
  exists s1 sheet df s2 l1 r c l2,
    sheets = (s1 ++ (sheet, df) :: s2)%list
    /\ all_cells df = (l1 ++ (r, c) :: l2)%list
    /\ r < shape0 df /\ c < shape1 df
    /\ label_cell kws df r c
    /\ window_hit sheet df r c v a
    /\ (forall rc, In rc l1 -> label_cell kws df (fst rc) (snd rc) ->
                   windows_blank df (fst rc) (snd rc))
    /\ all_windows_blank kws s1.

Lemma scan_sheets_spec (kws : list string) (sheets : Sheets) :
  match scan_sheets py_float py_str sheets kws with
  | Some (v, a) => first_hit kws sheets v a
  | None => all_windows_blank kws sheets
  end.
Proof.
  induction sheets as [| [sheet df] rest IH]; cbn [scan_sheets].
  - intros sheet df r c [].
  - assert (Hstep :
              (forall r c, r < shape0 df -> c < shape1 df ->
                           label_cell kws df r c -> windows_blank df r c) ->
              match scan_sheets py_float py_str rest kws with
              | Some (v, a) => first_hit kws ((sheet, df) :: rest) v a
              | None => all_windows_blank kws ((sheet, df) :: rest)
              end).
    { intros Hdf.
      destruct (scan_sheets py_float py_str rest kws) as [[v a] |].
      - destruct IH as (s1 & sh & d & s2 & l1 & r & c & l2 & -> & Hcells & Hr & Hc
                        & Hl & Hh & Hbefore & Hs1).
        exists ((sheet, df) :: s1), sh, d, s2, l1, r, c, l2.
        split; [reflexivity |]. repeat (split; [assumption |]).
        intros sh' d' r' c' [Heq | Hin] Hr' Hc' Hlab.
        + injection Heq as <- <-. apply Hdf; assumption.
        + eapply Hs1; eassumption.
      - intros sh' d' r' c' [Heq | Hin] Hr' Hc' Hlab.
        + injection Heq as <- <-. apply Hdf; assumption.
        + eapply IH; eassumption. }
    destruct (df_empty df) eqn:Ee.
    + apply Hstep. intros r c Hr Hc _. exfalso. eapply df_empty_no_cell; eassumption.
    + pose proof (scan_cells_spec sheet df kws (all_cells df)) as Hcells.
      destruct (scan_cells py_float py_str sheet df kws (all_cells df)) as [[v a] |].
      * destruct Hcells as (l1 & [r c] & l2 & Heq & Hl & Hh & Hbefore).
        assert (Hin : In (r, c) (all_cells df)).
        { rewrite Heq. apply in_or_app. right. left. reflexivity. }
        apply in_grid_cells in Hin. destruct Hin as [Hr Hc].
        exists [], sheet, df, rest, l1, r, c, l2.
        split; [reflexivity |]. split; [assumption |].
        split; [assumption |]. split; [assumption |].
        split; [assumption |]. split; [assumption |].
        split; [assumption |]. intros sh' d' r' c' [].
      * apply Hstep. intros r c Hr Hc Hlab.
        apply (Hcells (r, c)); [apply in_grid_cells; split; assumption | assumption].
Qed.

Lemma first_hit_not_blank (kws : list string) (sheets : Sheets) (v : Q) (a : string) :
  first_hit kws sheets v a -> ~ all_windows_blank kws sheets.
Proof.
  intros (s1 & sheet & df & s2 & l1 & r & c & l2 & -> & _ & Hr & Hc & Hl & Hh & _) Hall.
  apply (window_hit_not_blank _ _ _ _ _ _ Hh).
  apply (Hall sheet df r c); try assumption.
  apply in_or_app. right. left. reflexivity.
Qed.

End ScannerFacts.

(** A DSO label with its figure eight cells to the right. *)
Definition dso_far_right : DataFrame :=
  [[CStr "DSO"; CNaN; CNaN; CNaN; CNaN; CNaN; CNaN; CNaN; CNum 45]].

(** The same label with the figure seven cells to the right. *)
Definition dso_near_right : DataFrame :=
  [[CStr "DSO"; CNaN; CNaN; CNaN; CNaN; CNaN; CNaN; CNum 45]].

(** The figure sits eight cells right of the label, the only label of the
    workbook, and the scan does not return it: the code looks at seven
    cells. One cell closer it is found. *)
Lemma scan_misses_the_eighth_cell :
  label_cell demo_text ["DSO"] dso_far_right 0 0
  /\ _to_float digits_float (iat dso_far_right 0 (0 + 8)) = Some 45%Q
  /\ _scan_kpi_by_keywords digits_float demo_text [("KPI", dso_far_right)] ["DSO"]
     = (None, None)
  /\ _scan_kpi_by_keywords digits_float demo_text [("KPI", dso_near_right)] ["DSO"]
     = (Some 45%Q, Some "KPI!H1").
Proof.
  split; [split; reflexivity |].
  repeat split; vm_compute; reflexivity.
Qed.

(** C4, as the code has it: the scan is an unscored search of every cell of
    every sheet for a label whose normalised text contains a normalised
    keyword variant; after a label it looks at up to seven cells to the
    right, then up to seven cells below, and returns the first number with
    its anchor, the first label cell with such a number deciding. When no
    label cell has a number within those windows the result is
    (None, None); the scan never raises. *)
Theorem cash_cycle_scan_seven_cells
        (py_float : string -> option Q) (py_str : PyText)
        (sheets : Sheets) (kws : list string) :
  match _scan_kpi_by_keywords py_float py_str sheets kws with
  | (Some v, Some a) => first_hit py_float py_str kws sheets v a
  | (None, None) => all_windows_blank py_float py_str kws sheets
  | _ => False
  end
  /\ (all_windows_blank py_float py_str kws sheets ->
      _scan_kpi_by_keywords py_float py_str sheets kws = (None, None)).
Proof.
  unfold _scan_kpi_by_keywords.
  pose proof (scan_sheets_spec py_float py_str kws sheets) as H.
  destruct (scan_sheets py_float py_str sheets kws) as [[v a] |].
  - split; [assumption |]. intros Hall. exfalso.
    eapply first_hit_not_blank; eassumption.
  - split; [assumption | reflexivity].
Qed.

(** ** A small workbook to run the engine on *)

Definition demo_book : Sheets :=
  [ ("IS", [ [CStr "Revenue"; CNum 1000; CNum 1200];
             [CStr "Gross Profit"; CNum 300; CNum 400];
             [CStr "Operating Expenses"; CNum 100; CNum 150];
             [CStr "DSO"; CNum 45] ]) ].

(** A file system with one readable workbook, whatever the path. *)
Definition demo_fs : FS :=
  mkFS (fun _ => Ok (mkStat 1700000000 2048)) (fun path => path) (fun _ => Some demo_book).

(** A file system on which nothing can be read. *)
Definition bare_fs : FS :=
  mkFS (fun path => Raise (mkExc "FileNotFoundError" path)) (fun path => path)
       (fun _ => None).

Definition demo_params : Params := mkParams "en" "" "MOM" "AUTO" "AUTO" "OFF".

Lemma no_sheets_gives_partial_witness :
  _read_all_sheets bare_fs "missing.xlsx" = []
  /\ exists a,
      analyze_file digits_float demo_text (fun path => path) analyze_py_globals None
                   bare_fs "missing.xlsx" demo_params = Ok a
      /\ status a = "PARTIAL".
Proof.
  split; [reflexivity |].
  destruct (no_sheets_gives_partial digits_float demo_text (fun path => path)
              analyze_py_globals None bare_fs "missing.xlsx" demo_params eq_refl)
    as (a & Ha & Hs & _).
  exists a. split; assumption.
Defined.

(** ** Ledger invariant of a whole analysis *)

Definition cash_backed (cash : CashCycle) (evidence : list Evidence) : Prop :=
  (forall v, dso cash = Some v -> backed evidence "DSO" v)
  /\ (forall v, dio cash = Some v -> backed evidence "DIO" v)
  /\ (forall v, dpo cash = Some v -> backed evidence "DPO" v)
  /\ (forall v, ccc cash = Some v -> backed evidence "CCC" v).

(** Every entry with a value is grounded, and every KPI and cash-cycle
    figure with a value has its entry. *)
Definition ledger_invariant (a : Analysis) : Prop :=
  Forall entry_grounded (evidence_ledger a)
  /\ (forall k v, In k (kpis a) -> kpi_value k = Some v ->
                  backed (evidence_ledger a) (canonical_metric_id k) v)
  /\ cash_backed (cash_cycle a) (evidence_ledger a).

Lemma backed_here (k : string) (anc : option string) (v : Q) (ev : list Evidence) :
  In (mkEvidence k None anc None (Some v) None) ev -> backed ev k v.
Proof.
  intros Hin. eexists. split; [exact Hin |]. split; reflexivity.
Qed.

Lemma backed_app_r (ev ev' : list Evidence) (k : string) (v : Q) :
  backed ev' k v -> backed (ev ++ ev') k v.
Proof.
  intros (e & Hin & Hk & Hv). exists e. split; [apply in_or_app; right; assumption |].
  split; assumption.
Qed.

Lemma build_kpis_in (lang : string) (metrics : list Metric) (k : Kpi) :
  In k (build_kpis lang metrics) ->
  exists m, In m metrics /\ canonical_metric_id k = key m /\ kpi_value k = value m.
Proof.
  unfold build_kpis. intros Hin. apply in_flat_map in Hin.
  destruct Hin as (m & Hm & Hk). exists m. split; [assumption |].
  destruct (String.eqb (key m) "gross_margin").
  - destruct Hk as [<- | []]. split; reflexivity.
  - destruct (is_amount_key (key m)); [| destruct Hk].
    destruct Hk as [<- | []]. split; reflexivity.
Qed.

Section CashLedger.

Variable py_float : string -> option Q.
Variable py_str : PyText.

(** Cash-cycle scanning yields grounded entries, one for every figure. *)
Lemma extract_cash_cycle_ledger (sheets : Sheets) :
  Forall entry_grounded (snd (fst (_extract_cash_cycle py_float py_str sheets)))
  /\ cash_backed (fst (fst (_extract_cash_cycle py_float py_str sheets)))
                 (snd (fst (_extract_cash_cycle py_float py_str sheets))).
Proof.
  unfold _extract_cash_cycle, _scan_kpi_by_keywords.
  repeat match goal with
         | |- context [scan_sheets ?f ?n ?s ?k] =>
             destruct (scan_sheets f n s k) as [[? ?] |]
         end;
    cbn; (split;
          [ repeat (apply Forall_cons; [intros _; left; discriminate |]); apply Forall_nil
          | unfold cash_backed; cbn; repeat split; intros v Hv; try discriminate;
            injection Hv as <-; eapply backed_here; cbn; eauto 10 ]).
Qed.

End CashLedger.

Section EngineInvariants.

Variable py_float : string -> option Q.
Variable py_str : PyText.
Variable path_stem : string -> string.
Variable norm_text_global : option (cell -> string).
Variable lib_file : option (list Dim).

Local Abbreviation analyze :=
  (analyze_file py_float py_str path_stem norm_text_global lib_file).

Local Abbreviation body :=
  (analyze_body py_float py_str norm_text_global lib_file).

Lemma analyze_body_ledger (sheets : Sheets) (sys : SystemInfo) (p : Params) (a : Analysis) :
  body sheets sys p = Ok a -> ledger_invariant a.
Proof.
  unfold analyze_body.
  destruct (_extract_is_metrics py_float norm_text_global sheets (p_lang p))
    as [[[metrics is_ev] is_miss] | ex] eqn:E; cbn [bind]; [| discriminate].
  pose proof (extract_is_metrics_ledger _ _ _ _ _ E) as [Hev Hms]. cbn [fst snd] in Hev, Hms.
  pose proof (extract_cash_cycle_ledger py_float py_str sheets) as [Hcev Hcash].
  destruct (_extract_cash_cycle py_float py_str sheets) as [[cash cash_ev] cash_miss].
  cbn [fst snd] in Hcev, Hcash.
  intros H. injection H as <-. unfold ledger_invariant. cbn.
  split; [apply Forall_app; split; assumption |]. split.
  - intros k v Hin Hv. apply build_kpis_in in Hin.
    destruct Hin as (m & Hm & Hid & Hval). rewrite Hid. apply backed_app_l.
    apply Hms; [assumption | congruence].
  - destruct Hcash as (H1 & H2 & H3 & H4).
    repeat split; intros v Hv; apply backed_app_r; auto.
Qed.

(** C9: the result of every analysis satisfies the ledger invariant: each
    evidence entry with a current value carries an anchor or a derivation
    tag, and each KPI and each cash-cycle figure with a value has an entry
    of its metric holding that value. The invariant holds after extraction
    and derivation and after cash-cycle scanning taken alone. *)
Theorem evidence_ledger_invariant (fs : FS) (file_path : string) (p : Params) :
  (exists a, analyze fs file_path p = Ok a /\ ledger_invariant a)
  /\ (forall sheets lang st,
         _extract_is_metrics py_float norm_text_global sheets lang = Ok st ->
         ledger_ok (fst (fst st)) (snd (fst st)))
  /\ (forall sheets,
         Forall entry_grounded (snd (fst (_extract_cash_cycle py_float py_str sheets)))
         /\ cash_backed (fst (fst (_extract_cash_cycle py_float py_str sheets)))
                        (snd (fst (_extract_cash_cycle py_float py_str sheets)))).
Proof.
  split; [| split].
  - unfold analyze_file.
    destruct (body (_read_all_sheets fs file_path)
                   (mkSystem (path_stem file_path)
                             (map fst (_read_all_sheets fs file_path))
                             "pandas/openpyxl" None) p) as [a | ex] eqn:E.
    + exists a. split; [reflexivity |]. eapply analyze_body_ledger; eassumption.
    + cbn. eexists. split; [reflexivity |]. unfold ledger_invariant, cash_backed. cbn.
      split; [constructor |]. split; [intros k v [] |].
      repeat split; intros v Hv; discriminate.
  - intros sheets lang st. apply extract_is_metrics_ledger.
  - intros sheets. apply extract_cash_cycle_ledger.
Qed.

End EngineInvariants.

(** With [_norm_text] bound to the sibling normaliser the ledger of the
    demo workbook is populated: three extracted rows, the derived OPEX, the
    derived gross margin and the DSO figure. *)
Example ledger_of_demo_book :
  exists a,
    analyze_file digits_float demo_text (fun path => path) (Some norm_sibling) None
                 demo_fs "book.xlsx" demo_params = Ok a
    /\ map ev_metric (evidence_ledger a)
       = ["revenue"; "gross_profit"; "opex"; "opex"; "gross_margin"; "DSO"]
    /\ map ev_anchor (evidence_ledger a)
       = [Some "IS!C1"; Some "IS!C2"; Some "IS!C3"; None; None; Some "IS!B4"]
    /\ status a = "PARTIAL".
Proof.
  eexists. split; [vm_compute; reflexivity |].
  repeat split; vm_compute; reflexivity.
Qed.

(** ** Never raising, and the three statuses *)

Definition status_ok (a : Analysis) : Prop :=
  status a = "OK" \/ status a = "PARTIAL" \/ status a = "DEGRADED".

(** Status and backlog agree: OK has no gap, PARTIAL has mapping gaps only,
    DEGRADED has the one SYSTEM_ERROR entry of the caught exception. *)
Definition well_formed (a : Analysis) : Prop :=
  (status a = "OK" /\ mapping_backlog a = [])
  \/ (status a = "PARTIAL" /\ mapping_backlog a <> []
      /\ Forall (fun g => gap_type g = "MAPPING_GAP") (mapping_backlog a))
  \/ (status a = "DEGRADED" /\ exists e, mapping_backlog a = [system_error e]).

Lemma well_formed_status (a : Analysis) : well_formed a -> status_ok a.
Proof.
  unfold status_ok. intros [[H _] | [[H _] | [H _]]]; auto.
Qed.

Lemma key_eqb_eq (a b : CacheKey) : key_eqb a b = true -> a = b.
Proof.
  unfold key_eqb. intros H.
  repeat (apply andb_true_iff in H; destruct H as [H ?]).
  destruct a, b; cbn in *.
  repeat match goal with
         | E : String.eqb _ _ = true |- _ => apply String.eqb_eq in E
         | E : Z.eqb _ _ = true |- _ => apply Z.eqb_eq in E
         end.
  congruence.
Qed.

Lemma key_eqb_refl (a : CacheKey) : key_eqb a a = true.
Proof.
  unfold key_eqb. rewrite !String.eqb_refl, !Z.eqb_refl. reflexivity.
Qed.

Lemma cache_get_in (k : CacheKey) (c : Cache) (e : CacheEntry) :
  cache_get k c = Some e -> In (k, e) c.
Proof.
  induction c as [| [k' e'] rest IH]; cbn; [discriminate |].
  destruct (key_eqb k' k) eqn:E.
  - intros H. injection H as <-. apply key_eqb_eq in E. subst. left. reflexivity.
  - intros H. right. apply IH. assumption.
Qed.

Lemma cache_pop_incl (k : CacheKey) (c : Cache) (x : CacheKey * CacheEntry) :
  In x (cache_pop k c) -> In x c.
Proof.
  induction c as [| [k' e'] rest IH]; cbn; [intros [] |].
  destruct (key_eqb k' k).
  - intros H. right. assumption.
  - intros [<- | H]; [left; reflexivity | right; apply IH; assumption].
Qed.

Lemma cache_set_in (k : CacheKey) (e : CacheEntry) (c : Cache) (x : CacheKey * CacheEntry) :
  In x (cache_set k e c) -> x = (k, e) \/ In x c.
Proof.
  induction c as [| [k' e'] rest IH]; cbn.
  - intros [<- | []]. left. reflexivity.
  - destruct (key_eqb k' k) eqn:E.
    + apply key_eqb_eq in E. subst k'. intros [<- | H]; [left; reflexivity | right; right; assumption].
    + intros [<- | H]; [right; left; reflexivity |].
      destruct (IH H) as [-> | Hin]; [left; reflexivity | right; right; assumption].
Qed.

Lemma cache_get_set (k : CacheKey) (e : CacheEntry) (c : Cache) :
  cache_get k (cache_set k e c) = Some e.
Proof.
  induction c as [| [k' e'] rest IH]; cbn.
  - rewrite key_eqb_refl. reflexivity.
  - destruct (key_eqb k' k) eqn:E; cbn; rewrite E; [reflexivity | assumption].
Qed.

Lemma prune_oldest_incl (c : Cache) (x : CacheKey * CacheEntry) :
  In x (prune_oldest c) -> In x c.
Proof.
  unfold prune_oldest. destruct (_ANALYSIS_CACHE_MAX <=? length c); [| auto].
  destruct (oldest_key c None); [apply cache_pop_incl | auto].
Qed.

Lemma well_formed_annotate (note : CacheNote) (a : Analysis) :
  well_formed a -> well_formed (annotate note a).
Proof.
  unfold well_formed, annotate. cbn. auto.
Qed.

Section EntryPoints.

Variable py_float : string -> option Q.
Variable py_str : PyText.
Variable path_stem : string -> string.
Variable norm_text_global : option (cell -> string).
Variable lib_file : option (list Dim).
Variable sha1_hex12 : string -> result string.
Variable round2 : Q -> Q.

Local Abbreviation analyze :=
  (analyze_file py_float py_str path_stem norm_text_global lib_file).

Local Abbreviation body :=
  (analyze_body py_float py_str norm_text_global lib_file).

Local Abbreviation cached :=
  (analyze_file_cached py_float py_str path_stem norm_text_global lib_file
                       sha1_hex12 round2).

(** The [system] dict and the [try] block of a call. *)
Definition system_of (fs : FS) (file_path : string) : SystemInfo :=
  mkSystem (path_stem file_path) (map fst (_read_all_sheets fs file_path))
           "pandas/openpyxl" None.

Definition body_of (fs : FS) (file_path : string) (p : Params) : result Analysis :=
  body (_read_all_sheets fs file_path) (system_of fs file_path) p.

Lemma analyze_body_well_formed (sheets : Sheets) (sys : SystemInfo) (p : Params)
      (a : Analysis) :
  body sheets sys p = Ok a -> well_formed a /\ status a <> "DEGRADED".
Proof.
  unfold analyze_body.
  destruct (_extract_is_metrics py_float norm_text_global sheets (p_lang p))
    as [[[metrics is_ev] is_miss] | ex]; cbn [bind]; [| discriminate].
  destruct (_extract_cash_cycle py_float py_str sheets) as [[cash cash_ev] cash_miss].
  intros H. injection H as <-. unfold well_formed. cbn.
  destruct (is_miss ++ cash_miss)%list as [| m rest]; cbn.
  - split; [left; split; reflexivity | discriminate].
  - split; [| discriminate]. right. left. split; [reflexivity |].
    split; [discriminate |].
    constructor; [reflexivity |].
    apply Forall_forall. intros g Hg. apply in_map_iff in Hg.
    destruct Hg as (code & <- & _). reflexivity.
Qed.

(** [analyze_file] always returns, and a failure of its [try] block becomes
    a DEGRADED result carrying the exception. *)
Lemma analyze_file_returns (fs : FS) (file_path : string) (p : Params) :
  exists a,
    analyze fs file_path p = Ok a
    /\ well_formed a
    /\ (forall e, body_of fs file_path p = Raise e ->
                  status a = "DEGRADED" /\ mapping_backlog a = [system_error e])
    /\ (forall a0, body_of fs file_path p = Ok a0 -> a = a0 /\ status a <> "DEGRADED").
Proof.
  unfold analyze_file, body_of, system_of.
  destruct (body (_read_all_sheets fs file_path)
                 (mkSystem (path_stem file_path)
                           (map fst (_read_all_sheets fs file_path))
                           "pandas/openpyxl" None) p) as [a | ex] eqn:E.
  - destruct (analyze_body_well_formed _ _ _ _ E) as [Hwf Hnd].
    exists a. split; [reflexivity |]. split; [assumption |].
    split; [intros e He; discriminate |].
    intros a0 Ha0. injection Ha0 as <-. split; [reflexivity | assumption].
  - cbn. eexists. split; [reflexivity |].
    split; [right; right; split; [reflexivity | exists ex; reflexivity] |].
    split; [| intros a0 Ha0; discriminate].
    intros e He. injection He as <-. split; reflexivity.
Qed.

(** The caches the process can hold: empty at start, then only written by
    the cached entry point (the files may change between calls). *)
Inductive reachable : Cache -> Prop :=
| reach_start : reachable []
| reach_call (fs : FS) (c : Cache) (now : Q) (file_path : string) (p : Params)
             (a : Analysis) (c' : Cache) :
    reachable c -> cached fs c now file_path p = Ok (a, c') -> reachable c'.

Definition cache_well_formed (c : Cache) : Prop :=
  Forall (fun ke : CacheKey * CacheEntry => well_formed (data (snd ke))) c.

Lemma cached_miss_returns (fs : FS) (c : Cache) (now : Q) (k : CacheKey)
      (file_path : string) (p : Params) :
  cache_well_formed c ->
  exists a c',
    cached_miss py_float py_str path_stem norm_text_global lib_file
                fs c now k file_path p = Ok (a, c')
    /\ well_formed a /\ cache_well_formed c'.
Proof.
  intros Hc. unfold cached_miss.
  destruct (analyze_file_returns fs file_path p) as (u & Hu & Hwf & _).
  rewrite Hu. cbn [bind]. eexists; eexists. split; [reflexivity |].
  split; [apply well_formed_annotate; assumption |].
  apply Forall_forall. intros x Hx. apply cache_set_in in Hx.
  destruct Hx as [-> | Hx]; [assumption |].
  apply prune_oldest_incl in Hx.
  unfold cache_well_formed in Hc. rewrite Forall_forall in Hc. apply Hc. assumption.
Qed.

(** [analyze_file_cached] always returns, with a well-formed result, and
    keeps the cache well-formed. *)
Lemma cached_returns (fs : FS) (c : Cache) (now : Q) (file_path : string) (p : Params) :
  cache_well_formed c ->
  exists a c', cached fs c now file_path p = Ok (a, c')
               /\ well_formed a /\ cache_well_formed c'.
Proof.
  intros Hc. unfold analyze_file_cached, cached_body.
  destruct (fs_stat fs file_path) as [st | ex];
    [destruct (sha1_hex12 (p_prompt p)) as [ph | ex] |].
  - destruct (cache_get (cache_key fs file_path p st ph) c) as [ent |] eqn:Eget.
    + destruct (Qltb (now - ts ent) _ANALYSIS_CACHE_TTL_S).
      * cbn. eexists; eexists. split; [reflexivity |]. split; [| assumption].
        apply well_formed_annotate. apply cache_get_in in Eget.
        unfold cache_well_formed in Hc. rewrite Forall_forall in Hc.
        apply (Hc _ Eget).
      * destruct (cached_miss_returns fs c now (cache_key fs file_path p st ph)
                    file_path p Hc) as (a & c' & Hm & Hwf & Hc').
        rewrite Hm. cbn. exists a, c'. repeat split; assumption.
    + destruct (cached_miss_returns fs c now (cache_key fs file_path p st ph)
                  file_path p Hc) as (a & c' & Hm & Hwf & Hc').
      rewrite Hm. cbn. exists a, c'. repeat split; assumption.
  - cbn [try_except].
    destruct (analyze_file_returns fs file_path p) as (u & Hu & Hwf & _).
    rewrite Hu. cbn [bind]. eexists; eexists. split; [reflexivity |].
    split; [apply well_formed_annotate; assumption | assumption].
  - cbn [try_except].
    destruct (analyze_file_returns fs file_path p) as (u & Hu & Hwf & _).
    rewrite Hu. cbn [bind]. eexists; eexists. split; [reflexivity |].
    split; [apply well_formed_annotate; assumption | assumption].
Qed.

Lemma reachable_well_formed (c : Cache) : reachable c -> cache_well_formed c.
Proof.
  induction 1 as [| fs c now file_path p a c' Hreach IH Hcall]; [constructor |].
  destruct (cached_returns fs c now file_path p IH) as (a0 & c0 & Hcall0 & _ & Hc0).
  rewrite Hcall in Hcall0. injection Hcall0 as _ <-. assumption.
Qed.

(** C1: for every file system state, path and parameters, [analyze_file]
    returns a result whose status is OK, PARTIAL or DEGRADED, and a failure
    inside its [try] block yields the DEGRADED result whose backlog is the
    SYSTEM_ERROR entry made of the exception's kind and message; on every
    cache the process can reach, [analyze_file_cached] returns as well, with
    a status among the three, and a DEGRADED result carries such an entry. *)
Theorem analysis_never_raises (fs : FS) (cache : Cache) (now : Q)
        (file_path : string) (p : Params) :
  reachable cache ->
  (exists a,
      analyze fs file_path p = Ok a
      /\ status_ok a
      /\ (forall e, body_of fs file_path p = Raise e ->
                    status a = "DEGRADED"
                    /\ mapping_backlog a
                       = [mkGap "SYSTEM_ERROR" (exc_kind e) (Some (exc_msg e)) "OPEN"]))
  /\ (exists a c',
         cached fs cache now file_path p = Ok (a, c')
         /\ status_ok a
         /\ (status a = "DEGRADED" ->
             exists e, mapping_backlog a
                       = [mkGap "SYSTEM_ERROR" (exc_kind e) (Some (exc_msg e)) "OPEN"])
         /\ reachable c').
Proof.
  intros Hreach. split.
  - destruct (analyze_file_returns fs file_path p) as (a & Ha & Hwf & Hraise & _).
    exists a. split; [assumption |]. split; [apply well_formed_status; assumption |].
    exact Hraise.
  - destruct (cached_returns fs cache now file_path p (reachable_well_formed _ Hreach))
      as (a & c' & Hcall & Hwf & _).
    exists a, c'. split; [assumption |]. split; [apply well_formed_status; assumption |].
    split; [| eapply reach_call; eassumption].
    intros Hdeg. destruct Hwf as [[H _] | [[H _] | [_ He]]]; [congruence | congruence |].
    exact He.
Qed.

End EntryPoints.

(** ** The cache is transparent *)

(** A result without its [system.cache] annotation. *)
Definition strip_cache (a : Analysis) : Analysis :=
  mkAnalysis (ok a) (status a) (period a) (filters a)
    (mkSystem (file_id (system a)) (sys_sheets (system a)) (parser (system a)) None)
    (kpis a) (cash_cycle a) (radar_signals a) (evidence_ledger a) (mapping_backlog a).

Lemma strip_annotate (note : CacheNote) (a : Analysis) :
  strip_cache (annotate note a) = strip_cache a.
Proof. reflexivity. Qed.

(** [round(x, 2)] on a rational, ties to even. *)
Definition round_half_even_2 (q : Q) : Q :=
  let n := (Qnum q * 100)%Z in
  let d := Z.pos (Qden q) in
  let f := (n / d)%Z in
  let r := (n mod d)%Z in
  let up :=
    match (2 * r ?= d)%Z with
    | Lt => false
    | Gt => true
    | Eq => Z.odd f
    end in
  ((if up then f + 1 else f)%Z # 100).

Section CacheFacts.

Variable py_float : string -> option Q.
Variable py_str : PyText.
Variable path_stem : string -> string.
Variable norm_text_global : option (cell -> string).
Variable lib_file : option (list Dim).
Variable sha1_hex12 : string -> result string.
Variable round2 : Q -> Q.

Local Abbreviation analyze :=
  (analyze_file py_float py_str path_stem norm_text_global lib_file).

Local Abbreviation cached :=
  (analyze_file_cached py_float py_str path_stem norm_text_global lib_file
                       sha1_hex12 round2).

(** Every entry holds the analysis of the file and parameters its key
    stands for: "identical key, identical result". *)
Definition coherent (fs : FS) (c : Cache) : Prop :=
  forall k ent, In (k, ent) c ->
    forall file_path p st ph,
      fs_stat fs file_path = Ok st ->
      sha1_hex12 (p_prompt p) = Ok ph ->
      cache_key fs file_path p st ph = k ->
      analyze fs file_path p = Ok (data ent).

(** The entry under the key of this call, if any, holds [u]. *)
Definition holds (fs : FS) (file_path : string) (p : Params) (u : Analysis) (c : Cache)
  : Prop :=
  forall st ph ent,
    fs_stat fs file_path = Ok st ->
    sha1_hex12 (p_prompt p) = Ok ph ->
    cache_get (cache_key fs file_path p st ph) c = Some ent ->
    data ent = u.

Lemma coherent_holds (fs : FS) (file_path : string) (p : Params) (u : Analysis) (c : Cache) :
  coherent fs c -> analyze fs file_path p = Ok u -> holds fs file_path p u c.
Proof.
  intros Hc Hu st ph ent Hst Hph Hget. apply cache_get_in in Hget.
  pose proof (Hc _ _ Hget file_path p st ph Hst Hph eq_refl) as H.
  rewrite Hu in H. injection H as H. symmetry. exact H.
Qed.

(** One cached call: its result is the uncached one up to the annotation,
    and afterwards the entry of the key still holds that result. *)
Lemma cached_call_transparent (fs : FS) (c : Cache) (now : Q) (file_path : string)
      (p : Params) (u : Analysis) :
  analyze fs file_path p = Ok u ->
  holds fs file_path p u c ->
  exists out c',
    cached fs c now file_path p = Ok (out, c')
    /\ strip_cache out = strip_cache u
    /\ sys_cache (system out) <> None
    /\ holds fs file_path p u c'.
Proof.
  intros Hu Hc. unfold analyze_file_cached, cached_body.
  destruct (fs_stat fs file_path) as [st | ex] eqn:Est;
    [destruct (sha1_hex12 (p_prompt p)) as [ph | ex] eqn:Eph |].
  - assert (Hmiss :
              exists out c',
                cached_miss py_float py_str path_stem norm_text_global lib_file fs c now
                            (cache_key fs file_path p st ph) file_path p
                = Ok (out, c')
                /\ strip_cache out = strip_cache u
                /\ sys_cache (system out) <> None
                /\ holds fs file_path p u c').
    { unfold cached_miss. rewrite Hu. cbn [bind]. eexists; eexists.
      split; [reflexivity |]. split; [apply strip_annotate |].
      split; [discriminate |].
      intros st' ph' ent' Hst' Hph' Hget'.
      rewrite Est in Hst'. injection Hst' as <-.
      rewrite Eph in Hph'. injection Hph' as <-.
      rewrite cache_get_set in Hget'. injection Hget' as <-. reflexivity. }
    destruct (cache_get (cache_key fs file_path p st ph) c) as [ent |] eqn:Eget.
    + destruct (Qltb (now - ts ent) _ANALYSIS_CACHE_TTL_S).
      * cbn. eexists; eexists. split; [reflexivity |].
        rewrite (Hc st ph ent Est Eph Eget).
        split; [apply strip_annotate |]. split; [discriminate | assumption].
      * destruct Hmiss as (out & c' & Hm & Hrest). rewrite Hm. cbn.
        exists out, c'. split; [reflexivity | assumption].
    + destruct Hmiss as (out & c' & Hm & Hrest). rewrite Hm. cbn.
      exists out, c'. split; [reflexivity | assumption].
  - cbn [try_except]. rewrite Hu. cbn [bind]. eexists; eexists.
    split; [reflexivity |]. split; [apply strip_annotate |].
    split; [discriminate | assumption].
  - cbn [try_except]. rewrite Hu. cbn [bind]. eexists; eexists.
    split; [reflexivity |]. split; [apply strip_annotate |].
    split; [discriminate | assumption].
Qed.

(** Two paths of one file have the same stem and the same content: no
    file is reached under two names. *)
Definition alias_free (fs : FS) : Prop :=
  forall a b, fs_resolve fs a = fs_resolve fs b ->
              path_stem a = path_stem b /\ fs_read_excel fs a = fs_read_excel fs b.

Lemma same_key_same_analysis (fs : FS) (a b : string) (p q : Params) (sa sb : FileStat)
      (pha phb : string) :
  alias_free fs ->
  cache_key fs a p sa pha = cache_key fs b q sb phb ->
  analyze fs a p = analyze fs b q.
Proof.
  intros Hfree Hkey. unfold cache_key in Hkey.
  injection Hkey as Hres Hlang Hcycle Hterms Hmode Hhold _ _ _.
  destruct (Hfree a b Hres) as [Hstem Hread].
  unfold analyze_file, _read_all_sheets. rewrite Hstem, Hread.
  unfold analyze_body, analyze_degraded. rewrite Hlang, Hcycle, Hterms, Hmode, Hhold.
  reflexivity.
Qed.

Lemma coherent_start (fs : FS) : coherent fs [].
Proof. intros k ent []. Qed.

(** A call keeps the cache coherent as long as the files do not change. *)
Lemma coherent_preserved (fs : FS) (c : Cache) (now : Q) (file_path : string) (p : Params)
      (out : Analysis) (c' : Cache) :
  alias_free fs -> coherent fs c ->
  cached fs c now file_path p = Ok (out, c') -> coherent fs c'.
Proof.
  intros Hfree Hc Hcall.
  assert (Hmiss : forall st ph,
             cached_miss py_float py_str path_stem norm_text_global lib_file fs c now
                         (cache_key fs file_path p st ph) file_path p
             = Ok (out, c') -> coherent fs c').
  { intros st ph Hm. unfold cached_miss in Hm.
    destruct (analyze fs file_path p) as [u | ex] eqn:Hu; cbn [bind] in Hm; [| discriminate].
    injection Hm as _ <-. intros k2 ent2 Hin path2 p2 st2 ph2 Hst2 Hph2 Hk2.
    apply cache_set_in in Hin. destruct Hin as [Heq | Hin].
    - injection Heq as -> ->. cbn [data]. rewrite <- Hu. symmetry.
      eapply same_key_same_analysis; [assumption | symmetry; exact Hk2].
    - apply prune_oldest_incl in Hin. eapply Hc; eassumption. }
  unfold analyze_file_cached in Hcall.
  match type of Hcall with
  | try_except ?m _ = _ => destruct m as [[out0 c0] | ex] eqn:Ebody
  end; cbn [try_except] in Hcall.
  - injection Hcall as -> ->. unfold cached_body in Ebody.
    destruct (fs_stat fs file_path) as [st | ex]; [| discriminate].
    destruct (sha1_hex12 (p_prompt p)) as [ph | ex]; [| discriminate].
    destruct (cache_get (cache_key fs file_path p st ph) c) as [ent |].
    + destruct (Qltb (now - ts ent) _ANALYSIS_CACHE_TTL_S).
      * injection Ebody as _ <-. assumption.
      * eapply Hmiss; exact Ebody.
    + eapply Hmiss; exact Ebody.
  - destruct (analyze fs file_path p); cbn [bind] in Hcall; [| discriminate].
    injection Hcall as _ <-. assumption.
Qed.

(** The caches the process reaches while the files stay as they are: every
    call so far ran on the one file system [fs]. *)
Inductive reachable_on (fs : FS) : Cache -> Prop :=
| on_start : reachable_on fs []
| on_call (c : Cache) (now : Q) (file_path : string) (p : Params)
          (a : Analysis) (c' : Cache) :
    reachable_on fs c -> cached fs c now file_path p = Ok (a, c') -> reachable_on fs c'.

Lemma reachable_on_coherent (fs : FS) (c : Cache) :
  alias_free fs -> reachable_on fs c -> coherent fs c.
Proof.
  intros Hfree. induction 1 as [| c now file_path p a c' Hreach IH Hcall].
  - apply coherent_start.
  - eapply coherent_preserved; eassumption.
Qed.

(** Where no file is reached under two names and the files do not change,
    the cache is transparent: two calls with the same path and parameters,
    at any two times, return results equal to each other and to the
    uncached result, up to the [system.cache] annotation. *)
Lemma cache_transparent_without_alias (fs : FS) (cache : Cache) (now1 now2 : Q)
      (file_path : string) (p : Params) :
  alias_free fs -> reachable_on fs cache ->
  exists u out1 c1 out2 c2,
    analyze fs file_path p = Ok u
    /\ cached fs cache now1 file_path p = Ok (out1, c1)
    /\ cached fs c1 now2 file_path p = Ok (out2, c2)
    /\ strip_cache out1 = strip_cache out2
    /\ strip_cache out1 = strip_cache u
    /\ strip_cache out2 = strip_cache u
    /\ sys_cache (system out1) <> None /\ sys_cache (system out2) <> None.
Proof.
  intros Hfree Hreach.
  pose proof (reachable_on_coherent fs cache Hfree Hreach) as Hcoh.
  destruct (analyze_file_returns py_float py_str path_stem norm_text_global lib_file
              fs file_path p) as (u & Hu & _).
  destruct (cached_call_transparent fs cache now1 file_path p u Hu
              (coherent_holds _ _ _ _ _ Hcoh Hu)) as (out1 & c1 & H1 & Hs1 & Hn1 & Hh1).
  destruct (cached_call_transparent fs c1 now2 file_path p u Hu Hh1)
    as (out2 & c2 & H2 & Hs2 & Hn2 & _).
  exists u, out1, c1, out2, c2. repeat split; try assumption. congruence.
Qed.

End CacheFacts.

(** ** The engine on the demo workbook *)

(** As the module stands, the demo workbook ends DEGRADED with the
    [NameError] of the Row Locator in the backlog. *)
Example degraded_on_demo_book :
  exists a,
    analyze_file digits_float demo_text (fun path => path) analyze_py_globals None
                 demo_fs "book.xlsx" demo_params = Ok a
    /\ status a = "DEGRADED"
    /\ mapping_backlog a
       = [mkGap "SYSTEM_ERROR" "NameError" (Some "name '_norm_text' is not defined") "OPEN"]
    /\ kpis a = [] /\ length (radar_signals a) = 8.
Proof.
  eexists. split; [vm_compute; reflexivity |].
  repeat split; vm_compute; reflexivity.
Qed.

Lemma analysis_never_raises_witness :
  reachable digits_float demo_text (fun path => path) analyze_py_globals None
            (fun prompt => Ok prompt) round_half_even_2 []
  /\ exists a c',
      analyze_file_cached digits_float demo_text (fun path => path) analyze_py_globals
                          None (fun prompt => Ok prompt) round_half_even_2
                          demo_fs [] 10%Q "book.xlsx" demo_params = Ok (a, c')
      /\ status_ok a.
Proof.
  split; [apply reach_start |].
  destruct (analysis_never_raises digits_float demo_text (fun path => path)
              analyze_py_globals None (fun prompt => Ok prompt) round_half_even_2
              demo_fs [] 10%Q "book.xlsx" demo_params
              (reach_start _ _ _ _ _ _ _))
    as [_ (a & c' & Hcall & Hs & _)].
  exists a, c'. split; assumption.
Defined.

(** Two calls on the demo workbook, run: a miss that stores the result, then
    a hit fifteen seconds later. *)
Example miss_then_hit_on_demo_book :
  exists out1 c1 out2 c2,
    analyze_file_cached digits_float demo_text (fun path => path) (Some norm_sibling)
                        None (fun prompt => Ok prompt) round_half_even_2
                        demo_fs [] 10%Q "book.xlsx" demo_params = Ok (out1, c1)
    /\ analyze_file_cached digits_float demo_text (fun path => path)
                           (Some norm_sibling) None (fun prompt => Ok prompt)
                           round_half_even_2
                           demo_fs c1 25%Q "book.xlsx" demo_params = Ok (out2, c2)
    /\ sys_cache (system out1) = Some (mkNote false (Some 0%Q) None)
    /\ option_map hit (sys_cache (system out2)) = Some true
    /\ length c1 = 1 /\ c2 = c1.
Proof.
  do 4 eexists. split; [vm_compute; reflexivity |].
  split; [vm_compute; reflexivity |].
  repeat split; vm_compute; reflexivity.
Qed.

(** ** One file under two names *)

(** [Path.stem] on a bare file name with a single suffix: the text before
    the dot. *)
Fixpoint name_stem (name : string) : string :=
  match name with
  | EmptyString => EmptyString
  | String a rest => if Ascii.eqb a "." then EmptyString else String a (name_stem rest)
  end.

(** A directory where alias.xlsx is a symbolic link to real.xlsx:
    [resolve()] gives the one target, [stat()] and the reader follow the
    link. *)
Definition alias_fs : FS :=
  mkFS (fun _ => Ok (mkStat 1700000000 2048))
       (fun path => if String.eqb path "alias.xlsx" then "real.xlsx" else path)
       (fun _ => Some demo_book).

(** The demo directory has no link: every path resolves to itself. *)
Example demo_fs_is_alias_free : alias_free name_stem demo_fs.
Proof.
  intros a b H. cbn in H. subst b. split; reflexivity.
Qed.

Local Abbreviation analyze_shipped :=
  (analyze_file digits_float demo_text name_stem analyze_py_globals None).

Local Abbreviation cached_shipped :=
  (analyze_file_cached digits_float demo_text name_stem analyze_py_globals None
                       (fun prompt => Ok prompt) round_half_even_2).

(** C6 on the code: the cache key holds the resolved path, the stored
    result the [file_id] of the path it was computed for. With alias.xlsx
    a link to real.xlsx, a call on real.xlsx followed by a call on
    alias.xlsx fifteen seconds later is a hit that returns [file_id]
    "real", where [analyze_file] on alias.xlsx returns "alias"; a third
    call on alias.xlsx after the entry has expired is a miss and returns
    "alias", so two calls on the same unchanged file with the same
    parameters differ in a field other than [system.cache]. Where no file
    is reached under two names and the files stay as they are, on every
    cache the process reaches two calls agree with each other and with
    [analyze_file] on every field but [system.cache]. *)
Theorem cache_hit_keeps_the_first_name :
  (exists out1 c1 out2 c2 out3 c3 u,
      cached_shipped alias_fs [] 10%Q "real.xlsx" demo_params = Ok (out1, c1)
      /\ cached_shipped alias_fs c1 25%Q "alias.xlsx" demo_params = Ok (out2, c2)
      /\ cached_shipped alias_fs c2 1900%Q "alias.xlsx" demo_params = Ok (out3, c3)
      /\ analyze_shipped alias_fs "alias.xlsx" demo_params = Ok u
      /\ option_map hit (sys_cache (system out2)) = Some true
      /\ option_map hit (sys_cache (system out3)) = Some false
      /\ file_id (system out2) = "real"
      /\ file_id (system out3) = "alias"
      /\ file_id (system u) = "alias"
      /\ strip_cache out2 <> strip_cache u
      /\ strip_cache out2 <> strip_cache out3)
  /\ (forall (py_float : string -> option Q) (py_str : PyText)
             (path_stem : string -> string)
             (norm_text_global : option (cell -> string)) (lib_file : option (list Dim))
             (sha1_hex12 : string -> result string) (round2 : Q -> Q)
             (fs : FS) (cache : Cache) (now1 now2 : Q) (file_path : string) (p : Params),
         alias_free path_stem fs ->
         reachable_on py_float py_str path_stem norm_text_global lib_file sha1_hex12
                      round2 fs cache ->
         exists u out1 c1 out2 c2,
           analyze_file py_float py_str path_stem norm_text_global lib_file
                        fs file_path p = Ok u
           /\ analyze_file_cached py_float py_str path_stem norm_text_global lib_file
                                  sha1_hex12 round2 fs cache now1 file_path p
              = Ok (out1, c1)
           /\ analyze_file_cached py_float py_str path_stem norm_text_global lib_file
                                  sha1_hex12 round2 fs c1 now2 file_path p
              = Ok (out2, c2)
           /\ strip_cache out1 = strip_cache out2
           /\ strip_cache out1 = strip_cache u
           /\ strip_cache out2 = strip_cache u
           /\ sys_cache (system out1) <> None /\ sys_cache (system out2) <> None).
Proof.
  split.
  - do 7 eexists. split; [vm_compute; reflexivity |].
    split; [vm_compute; reflexivity |].
    split; [vm_compute; reflexivity |].
    split; [vm_compute; reflexivity |].
    split; [vm_compute; reflexivity |].
    split; [vm_compute; reflexivity |].
    split; [vm_compute; reflexivity |].
    split; [vm_compute; reflexivity |].
    split; [vm_compute; reflexivity |].
    split; intros H; apply (f_equal (fun a => file_id (system a))) in H;
      vm_compute in H; discriminate H.
  - intros py_float py_str path_stem norm_text_global lib_file sha1_hex12 round2
           fs cache now1 now2 file_path p Hfree Hreach.
    apply cache_transparent_without_alias; assumption.
Qed.

(** * Further properties of the engine *)

(** ** Anchors: the column letters *)

(** The number a column name stands for: A = 1, ..., Z = 26, AA = 27. *)
Fixpoint letters_value (s : string) (acc : nat) : nat :=
  match s with
  | EmptyString => acc
  | String a s' => letters_value s' (26 * acc + (nat_of_ascii a - 64))
  end.

Fixpoint all_chars (ok : ascii -> bool) (s : string) : bool :=
  match s with
  | EmptyString => true
  | String a s' => ok a && all_chars ok s'
  end.

Lemma letters_value_acc (s : string) (acc : nat) :
  letters_value s acc = acc * 26 ^ String.length s + letters_value s 0.
Proof.
  revert acc. induction s as [| a s IH]; intros acc; cbn [letters_value String.length].
  - cbn. lia.
  - rewrite (IH (26 * acc + (nat_of_ascii a - 64))), (IH (26 * 0 + (nat_of_ascii a - 64))).
    rewrite Nat.pow_succ_r'. nia.
Qed.

Lemma letter_code (rem : nat) :
  rem < 26 -> nat_of_ascii (ascii_of_nat (65 + rem)) = 65 + rem.
Proof.
  intros H. apply nat_ascii_embedding. lia.
Qed.

(** The loop of [_a1] ends within its fuel and writes the column number in
    bijective base 26. *)
Lemma col_letters_value (fuel x : nat) (col : string) :
  x <= fuel ->
  letters_value (col_letters fuel x col) 0 = x * 26 ^ String.length col + letters_value col 0
  /\ (all_chars Text.is_upper col = true ->
      all_chars Text.is_upper (col_letters fuel x col) = true).
Proof.
  revert x col. induction fuel as [| fuel IH]; intros x col Hx; cbn [col_letters].
  - assert (x = 0) as -> by lia. split; [cbn; lia | auto].
  - destruct (x =? 0) eqn:E0.
    + apply Nat.eqb_eq in E0. subst x. split; [cbn; lia | auto].
    + apply Nat.eqb_neq in E0.
      pose proof (Nat.div_mod_eq (x - 1) 26) as Hdm.
      pose proof (Nat.mod_upper_bound (x - 1) 26 ltac:(lia)) as Hrem.
      destruct (IH ((x - 1) / 26)
                   (String (ascii_of_nat (65 + (x - 1) mod 26)) col)) as [Hval Hup].
      { assert ((x - 1) / 26 <= x - 1) by (apply Nat.Div0.div_le_upper_bound; lia). lia. }
      split.
      * rewrite Hval. cbn [String.length letters_value].
        rewrite letters_value_acc, letter_code by assumption.
        rewrite Nat.pow_succ_r'. nia.
      * intros Hcol. apply Hup. cbn [all_chars]. rewrite Hcol.
        unfold Text.is_upper. rewrite letter_code by assumption.
        replace (65 <=? 65 + (x - 1) mod 26) with true by (symmetry; apply Nat.leb_le; lia).
        replace (65 + (x - 1) mod 26 <=? 90) with true by (symmetry; apply Nat.leb_le; lia).
        reflexivity.
Qed.

(** X1: the column part of an anchor is made of capital letters only and
    reads back, in bijective base 26, as the 1-based column number; two
    columns never share their letters. *)
Theorem anchor_column_round_trip (sheet : string) (r c : nat) :
  exists col,
    _a1 sheet r c = sheet ++ "!" ++ col ++ dec (r + 1)
    /\ letters_value col 0 = c + 1
    /\ all_chars Text.is_upper col = true
    /\ (forall c', col_letters (c' + 1) (c' + 1) "" = col -> c' = c).
Proof.
  exists (col_letters (c + 1) (c + 1) ""). split; [reflexivity |].
  destruct (col_letters_value (c + 1) (c + 1) "" (Nat.le_refl _)) as [Hval Hup].
  split; [rewrite Hval; cbn; lia |]. split; [apply Hup; reflexivity |].
  intros c' Heq.
  destruct (col_letters_value (c' + 1) (c' + 1) "" (Nat.le_refl _)) as [Hval' _].
  rewrite Heq, Hval in Hval'. cbn in Hval'. lia.
Qed.

(** ** Normalisation of labels *)

Lemma lower_char_facts (a : ascii) :
  Text.is_space (Text.lower_char a) = Text.is_space a
  /\ Text.lower_char (Text.lower_char a) = Text.lower_char a
  /\ Text.is_upper (Text.lower_char a) = false.
Proof.
  destruct a as [[] [] [] [] [] [] [] []]; vm_compute; repeat split; reflexivity.
Qed.

Lemma remove_spaces_lower (s : string) :
  Text.remove_spaces (Text.lower s) = Text.lower (Text.remove_spaces s).
Proof.
  induction s as [| a s IH]; [reflexivity |]. cbn [Text.lower Text.remove_spaces].
  destruct (lower_char_facts a) as (Hsp & _ & _). rewrite Hsp.
  destruct (Text.is_space a); [assumption | cbn [Text.lower]; rewrite IH; reflexivity].
Qed.

Lemma remove_spaces_idempotent (s : string) :
  Text.remove_spaces (Text.remove_spaces s) = Text.remove_spaces s
  /\ all_chars (fun a => negb (Text.is_space a)) (Text.remove_spaces s) = true.
Proof.
  induction s as [| a s [IH1 IH2]]; [split; reflexivity |]. cbn [Text.remove_spaces].
  destruct (Text.is_space a) eqn:E; [split; assumption |].
  cbn [Text.remove_spaces all_chars]. rewrite E, IH1, IH2. split; reflexivity.
Qed.

Lemma lower_idempotent (s : string) :
  Text.lower (Text.lower s) = Text.lower s
  /\ all_chars (fun a => negb (Text.is_upper a)) (Text.lower s) = true.
Proof.
  induction s as [| a s [IH1 IH2]]; [split; reflexivity |]. cbn [Text.lower all_chars].
  destruct (lower_char_facts a) as (_ & Hl & Hu). rewrite Hl, Hu, IH1, IH2.
  split; reflexivity.
Qed.

Lemma lower_keeps_no_space (s : string) :
  all_chars (fun a => negb (Text.is_space a)) s = true ->
  all_chars (fun a => negb (Text.is_space a)) (Text.lower s) = true.
Proof.
  induction s as [| a s IH]; [reflexivity |]. cbn [Text.lower all_chars].
  destruct (lower_char_facts a) as (Hsp & _ & _). rewrite Hsp.
  intros H. apply andb_true_iff in H. destruct H as [Ha Hs].
  rewrite Ha, (IH Hs). reflexivity.
Qed.

Lemma lower_char_ascii (a : ascii) :
  (nat_of_ascii (Text.lower_char a) <? 128) = (nat_of_ascii a <? 128).
Proof.
  destruct a as [[] [] [] [] [] [] [] []]; vm_compute; reflexivity.
Qed.

(** On ASCII text the normal form is ASCII again. *)
Lemma norm_ascii_stays_ascii (s : string) :
  Text.is_ascii s = true -> Text.is_ascii (Text.lower (Text.remove_spaces s)) = true.
Proof.
  induction s as [| a s IH]; [reflexivity |]. cbn [Text.is_ascii Text.remove_spaces].
  intros H. apply andb_true_iff in H. destruct H as [Ha Hs].
  destruct (Text.is_space a); [apply IH; assumption |].
  cbn [Text.lower Text.is_ascii]. rewrite lower_char_ascii, Ha, (IH Hs). reflexivity.
Qed.

(** X2: on ASCII text [_norm] is idempotent, and what it returns is ASCII
    text without whitespace and without capital letter, so that two ASCII
    labels with the same normal form match the same keywords. *)
Theorem norm_is_idempotent (py_str : PyText) (s : string) :
  Text.is_ascii s = true ->
  _norm py_str (_norm py_str s) = _norm py_str s
  /\ Text.is_ascii (_norm py_str s) = true
  /\ all_chars (fun a => negb (Text.is_space a)) (_norm py_str s) = true
  /\ all_chars (fun a => negb (Text.is_upper a)) (_norm py_str s) = true.
Proof.
  intros Hs. pose proof (norm_ascii_stays_ascii s Hs) as Hn.
  unfold _norm. rewrite Hs, Hn. split; [| split; [| split]].
  - rewrite remove_spaces_lower.
    destruct (remove_spaces_idempotent s) as [-> _].
    destruct (lower_idempotent (Text.remove_spaces s)) as [-> _]. reflexivity.
  - reflexivity.
  - apply lower_keeps_no_space. apply remove_spaces_idempotent.
  - apply lower_idempotent.
Qed.

Lemma norm_is_idempotent_witness :
  Text.is_ascii "  Gross  PROFIT " = true
  /\ _norm demo_text "  Gross  PROFIT " = "grossprofit"
  /\ _norm demo_text (_norm demo_text "  Gross  PROFIT ") = _norm demo_text "  Gross  PROFIT ".
Proof.
  split; [reflexivity |]. split; [reflexivity |].
  apply (norm_is_idempotent demo_text "  Gross  PROFIT "). reflexivity.
Defined.

(** ** The Row Locator as the module stands *)

(** Some cell of the first six columns of [df] is not blank. *)
Definition has_label_cell (df : DataFrame) : Prop :=
  exists r c, r < shape0 df /\ c < Nat.min 6 (shape1 df) /\ is_blank (iat df r c) = false.

Lemma has_label_cell_iff (df : DataFrame) :
  existsb (has_label df) (label_cells df) = true <-> has_label_cell df.
Proof.
  rewrite existsb_exists. unfold has_label_cell, has_label, label_cells. split.
  - intros ([r c] & Hin & Hb). apply in_grid_cells in Hin. exists r, c.
    cbn [fst snd] in Hb. apply negb_true_iff in Hb. tauto.
  - intros (r & c & Hr & Hc & Hb). exists (r, c).
    split; [apply in_grid_cells; split; assumption |].
    cbn [fst snd]. rewrite Hb. reflexivity.
Qed.

(** X3: with [_norm_text] unbound, [_find_row] raises [NameError] exactly
    when a cell of the first six columns is not blank, returns [None]
    otherwise, and never returns a row, whatever the keywords. *)
Theorem find_row_unbound_never_locates
        (df : DataFrame) (keywords : list string) (forbid : option (list string)) :
  (has_label_cell df ->
   _find_row analyze_py_globals df keywords forbid = Raise (name_error "_norm_text"))
  /\ (~ has_label_cell df -> _find_row analyze_py_globals df keywords forbid = Ok None)
  /\ (forall r, _find_row analyze_py_globals df keywords forbid <> Ok (Some r)).
Proof.
  unfold analyze_py_globals. rewrite find_row_unbound.
  pose proof (has_label_cell_iff df) as Hiff.
  destruct (existsb (has_label df) (label_cells df)).
  - split; [reflexivity |]. split; [| discriminate].
    intros Hno. exfalso. apply Hno. apply Hiff. reflexivity.
  - split; [| split; [reflexivity | discriminate]].
    intros Hyes. apply Hiff in Hyes. discriminate.
Qed.

(** ** The engine as the module stands *)

(** The sheet the extractor reads, when the workbook has one. *)
Definition is_sheet_of (sheets : Sheets) : option DataFrame :=
  match choose_is_sheet sheets with
  | Some name =>
      Some match dict_get sheets name with
           | Some df => df
           | None => []
           end
  | None => None
  end.

Section AsTheModuleStands.

Variable py_float : string -> option Q.
Variable py_str : PyText.
Variable path_stem : string -> string.
Variable lib_file : option (list Dim).

Local Abbreviation analyze_now :=
  (analyze_file py_float py_str path_stem analyze_py_globals lib_file).

(** What extraction can give with [_norm_text] unbound: the exception, or
    every row missing. *)
Lemma extract_unbound (sheets : Sheets) (lang : string) :
  _extract_is_metrics py_float analyze_py_globals sheets lang
  = match is_sheet_of sheets with
    | None => Ok ([], [], ["NO_SHEETS"])
    | Some df =>
        if existsb (has_label df) (label_cells df)
        then Raise (name_error "_norm_text")
        else Ok (map (fun k => mkMetric k (Text.title (Text.replace_char "_" " " k)) k
                                        None None "" None)
                     (map fst _IS_KEYS),
                 [],
                 (map (fun k => ("IS_ROW_MISSING::" ++ k)%string) (map fst _IS_KEYS)
                  ++ ["DERIVE_OPEX_MISSING_INPUT"])%list)
    end.
Proof.
  unfold _extract_is_metrics, is_sheet_of, analyze_py_globals.
  destruct (choose_is_sheet sheets) as [name |]; [| reflexivity].
  set (df := match dict_get sheets name with Some df => df | None => [] end).
  cbn [foldM _IS_KEYS]. unfold locate_and_extract. cbn [fst snd].
  rewrite !find_row_unbound.
  destruct (existsb (has_label df) (label_cells df)); reflexivity.
Qed.

(** X4: as the module stands, [analyze_file] never reports status OK and
    never reports a KPI value: the result is DEGRADED exactly when the
    sheet it reads has a non-blank cell in its first six columns, and
    PARTIAL otherwise. *)
Theorem analysis_is_never_ok (fs : FS) (file_path : string) (p : Params) :
  exists a,
    analyze_now fs file_path p = Ok a
    /\ status a <> "OK"
    /\ Forall (fun k => kpi_value k = None /\ kpi_delta_pct k = None) (kpis a)
    /\ (status a = "DEGRADED" <->
        exists df, is_sheet_of (_read_all_sheets fs file_path) = Some df
                   /\ has_label_cell df)
    /\ (status a <> "DEGRADED" -> status a = "PARTIAL").
Proof.
  unfold analyze_file, analyze_body. rewrite extract_unbound.
  destruct (is_sheet_of (_read_all_sheets fs file_path)) as [df |] eqn:Esheet.
  - pose proof (has_label_cell_iff df) as Hiff.
    destruct (existsb (has_label df) (label_cells df)).
    + cbn. eexists. split; [reflexivity |]. split; [discriminate |].
      split; [constructor |]. split; [| intros H; contradiction H; reflexivity].
      split; [intros _; exists df; split; [reflexivity | apply Hiff; reflexivity] |].
      reflexivity.
    + cbn [bind try_except].
      destruct (_extract_cash_cycle py_float py_str (_read_all_sheets fs file_path))
        as [[cash cash_ev] cash_miss].
      eexists. split; [reflexivity |]. cbn.
      split; [discriminate |].
      split; [repeat (constructor; [split; reflexivity |]); constructor |].
      split; [| reflexivity].
      split; [discriminate |].
      intros (df' & Heq & Hyes). injection Heq as <-. apply Hiff in Hyes. discriminate.
  - cbn [bind try_except].
    destruct (_extract_cash_cycle py_float py_str (_read_all_sheets fs file_path))
      as [[cash cash_ev] cash_miss].
    eexists. split; [reflexivity |]. cbn.
    split; [discriminate |]. split; [constructor |]. split; [| reflexivity].
    split; [discriminate |]. intros (df' & Heq & _). discriminate.
Qed.

End AsTheModuleStands.

(** ** Status, backlog and the degraded result *)

Definition is_system_error (g : Gap) : Prop := gap_type g = "SYSTEM_ERROR".

Section ResultShape.

Variable py_float : string -> option Q.
Variable py_str : PyText.
Variable path_stem : string -> string.
Variable norm_text_global : option (cell -> string).
Variable lib_file : option (list Dim).
Variable sha1_hex12 : string -> result string.
Variable round2 : Q -> Q.

Local Abbreviation analyze :=
  (analyze_file py_float py_str path_stem norm_text_global lib_file).

Local Abbreviation cached :=
  (analyze_file_cached py_float py_str path_stem norm_text_global lib_file
                       sha1_hex12 round2).

Local Abbreviation reachable_cache :=
  (reachable py_float py_str path_stem norm_text_global lib_file sha1_hex12 round2).

(** X5: the status of a result can be read off its backlog: OK exactly when
    the backlog is empty, DEGRADED exactly when it holds a SYSTEM_ERROR
    entry, PARTIAL exactly when it is non-empty and holds mapping gaps
    only. *)
Theorem status_reflects_backlog (fs : FS) (file_path : string) (p : Params) :
  exists a,
    analyze fs file_path p = Ok a
    /\ (status a = "OK" <-> mapping_backlog a = [])
    /\ (status a = "DEGRADED" <-> Exists is_system_error (mapping_backlog a))
    /\ (status a = "PARTIAL" <->
        mapping_backlog a <> []
        /\ Forall (fun g => gap_type g = "MAPPING_GAP") (mapping_backlog a)).
Proof.
  destruct (analyze_file_returns py_float py_str path_stem norm_text_global lib_file
              fs file_path p) as (a & Ha & Hwf & _).
  exists a. split; [assumption |].
  destruct Hwf as [[Hs Hb] | [(Hs & Hne & Hall) | (Hs & e & Hb)]]; rewrite Hs.
  - rewrite Hb. split; [tauto |]. split.
    + split; [discriminate | intros H; inversion H].
    + split; [discriminate | intros [H _]; contradiction H; reflexivity].
  - split; [split; [discriminate | intros H; contradiction] |]. split.
    + split; [discriminate |]. intros H. exfalso.
      apply Exists_exists in H. destruct H as (g & Hin & Hg).
      rewrite Forall_forall in Hall. apply Hall in Hin.
      unfold is_system_error in Hg. congruence.
    + tauto.
  - rewrite Hb. split; [split; discriminate |]. split.
    + split; [intros _; constructor; reflexivity | reflexivity].
    + split; [discriminate |]. intros [_ H]. inversion H as [| g l Hg _]. discriminate Hg.
Qed.

(** X6: a DEGRADED result is the neutral one: no KPI, no evidence, no
    cash-cycle figure, the placeholder period, and the fallback radar in
    which every signal scores 5.0 at confidence 0.2. *)
Theorem degraded_result_is_neutral (fs : FS) (file_path : string) (p : Params) :
  exists a,
    analyze fs file_path p = Ok a
    /\ (status a = "DEGRADED" ->
        kpis a = [] /\ evidence_ledger a = [] /\ cash_cycle a = degraded_cash
        /\ period a = "—"
        /\ radar_signals a = _default_radar lib_file (p_lang p)
        /\ Forall (fun s => sg_score s = 5%Q /\ sg_confidence s = (1 # 5)%Q
                            /\ sg_evidence s = "fallback")
                  (radar_signals a)).
Proof.
  destruct (analyze_file_returns py_float py_str path_stem norm_text_global lib_file
              fs file_path p) as (a & Ha & _ & Hraise & Hok).
  exists a. split; [assumption |]. intros Hdeg.
  unfold body_of in Hraise, Hok. unfold analyze_file in Ha.
  fold (system_of path_stem fs file_path) in Ha.
  destruct (analyze_body py_float py_str norm_text_global lib_file
              (_read_all_sheets fs file_path) (system_of path_stem fs file_path) p)
    as [a0 | ex] eqn:E.
  - destruct (Hok a0 eq_refl) as [_ Hnd]. contradiction.
  - cbn in Ha. injection Ha as <-. cbn.
    repeat split. unfold _default_radar. apply Forall_forall.
    intros s Hs. apply in_map_iff in Hs. destruct Hs as (d & <- & _).
    repeat split.
Qed.

(** X7: the radar has one signal per entry of the dimension library, up to
    eight: a library file shorter than eight entries gives a shorter
    radar, in the scored and in the fallback radar alike. *)
Theorem radar_length_follows_library (metrics : list Metric) (cash : CashCycle)
        (lang : string) :
  length (_build_radar_signals lib_file metrics cash lang)
  = Nat.min 8 (length (_radar_library lib_file))
  /\ length (_default_radar lib_file lang) = Nat.min 8 (length (_radar_library lib_file))
  /\ map sg_dim_id (_build_radar_signals lib_file metrics cash lang)
     = map dim_id (firstn 8 (_radar_library lib_file)).
Proof.
  unfold _build_radar_signals, _default_radar.
  assert (Hlen : length (radar_scores metrics cash) = 8) by reflexivity.
  split; [| split].
  - rewrite length_map, length_combine, length_firstn, Hlen. lia.
  - rewrite length_map, length_firstn. reflexivity.
  - rewrite map_map. cbn [sg_dim_id].
    assert (Hle : length (firstn 8 (_radar_library lib_file))
                  <= length (radar_scores metrics cash)).
    { rewrite length_firstn, Hlen. lia. }
    revert Hle. generalize (radar_scores metrics cash), (firstn 8 (_radar_library lib_file)).
    intros scores dims. revert scores.
    induction dims as [| d dims IH]; intros scores Hle; [reflexivity |].
    destruct scores as [| sc scores]; cbn in Hle; [lia |].
    cbn. rewrite IH by lia. reflexivity.
Qed.

(** Every cached entry echoes the filters of its key. *)
Definition filters_of_key (c : Cache) : Prop :=
  Forall (fun ke : CacheKey * CacheEntry =>
            filters (data (snd ke))
            = mkFilters (k_cycle (fst ke)) (k_terms (fst ke))
                        (k_mode (fst ke)) (k_hold (fst ke))) c.

Lemma analyze_filters (fs : FS) (file_path : string) (p : Params) (a : Analysis) :
  analyze fs file_path p = Ok a ->
  filters a = mkFilters (p_cycle p) (p_terms p) (p_mode p) (p_hold p).
Proof.
  unfold analyze_file, analyze_body.
  destruct (_extract_is_metrics py_float norm_text_global
              (_read_all_sheets fs file_path) (p_lang p)) as [[[ms ev] miss] | ex];
    cbn [bind try_except].
  - destruct (_extract_cash_cycle py_float py_str (_read_all_sheets fs file_path))
      as [[cash cev] cmiss].
    intros H. injection H as <-. reflexivity.
  - intros H. injection H as <-. reflexivity.
Qed.

Lemma cached_filters (fs : FS) (c : Cache) (now : Q) (file_path : string) (p : Params)
      (a : Analysis) (c' : Cache) :
  filters_of_key c ->
  cached fs c now file_path p = Ok (a, c') ->
  filters a = mkFilters (p_cycle p) (p_terms p) (p_mode p) (p_hold p)
  /\ filters_of_key c'.
Proof.
  intros Hc Hcall. unfold analyze_file_cached in Hcall.
  assert (Hmiss : forall st ph,
             cached_miss py_float py_str path_stem norm_text_global lib_file fs c now
                         (cache_key fs file_path p st ph) file_path p
             = Ok (a, c') ->
             filters a = mkFilters (p_cycle p) (p_terms p) (p_mode p) (p_hold p)
             /\ filters_of_key c').
  { intros st ph Hm. unfold cached_miss in Hm.
    destruct (analyze fs file_path p) as [u | ex] eqn:Hu; cbn [bind] in Hm; [| discriminate].
    injection Hm as <- <-. pose proof (analyze_filters _ _ _ _ Hu) as Hf.
    split; [exact Hf |]. apply Forall_forall. intros x Hx.
    apply cache_set_in in Hx. destruct Hx as [-> | Hx]; [exact Hf |].
    apply prune_oldest_incl in Hx. unfold filters_of_key in Hc.
    rewrite Forall_forall in Hc. apply Hc. assumption. }
  match type of Hcall with
  | try_except ?m _ = _ => destruct m as [[out0 c0] | ex] eqn:Ebody
  end; cbn [try_except] in Hcall.
  - injection Hcall as -> ->. unfold cached_body in Ebody.
    destruct (fs_stat fs file_path) as [st | ex]; [| discriminate].
    destruct (sha1_hex12 (p_prompt p)) as [ph | ex]; [| discriminate].
    destruct (cache_get (cache_key fs file_path p st ph) c) as [ent |] eqn:Eget.
    + destruct (Qltb (now - ts ent) _ANALYSIS_CACHE_TTL_S).
      * injection Ebody as <- <-. split; [| assumption].
        apply cache_get_in in Eget. unfold filters_of_key in Hc.
        rewrite Forall_forall in Hc. apply Hc in Eget. exact Eget.
      * apply (Hmiss st ph). exact Ebody.
    + apply (Hmiss st ph). exact Ebody.
  - destruct (analyze fs file_path p) as [u | ex'] eqn:Hu; cbn [bind] in Hcall;
      [| discriminate].
    injection Hcall as <- <-. split; [| assumption].
    apply (analyze_filters _ _ _ _ Hu).
Qed.

Lemma reachable_filters_of_key (c : Cache) : reachable_cache c -> filters_of_key c.
Proof.
  induction 1 as [| fs c now file_path p a c' Hreach IH Hcall]; [constructor |].
  apply (cached_filters _ _ _ _ _ _ _ IH Hcall).
Qed.

(** X8: on every cache the process can reach, a result of
    [analyze_file_cached] echoes the four filters of the call: a change of
    filter is never answered from an entry stored under other filters. *)
Theorem cached_result_echoes_filters (fs : FS) (c : Cache) (now : Q)
        (file_path : string) (p : Params) (a : Analysis) (c' : Cache) :
  reachable_cache c ->
  cached fs c now file_path p = Ok (a, c') ->
  filters a = mkFilters (p_cycle p) (p_terms p) (p_mode p) (p_hold p).
Proof.
  intros Hreach Hcall.
  apply (cached_filters _ _ _ _ _ _ _ (reachable_filters_of_key _ Hreach) Hcall).
Qed.

End ResultShape.

(** ** The cache as a bounded dictionary *)

Lemma key_eqb_neq (a b : CacheKey) : key_eqb a b = false -> a <> b.
Proof.
  intros H ->. rewrite key_eqb_refl in H. discriminate.
Qed.

Lemma Qltb_lt (a b : Q) : Qltb a b = true <-> (a < b)%Q.
Proof.
  unfold Qltb. split.
  - intros H. apply Qle_bool_false. destruct (Qle_bool b a); [discriminate | reflexivity].
  - intros H. destruct (Qle_bool b a) eqn:E; [| reflexivity].
    apply Qle_bool_iff in E. exfalso. exact (Qlt_not_le _ _ H E).
Qed.

Lemma Qltb_ge (a b : Q) : Qltb a b = false <-> (b <= a)%Q.
Proof.
  unfold Qltb. split.
  - intros H. apply Qle_bool_iff. destruct (Qle_bool b a); [reflexivity | discriminate].
  - intros H. apply Qle_bool_iff in H. rewrite H. reflexivity.
Qed.

Lemma cache_pop_keys (k : CacheKey) (c : Cache) (k' : CacheKey) :
  In k' (map fst (cache_pop k c)) -> In k' (map fst c).
Proof.
  intros H. apply in_map_iff in H. destruct H as (x & <- & Hx).
  apply in_map. eapply cache_pop_incl. eassumption.
Qed.

Lemma cache_pop_nodup (k : CacheKey) (c : Cache) :
  NoDup (map fst c) -> NoDup (map fst (cache_pop k c)).
Proof.
  induction c as [| [k' e'] rest IH]; cbn; [auto |].
  intros H. inversion H as [| ? ? Hnot Hrest]; subst.
  destruct (key_eqb k' k); [assumption |].
  cbn. constructor; [| auto].
  intros Hin. apply Hnot. eapply cache_pop_keys. eassumption.
Qed.

(** Popping a key the dictionary holds removes one entry. *)
Lemma cache_pop_length (k : CacheKey) (c : Cache) :
  In k (map fst c) -> S (length (cache_pop k c)) = length c.
Proof.
  induction c as [| [k' e'] rest IH]; cbn; [intros [] |].
  destruct (key_eqb k' k) eqn:E; [reflexivity |].
  intros [Heq | Hin]; [apply key_eqb_neq in E; contradiction |].
  cbn. rewrite IH by assumption. reflexivity.
Qed.

(** Popping the key of an entry no earlier entry shares removes that entry. *)
Lemma cache_pop_split (k : CacheKey) (e : CacheEntry) (l1 l2 : Cache) :
  ~ In k (map fst l1) -> cache_pop k (l1 ++ (k, e) :: l2)%list = (l1 ++ l2)%list.
Proof.
  induction l1 as [| [k' e'] rest IH]; cbn.
  - intros _. rewrite key_eqb_refl. reflexivity.
  - intros Hnot. destruct (key_eqb k' k) eqn:E.
    + apply key_eqb_eq in E. exfalso. apply Hnot. left. assumption.
    + rewrite IH; [reflexivity |]. intros Hin. apply Hnot. right. assumption.
Qed.

Lemma cache_set_keys (k : CacheKey) (e : CacheEntry) (c : Cache) (k' : CacheKey) :
  In k' (map fst (cache_set k e c)) -> k' = k \/ In k' (map fst c).
Proof.
  intros H. apply in_map_iff in H. destruct H as (x & <- & Hx).
  apply cache_set_in in Hx. destruct Hx as [-> | Hx]; [left; reflexivity |].
  right. apply in_map. assumption.
Qed.

Lemma cache_set_nodup (k : CacheKey) (e : CacheEntry) (c : Cache) :
  NoDup (map fst c) -> NoDup (map fst (cache_set k e c)).
Proof.
  induction c as [| [k' e'] rest IH]; cbn.
  - intros _. constructor; [intros [] | constructor].
  - intros H. inversion H as [| ? ? Hnot Hrest]; subst.
    destruct (key_eqb k' k) eqn:E; cbn; [constructor; assumption |].
    constructor; [| auto].
    intros Hin. apply cache_set_keys in Hin. destruct Hin as [-> | Hin].
    + rewrite key_eqb_refl in E. discriminate.
    + contradiction.
Qed.

Lemma cache_set_length (k : CacheKey) (e : CacheEntry) (c : Cache) :
  length (cache_set k e c) <= S (length c).
Proof.
  induction c as [| [k' e'] rest IH]; cbn; [lia |].
  destruct (key_eqb k' k); cbn; lia.
Qed.

(** The pruning loop with a candidate in hand: the candidate stays when no
    later entry is strictly older, otherwise the first of the oldest later
    entries replaces it. *)
Lemma oldest_key_from (c : Cache) (ka : CacheKey) (ta : Q) (k : CacheKey) :
  oldest_key c (Some (ka, ta)) = Some k ->
  (k = ka /\ Forall (fun x => (ta <= ts (snd x))%Q) c)
  \/ (exists l1 e l2,
         c = (l1 ++ (k, e) :: l2)%list /\ (ts e < ta)%Q
         /\ Forall (fun x => (ts e < ts (snd x))%Q) l1
         /\ Forall (fun x => (ts e <= ts (snd x))%Q) l2).
Proof.
  revert ka ta. induction c as [| [k1 v1] rest IH]; intros ka ta; cbn.
  - intros H. injection H as <-. left. split; [reflexivity | constructor].
  - destruct (Qltb (ts v1) ta) eqn:E; intros H; apply IH in H.
    + apply Qltb_lt in E. right.
      destruct H as [[-> Hall] | (l1 & e & l2 & -> & Hlt & H1 & H2)].
      * exists [], v1, rest. repeat split; [assumption | constructor | assumption].
      * exists ((k1, v1) :: l1), e, l2. repeat split.
        -- eapply Qlt_trans; eassumption.
        -- constructor; assumption.
        -- assumption.
    + apply Qltb_ge in E.
      destruct H as [[-> Hall] | (l1 & e & l2 & -> & Hlt & H1 & H2)].
      * left. split; [reflexivity |]. constructor; assumption.
      * right. exists ((k1, v1) :: l1), e, l2. repeat split.
        -- assumption.
        -- constructor; [| assumption]. cbn. eapply Qlt_le_trans; eassumption.
        -- assumption.
Qed.

(** The pruning loop picks the first entry among those with the least
    timestamp. *)
Lemma oldest_key_first_oldest (c : Cache) :
  c <> [] ->
  exists l1 k e l2,
    oldest_key c None = Some k /\ c = (l1 ++ (k, e) :: l2)%list
    /\ Forall (fun x => (ts e < ts (snd x))%Q) l1
    /\ Forall (fun x => (ts e <= ts (snd x))%Q) l2.
Proof.
  destruct c as [| [k0 v0] rest]; [intros H; contradiction H; reflexivity |].
  intros _. cbn.
  destruct (oldest_key rest (Some (k0, ts v0))) as [k |] eqn:E.
  - apply oldest_key_from in E.
    destruct E as [[-> Hall] | (l1 & e & l2 & -> & Hlt & H1 & H2)].
    + exists [], k0, v0, rest. repeat split; [constructor | assumption].
    + exists ((k0, v0) :: l1), k, e, l2. repeat split; [| assumption].
      constructor; assumption.
  - exfalso. clear -E. revert E. generalize (k0, ts v0).
    induction rest as [| [k1 v1] rest IH]; intros [ka ta]; cbn; [discriminate |].
    destruct (Qltb (ts v1) ta); apply IH.
Qed.

Lemma NoDup_keys_split (l1 l2 : Cache) (k : CacheKey) (e : CacheEntry) :
  NoDup (map fst (l1 ++ (k, e) :: l2)%list) -> ~ In k (map fst l1).
Proof.
  rewrite map_app. cbn. intros H Hin.
  apply NoDup_remove_2 in H. apply H. apply in_or_app. left. assumption.
Qed.

(** What the pruning block does to a dictionary with distinct keys. *)
Lemma prune_oldest_spec (c : Cache) :
  NoDup (map fst c) ->
  (length c < _ANALYSIS_CACHE_MAX -> prune_oldest c = c)
  /\ (_ANALYSIS_CACHE_MAX <= length c ->
      exists l1 k e l2,
        c = (l1 ++ (k, e) :: l2)%list /\ prune_oldest c = (l1 ++ l2)%list
        /\ Forall (fun x => (ts e < ts (snd x))%Q) l1
        /\ Forall (fun x => (ts e <= ts (snd x))%Q) l2).
Proof.
  intros Hnd. unfold prune_oldest. split; intros Hlen.
  - destruct (Nat.leb_spec _ANALYSIS_CACHE_MAX (length c)); [lia | reflexivity].
  - destruct (Nat.leb_spec _ANALYSIS_CACHE_MAX (length c)); [| lia].
    assert (Hne : c <> []).
    { intros ->. unfold _ANALYSIS_CACHE_MAX in Hlen. cbn in Hlen. lia. }
    destruct (oldest_key_first_oldest c Hne) as (l1 & k & e & l2 & Hk & Hc & H1 & H2).
    rewrite Hk. exists l1, k, e, l2. subst c.
    rewrite cache_pop_split by (eapply NoDup_keys_split; eassumption).
    repeat split; assumption.
Qed.

(** The dictionary never holds two entries under one key, nor more than
    [_ANALYSIS_CACHE_MAX] entries. *)
Definition cache_tidy (c : Cache) : Prop :=
  NoDup (map fst c) /\ length c <= _ANALYSIS_CACHE_MAX.

Lemma prune_then_set_tidy (k : CacheKey) (e : CacheEntry) (c : Cache) :
  cache_tidy c -> cache_tidy (cache_set k e (prune_oldest c)).
Proof.
  intros [Hnd Hlen]. destruct (prune_oldest_spec c Hnd) as [Hsmall Hfull].
  assert (Hnd' : NoDup (map fst (prune_oldest c))).
  { unfold prune_oldest. destruct (_ANALYSIS_CACHE_MAX <=? length c); [| assumption].
    destruct (oldest_key c None); [apply cache_pop_nodup |]; assumption. }
  split; [apply cache_set_nodup; assumption |].
  pose proof (cache_set_length k e (prune_oldest c)) as Hset.
  destruct (Nat.lt_ge_cases (length c) _ANALYSIS_CACHE_MAX) as [Hlt | Hge].
  - rewrite (Hsmall Hlt) in *. lia.
  - destruct (Hfull Hge) as (l1 & k0 & e0 & l2 & Hc & Hp & _).
    rewrite Hp in *. subst c. rewrite length_app in *. cbn in Hlen. lia.
Qed.

Section CacheBounds.

Variable py_float : string -> option Q.
Variable py_str : PyText.
Variable path_stem : string -> string.
Variable norm_text_global : option (cell -> string).
Variable lib_file : option (list Dim).
Variable sha1_hex12 : string -> result string.
Variable round2 : Q -> Q.

Local Abbreviation analyze :=
  (analyze_file py_float py_str path_stem norm_text_global lib_file).

Local Abbreviation cached :=
  (analyze_file_cached py_float py_str path_stem norm_text_global lib_file
                       sha1_hex12 round2).

Local Abbreviation reachable_cache :=
  (reachable py_float py_str path_stem norm_text_global lib_file sha1_hex12 round2).

(** The three ways a call can end, told apart by the note it leaves in
    [system.cache]: a hit and the fallback leave the dictionary as it was,
    a miss prunes and stores. *)
Lemma cached_call_paths (fs : FS) (c : Cache) (now : Q) (file_path : string) (p : Params)
      (a : Analysis) (c' : Cache) :
  cached fs c now file_path p = Ok (a, c') ->
  (exists st ph ent,
      fs_stat fs file_path = Ok st
      /\ sha1_hex12 (p_prompt p) = Ok ph
      /\ cache_get (cache_key fs file_path p st ph) c = Some ent
      /\ (now - ts ent < _ANALYSIS_CACHE_TTL_S)%Q
      /\ a = annotate (mkNote true (Some (round2 (now - ts ent))) None) (data ent)
      /\ c' = c)
  \/ (exists st ph u,
         fs_stat fs file_path = Ok st
         /\ sha1_hex12 (p_prompt p) = Ok ph
         /\ (forall ent, cache_get (cache_key fs file_path p st ph) c = Some ent ->
                         (_ANALYSIS_CACHE_TTL_S <= now - ts ent)%Q)
         /\ analyze fs file_path p = Ok u
         /\ a = annotate (mkNote false (Some 0%Q) None) u
         /\ c' = cache_set (cache_key fs file_path p st ph) (mkEntry now u)
                           (prune_oldest c))
  \/ (exists ex u,
         (fs_stat fs file_path = Raise ex
          \/ exists st, fs_stat fs file_path = Ok st
                        /\ sha1_hex12 (p_prompt p) = Raise ex)
         /\ analyze fs file_path p = Ok u
         /\ a = annotate (mkNote false None (Some (exc_kind ex ++ ": " ++ exc_msg ex))) u
         /\ c' = c).
Proof.
  unfold analyze_file_cached, cached_body, cached_miss.
  destruct (analyze_file_returns py_float py_str path_stem norm_text_global lib_file
              fs file_path p) as (u & Hu & _).
  rewrite Hu. cbn [bind].
  destruct (fs_stat fs file_path) as [st | ex];
    [destruct (sha1_hex12 (p_prompt p)) as [ph | ex] |]; cbn [try_except].
  - destruct (cache_get (cache_key fs file_path p st ph) c) as [ent |] eqn:Eget.
    + destruct (Qltb (now - ts ent) _ANALYSIS_CACHE_TTL_S) eqn:Ettl; cbn [try_except];
        intros H; injection H as <- <-.
      * left. exists st, ph, ent. apply Qltb_lt in Ettl. repeat split; assumption.
      * right. left. exists st, ph, u. apply Qltb_ge in Ettl. repeat split.
        intros ent' Hent'. rewrite Eget in Hent'. injection Hent' as <-. assumption.
    + cbn [try_except]. intros H. injection H as <- <-.
      right. left. exists st, ph, u. repeat split.
      intros ent' Hent'. rewrite Eget in Hent'. discriminate.
  - intros H. injection H as <- <-. right. right. exists ex, u.
    split; [right; exists st; split; reflexivity |]. repeat split.
  - intros H. injection H as <- <-. right. right. exists ex, u.
    split; [left; reflexivity |]. repeat split.
Qed.

Lemma cached_call_tidy (fs : FS) (c : Cache) (now : Q) (file_path : string) (p : Params)
      (a : Analysis) (c' : Cache) :
  cache_tidy c -> cached fs c now file_path p = Ok (a, c') -> cache_tidy c'.
Proof.
  intros Ht Hcall. apply cached_call_paths in Hcall.
  destruct Hcall as [(st & ph & ent & _ & _ & _ & _ & _ & ->)
                    | [(st & ph & u & _ & _ & _ & _ & _ & ->)
                      | (ex & u & _ & _ & _ & ->)]];
    [assumption | apply prune_then_set_tidy; assumption | assumption].
Qed.

Lemma reachable_tidy (c : Cache) : reachable_cache c -> cache_tidy c.
Proof.
  induction 1 as [| fs c now file_path p a c' Hreach IH Hcall].
  - split; [constructor | unfold _ANALYSIS_CACHE_MAX; cbn; lia].
  - eapply cached_call_tidy; eassumption.
Qed.

(** X9: a call that runs alone, no other call writing the cache in the
    meantime, keeps the cache bounded: from a dictionary of at most eight
    entries it leaves a dictionary of at most eight entries, a hit and the
    fallback leaving it as it is and a miss at most one entry longer after
    pruning. Calls that overlap are outside this statement (see
    [overlapping_misses_leave_nine]). *)
Theorem call_keeps_cache_bounded (fs : FS) (c : Cache) (now : Q)
        (file_path : string) (p : Params) (a : Analysis) (c' : Cache) :
  NoDup (map fst c) -> length c <= 8 ->
  cached fs c now file_path p = Ok (a, c') ->
  NoDup (map fst c') /\ length c' <= 8
  /\ (sys_cache (system a) <> Some (mkNote false (Some 0%Q) None) -> c' = c)
  /\ length c' <= S (length (prune_oldest c)).
Proof.
  intros Hnd Hlen Hcall.
  destruct (cached_call_tidy fs c now file_path p a c' (conj Hnd Hlen) Hcall)
    as [Hnd' Hlen'].
  split; [exact Hnd' |]. split; [exact Hlen' |].
  apply cached_call_paths in Hcall.
  destruct Hcall as [(st & ph & ent & _ & _ & _ & _ & -> & ->)
                    | [(st & ph & u & _ & _ & _ & _ & -> & ->)
                      | (ex & u & _ & _ & -> & ->)]].
  - split; [reflexivity |].
    destruct (prune_oldest_spec c Hnd) as [Hsmall Hfull].
    destruct (Nat.lt_ge_cases (length c) _ANALYSIS_CACHE_MAX) as [Hlt | Hge].
    + rewrite (Hsmall Hlt). lia.
    + destruct (Hfull Hge) as (l1 & k0 & e0 & l2 & Hc & Hp & _).
      rewrite Hp. subst c. rewrite !length_app in *. cbn [length] in *.
      unfold _ANALYSIS_CACHE_MAX in *. lia.
  - split; [intros H; contradiction H; reflexivity | apply cache_set_length].
  - split; [reflexivity |].
    destruct (prune_oldest_spec c Hnd) as [Hsmall Hfull].
    destruct (Nat.lt_ge_cases (length c) _ANALYSIS_CACHE_MAX) as [Hlt | Hge].
    + rewrite (Hsmall Hlt). lia.
    + destruct (Hfull Hge) as (l1 & k0 & e0 & l2 & Hc & Hp & _).
      rewrite Hp. subst c. rewrite !length_app in *. cbn [length] in *.
      unfold _ANALYSIS_CACHE_MAX in *. lia.
Qed.

(** X10: a miss stores its result in the pruned cache. When the cache of a
    running process is full, pruning evicts exactly one entry: the first,
    in insertion order, of the entries with the least timestamp. Every
    other entry stays, in order. Below eight entries nothing is evicted. *)
Theorem full_cache_evicts_first_oldest (c : Cache) :
  reachable_cache c ->
  (forall fs now file_path p a c',
      cached fs c now file_path p = Ok (a, c') ->
      sys_cache (system a) = Some (mkNote false (Some 0%Q) None) ->
      exists k u, c' = cache_set k (mkEntry now u) (prune_oldest c))
  /\ (length c < 8 -> prune_oldest c = c)
  /\ (length c = 8 ->
      exists l1 k e l2,
        c = (l1 ++ (k, e) :: l2)%list /\ prune_oldest c = (l1 ++ l2)%list
        /\ Forall (fun x => (ts e < ts (snd x))%Q) l1
        /\ Forall (fun x => (ts e <= ts (snd x))%Q) l2).
Proof.
  intros H. apply reachable_tidy in H. destruct H as [Hnd Hlen].
  destruct (prune_oldest_spec c Hnd) as [Hsmall Hfull].
  split; [| split; [exact Hsmall |]].
  - intros fs now file_path p a c' Hcall Hnote. apply cached_call_paths in Hcall.
    destruct Hcall as [(st & ph & ent & _ & _ & _ & _ & -> & _)
                      | [(st & ph & u & _ & _ & _ & _ & _ & ->)
                        | (ex & u & _ & _ & -> & _)]];
      [cbn in Hnote; discriminate | | cbn in Hnote; discriminate].
    eexists. eexists. reflexivity.
  - intros H8. apply Hfull. unfold _ANALYSIS_CACHE_MAX. lia.
Qed.

(** X11: an entry stored by a miss at time [now1] answers the same call at
    time [now2] exactly when less than thirty minutes have passed; the hit
    returns the stored analysis with the age in its note and leaves the
    cache as it is. After thirty minutes the call is a miss again. *)
Theorem stored_entry_served_for_ttl (fs : FS) (c : Cache) (now1 now2 : Q)
        (file_path : string) (p : Params) (a1 : Analysis) (c1 : Cache) :
  cached fs c now1 file_path p = Ok (a1, c1) ->
  sys_cache (system a1) = Some (mkNote false (Some 0%Q) None) ->
  exists a2 c2,
    cached fs c1 now2 file_path p = Ok (a2, c2)
    /\ ((now2 - now1 < 1800)%Q ->
        sys_cache (system a2) = Some (mkNote true (Some (round2 (now2 - now1))) None)
        /\ strip_cache a2 = strip_cache a1 /\ c2 = c1)
    /\ ((1800 <= now2 - now1)%Q ->
        sys_cache (system a2) = Some (mkNote false (Some 0%Q) None)).
Proof.
  intros Hcall Hnote. apply cached_call_paths in Hcall.
  destruct Hcall as [(st & ph & ent & _ & _ & _ & _ & -> & _)
                    | [(st & ph & u & Hst & Hph & _ & Hu & -> & ->)
                      | (ex & u & _ & _ & -> & _)]];
    [cbn in Hnote; discriminate | | cbn in Hnote; discriminate].
  unfold analyze_file_cached, cached_body, cached_miss.
  rewrite Hst, Hph, cache_get_set, Hu. cbn [ts data bind].
  destruct (Qltb (now2 - now1) _ANALYSIS_CACHE_TTL_S) eqn:Ettl; cbn [try_except].
  - apply Qltb_lt in Ettl. eexists. eexists. split; [reflexivity |]. split.
    + intros _. repeat split.
    + intros Hge. exfalso. apply (Qlt_not_le _ _ Ettl).
      unfold _ANALYSIS_CACHE_TTL_S. setoid_replace (30 * 60)%Q with 1800%Q by reflexivity.
      assumption.
  - apply Qltb_ge in Ettl. eexists. eexists. split; [reflexivity |]. split.
    + intros Hlt. exfalso. apply (Qlt_not_le _ _ Hlt).
      unfold _ANALYSIS_CACHE_TTL_S in Ettl.
      setoid_replace (30 * 60)%Q with 1800%Q in Ettl by reflexivity. assumption.
    + intros _. reflexivity.
Qed.

End CacheBounds.

(** ** Replaying calls *)

Section Replay.

Variable py_float : string -> option Q.
Variable py_str : PyText.
Variable path_stem : string -> string.
Variable norm_text_global : option (cell -> string).
Variable lib_file : option (list Dim).
Variable sha1_hex12 : string -> result string.
Variable round2 : Q -> Q.

(** The cache after a sequence of calls [(now, parameters)] on one file. *)
Fixpoint replay (fs : FS) (file_path : string) (calls : list (Q * Params)) (c : Cache)
  : Cache :=
  match calls with
  | [] => c
  | (now, p) :: rest =>
      match analyze_file_cached py_float py_str path_stem norm_text_global lib_file
                                sha1_hex12 round2 fs c now file_path p with
      | Ok (_, c') => replay fs file_path rest c'
      | Raise _ => replay fs file_path rest c
      end
  end.

Lemma replay_reachable (fs : FS) (file_path : string) (calls : list (Q * Params))
      (c : Cache) :
  reachable py_float py_str path_stem norm_text_global lib_file sha1_hex12 round2 c ->
  reachable py_float py_str path_stem norm_text_global lib_file sha1_hex12 round2
            (replay fs file_path calls c).
Proof.
  revert c. induction calls as [| [now p] rest IH]; intros c Hc; cbn; [assumption |].
  destruct (analyze_file_cached py_float py_str path_stem norm_text_global lib_file
              sha1_hex12 round2 fs c now file_path p) as [[a c'] | ex] eqn:E.
  - apply IH. eapply reach_call; eassumption.
  - apply IH. assumption.
Qed.

End Replay.

(** Nine calls on the demo workbook, one per second, each under another
    holding filter. *)
Definition nine_calls : list (Q * Params) :=
  map (fun n => (inject_Z (Z.of_nat n),
                 mkParams "en" "" "MOM" "AUTO" "AUTO" (dec n)))
      (seq 1 9).

Definition yoy_params : Params := mkParams "en" "" "YOY" "AUTO" "AUTO" "OFF".

Lemma cached_result_echoes_filters_witness :
  exists a c',
    analyze_file_cached digits_float demo_text (fun path => path) analyze_py_globals
                        None (fun prompt => Ok prompt) round_half_even_2 demo_fs
                        (replay digits_float demo_text (fun path => path)
                                analyze_py_globals None (fun prompt => Ok prompt)
                                round_half_even_2 demo_fs "book.xlsx"
                                [(10%Q, demo_params)] [])
                        25%Q "book.xlsx" yoy_params = Ok (a, c')
    /\ filters a = mkFilters "YOY" "AUTO" "AUTO" "OFF".
Proof.
  destruct (analyze_file_cached digits_float demo_text (fun path => path)
              analyze_py_globals None (fun prompt => Ok prompt) round_half_even_2 demo_fs
              (replay digits_float demo_text (fun path => path)
                      analyze_py_globals None (fun prompt => Ok prompt)
                      round_half_even_2 demo_fs "book.xlsx" [(10%Q, demo_params)] [])
              25%Q "book.xlsx" yoy_params) as [[a c'] | ex] eqn:E;
    [| vm_compute in E; discriminate].
  exists a, c'. split; [reflexivity |].
  exact (cached_result_echoes_filters _ _ _ _ _ _ _ _ _ _ _ _ _ _
           (replay_reachable _ _ _ _ _ _ _ demo_fs "book.xlsx" [(10%Q, demo_params)] []
              (reach_start _ _ _ _ _ _ _))
           E).
Defined.

Lemma call_keeps_cache_bounded_witness :
  exists a c',
    length (replay digits_float demo_text (fun path => path) analyze_py_globals None
                   (fun prompt => Ok prompt) round_half_even_2 demo_fs "book.xlsx"
                   (firstn 8 nine_calls) []) = 8
    /\ analyze_file_cached digits_float demo_text (fun path => path) analyze_py_globals
                           None (fun prompt => Ok prompt) round_half_even_2 demo_fs
                           (replay digits_float demo_text (fun path => path)
                                   analyze_py_globals None (fun prompt => Ok prompt)
                                   round_half_even_2 demo_fs "book.xlsx"
                                   (firstn 8 nine_calls) [])
                           9%Q "book.xlsx" (mkParams "en" "" "MOM" "AUTO" "AUTO" "9")
       = Ok (a, c')
    /\ length c' <= 8.
Proof.
  destruct (analyze_file_cached digits_float demo_text (fun path => path)
              analyze_py_globals None (fun prompt => Ok prompt) round_half_even_2 demo_fs
              (replay digits_float demo_text (fun path => path)
                      analyze_py_globals None (fun prompt => Ok prompt)
                      round_half_even_2 demo_fs "book.xlsx" (firstn 8 nine_calls) [])
              9%Q "book.xlsx" (mkParams "en" "" "MOM" "AUTO" "AUTO" "9"))
    as [[a c'] | ex] eqn:E; [| vm_compute in E; discriminate].
  exists a, c'. split; [vm_compute; reflexivity |]. split; [reflexivity |].
  destruct (reachable_tidy _ _ _ _ _ _ _ _
              (replay_reachable digits_float demo_text (fun path => path)
                 analyze_py_globals None (fun prompt => Ok prompt) round_half_even_2
                 demo_fs "book.xlsx" (firstn 8 nine_calls) []
                 (reach_start _ _ _ _ _ _ _))) as [Hnd Hlen].
  destruct (call_keeps_cache_bounded _ _ _ _ _ _ _ _ _ _ _ _ _ _ Hnd Hlen E)
    as (_ & H & _).
  exact H.
Defined.

Lemma full_cache_evicts_first_oldest_witness :
  length (replay digits_float demo_text (fun path => path) analyze_py_globals None
                 (fun prompt => Ok prompt) round_half_even_2 demo_fs "book.xlsx"
                 (firstn 8 nine_calls) []) = 8
  /\ exists l1 k e l2,
      replay digits_float demo_text (fun path => path) analyze_py_globals None
             (fun prompt => Ok prompt) round_half_even_2 demo_fs "book.xlsx"
             (firstn 8 nine_calls) [] = (l1 ++ (k, e) :: l2)%list
      /\ prune_oldest
           (replay digits_float demo_text (fun path => path) analyze_py_globals None
                   (fun prompt => Ok prompt) round_half_even_2 demo_fs "book.xlsx"
                   (firstn 8 nine_calls) []) = (l1 ++ l2)%list
      /\ Forall (fun x => (ts e <= ts (snd x))%Q) l2.
Proof.
  assert (Hlen : length (replay digits_float demo_text (fun path => path)
                                analyze_py_globals None (fun prompt => Ok prompt)
                                round_half_even_2 demo_fs "book.xlsx"
                                (firstn 8 nine_calls) []) = 8)
    by (vm_compute; reflexivity).
  split; [exact Hlen |].
  destruct (full_cache_evicts_first_oldest _ _ _ _ _ _ _ _
              (replay_reachable digits_float demo_text (fun path => path)
                 analyze_py_globals None (fun prompt => Ok prompt) round_half_even_2
                 demo_fs "book.xlsx" (firstn 8 nine_calls) []
                 (reach_start _ _ _ _ _ _ _))) as (_ & _ & Hfull).
  destruct (Hfull Hlen) as (l1 & k & e & l2 & Hc & Hp & _ & H2).
  exists l1, k, e, l2. repeat split; assumption.
Defined.

Lemma stored_entry_served_for_ttl_witness :
  exists a1 c1 a2 c2,
    analyze_file_cached digits_float demo_text (fun path => path) analyze_py_globals
                        None (fun prompt => Ok prompt) round_half_even_2
                        demo_fs [] 10%Q "book.xlsx" demo_params = Ok (a1, c1)
    /\ analyze_file_cached digits_float demo_text (fun path => path)
                           analyze_py_globals None (fun prompt => Ok prompt)
                           round_half_even_2
                           demo_fs c1 25%Q "book.xlsx" demo_params = Ok (a2, c2)
    /\ option_map hit (sys_cache (system a2)) = Some true
    /\ c2 = c1.
Proof.
  destruct (analyze_file_cached digits_float demo_text (fun path => path)
              analyze_py_globals None (fun prompt => Ok prompt) round_half_even_2
              demo_fs [] 10%Q "book.xlsx" demo_params) as [[a1 c1] | ex] eqn:E1;
    [| vm_compute in E1; discriminate].
  assert (Hnote : sys_cache (system a1) = Some (mkNote false (Some 0%Q) None)).
  { pose proof E1 as E. vm_compute in E. injection E as <- _. reflexivity. }
  destruct (stored_entry_served_for_ttl _ _ _ _ _ _ _ _ _ 10%Q 25%Q _ _ _ _ E1 Hnote)
    as (a2 & c2 & H2 & Hhit & _).
  exists a1, c1, a2, c2. split; [reflexivity |]. split; [exact H2 |].
  assert (Hlt : (25 - 10 < 1800)%Q) by (vm_compute; reflexivity).
  destruct (Hhit Hlt) as (Hn & _ & Hc).
  rewrite Hn. split; [reflexivity | exact Hc].
Defined.

(** The nine calls, run: the ninth finds the cache full and evicts the
    entry of the first. *)
Example ninth_call_evicts_the_first :
  map (fun ke => k_hold (fst ke))
      (replay digits_float demo_text (fun path => path) analyze_py_globals None
              (fun prompt => Ok prompt) round_half_even_2 demo_fs "book.xlsx"
              nine_calls [])
  = ["2"; "3"; "4"; "5"; "6"; "7"; "8"; "9"].
Proof.
  vm_compute. reflexivity.
Qed.

(** ** Period detection *)

(** The text [20dd/dd], [d] a digit. *)
Definition is_period_text (s : string) : bool :=
  match s with
  | String a (String b (String c (String d (String sl (String m1 (String m2 "")))))) =>
      Ascii.eqb a "2" && Ascii.eqb b "0" && is_digit c && is_digit d
      && Ascii.eqb sl "/" && is_digit m1 && is_digit m2
  | _ => false
  end.

Lemma pad2_two_digits (n : nat) :
  n < 100 ->
  exists m1 m2, pad2 n = String m1 (String m2 "")
                /\ is_digit m1 = true /\ is_digit m2 = true.
Proof.
  intros Hn.
  assert (Hall : forallb (fun n =>
                            match pad2 n with
                            | String m1 (String m2 "") => is_digit m1 && is_digit m2
                            | _ => false
                            end) (seq 0 100) = true) by (vm_compute; reflexivity).
  rewrite forallb_forall in Hall. specialize (Hall n).
  assert (Hin : In n (seq 0 100)) by (apply in_seq; lia).
  apply Hall in Hin.
  destruct (pad2 n) as [| m1 [| m2 [| ? ?]]]; try discriminate.
  apply andb_true_iff in Hin. destruct Hin as [H1 H2]. exists m1, m2. auto.
Qed.

Lemma digit_val_bound (a : ascii) : is_digit a = true -> digit_val a < 10.
Proof.
  unfold is_digit, digit_val. intros H. apply andb_true_iff in H. destruct H as [H1 H2].
  apply Nat.leb_le in H1, H2. lia.
Qed.

Lemma match_period_here_text (s p : string) :
  match_period_here s = Some p -> is_period_text p = true.
Proof.
  unfold match_period_here.
  destruct s as [| a [| b [| c [| d [| sep [| e rest]]]]]]; try discriminate.
  destruct (Ascii.eqb a "2" && Ascii.eqb b "0" && is_digit c && is_digit d
            && (Ascii.eqb sep "-" || Ascii.eqb sep "/") && is_digit e) eqn:E;
    [| discriminate].
  repeat (apply andb_true_iff in E; destruct E as [E ?]).
  intros Hp. injection Hp as <-.
  match goal with
  | |- is_period_text
         (String _ (String _ (String _ (String _ (String _ (pad2 ?m)))))) = true =>
      assert (Hm : m < 100);
      [| destruct (pad2_two_digits m Hm) as (m1 & m2 & -> & Hm1 & Hm2)]
  end.
  - pose proof (digit_val_bound e ltac:(assumption)) as He.
    destruct rest as [| f rest']; [lia |].
    destruct (is_digit f) eqn:Ef; [| lia].
    pose proof (digit_val_bound f Ef). lia.
  - cbn [is_period_text].
    repeat match goal with
           | H : _ = true |- _ => rewrite H
           end.
    reflexivity.
Qed.

Lemma search_period_ascii_text (s p : string) :
  search_period_ascii s = Some p -> is_period_text p = true.
Proof.
  induction s as [| a s IH]; cbn [search_period_ascii].
  - destruct (match_period_here "") eqn:E; [| discriminate].
    intros H. injection H as <-. eapply match_period_here_text. eassumption.
  - destruct (match_period_here (String a s)) eqn:E.
    + intros H. injection H as <-. eapply match_period_here_text. eassumption.
    + assumption.
Qed.

Lemma search_period_text (py_str : PyText) (s p : string) :
  Text.is_ascii s = true -> search_period py_str s = Some p -> is_period_text p = true.
Proof.
  unfold search_period. intros ->. apply search_period_ascii_text.
Qed.

(** The texts the period search reads are ASCII: the sheet names and the
    text of every cell that is not blank. *)
Definition ascii_book (py_str : PyText) (sheets : Sheets) : Prop :=
  Forall (fun nd : string * DataFrame =>
            Text.is_ascii (fst nd) = true
            /\ forall r c, is_blank (iat (snd nd) r c) = false ->
                           Text.is_ascii (cell_text py_str (iat (snd nd) r c)) = true)
         sheets.

(** X12: on a workbook whose sheet names and cell texts are ASCII, the
    period of a result is always of the form 20dd/dd: a year of this
    century, a slash, and a two-digit number. The number is the one found
    in the text and is not checked against the twelve months. *)
Theorem detected_period_is_well_formed (py_str : PyText) (sheets : Sheets) :
  ascii_book py_str sheets ->
  is_period_text (_detect_period py_str sheets) = true
  /\ String.length (_detect_period py_str sheets) = 7
  /\ _detect_period py_str [] = "2017/08"
  /\ _detect_period py_str [("2017-13", [])] = "2017/13".
Proof.
  intros Hbook.
  assert (Htext : is_period_text (_detect_period py_str sheets) = true).
  { unfold _detect_period.
    destruct (period_in_sheets py_str sheets) as [p |] eqn:E; [| reflexivity].
    revert E. induction sheets as [| [name df] rest IH]; cbn [period_in_sheets];
      [discriminate |].
    inversion Hbook as [| ? ? [Hname Hcells] Hrest]; subst. cbn [fst snd] in *.
    destruct (search_period py_str name) as [q |] eqn:Ename.
    - intros H. injection H as <-. eapply search_period_text; eassumption.
    - destruct (df_empty df); [apply IH; assumption |].
      destruct (period_in_cells py_str df (header_cells df)) as [q |] eqn:Ecells;
        [| apply IH; assumption].
      intros H. injection H as <-. clear -Ecells Hcells. revert Ecells.
      generalize (header_cells df).
      induction l as [| rc cells IHc]; cbn [period_in_cells]; [discriminate |].
      destruct (is_blank (iat df (fst rc) (snd rc))) eqn:Eblank; [assumption |].
      destruct (search_period py_str (cell_text py_str (iat df (fst rc) (snd rc))))
        as [q' |] eqn:Es; [| assumption].
      intros H. injection H as <-.
      eapply search_period_text; [apply Hcells; exact Eblank | exact Es]. }
  split; [exact Htext |]. split; [| split; reflexivity].
  destruct (_detect_period py_str sheets)
    as [| a [| b [| c [| d [| sl [| m1 [| m2 [| ? ?]]]]]]]]; try discriminate Htext.
  reflexivity.
Qed.

Lemma detected_period_is_well_formed_witness :
  ascii_book demo_text [("IS 2023-7", [])]
  /\ _detect_period demo_text [("IS 2023-7", [])] = "2023/07"
  /\ is_period_text (_detect_period demo_text [("IS 2023-7", [])]) = true
  /\ String.length (_detect_period demo_text [("IS 2023-7", [])]) = 7.
Proof.
  assert (Hbook : ascii_book demo_text [("IS 2023-7", [])]).
  { apply Forall_cons; [| apply Forall_nil]. split; [reflexivity |].
    intros [| r] [| c] H; vm_compute in H; discriminate H. }
  split; [exact Hbook |]. split; [vm_compute; reflexivity |].
  destruct (detected_period_is_well_formed demo_text [("IS 2023-7", [])] Hbook)
    as (Htext & Hlen & _).
  split; [exact Htext | exact Hlen].
Defined.

(** ** Radar ladders *)

Lemma Qabs_opp_eq (d : Q) : Qabs (- d) = Qabs d.
Proof.
  destruct d as [n m]. unfold Qabs, Qopp. cbn. rewrite Z.abs_opp. reflexivity.
Qed.

(** Closes a comparison of two scores: the scores are in order, or the
    rungs taken contradict [a1 <= a2]. *)
Ltac rung_order :=
  first
    [ apply Qle_bool_iff; reflexivity
    | exfalso;
      match goal with
      | Hlo : (?k <= ?a)%Q, Hle : (?a <= ?b)%Q, Hhi : (?b < ?k)%Q |- _ =>
          apply (Qlt_not_le _ _ Hhi); apply (Qle_trans _ _ _ Hlo Hle)
      | Hlo : (?a < ?x)%Q, Hle : (?x <= ?y)%Q, Hhi : (?y <= ?a)%Q |- _ =>
          apply (Qlt_not_le _ _ Hlo); apply (Qle_trans _ _ _ Hle Hhi)
      end ].

(** X13: the radar ladders are monotone and blind to direction: a larger
    absolute change never scores lower, a rise scores as the fall of the
    same size, and a longer cash cycle or collection period never scores
    lower. *)
Theorem radar_ladders_are_monotone (d1 d2 w x1 x2 a b : Q) (ev : string) :
  (Qabs d1 <= Qabs d2)%Q -> (x1 <= x2)%Q ->
  (fst (drift_score (Some d1) w) <= fst (drift_score (Some d2) w))%Q
  /\ drift_score (Some (- d1)%Q) w = drift_score (Some d1) w
  /\ (fst (fst (level_score (Some x1) a b ev))
      <= fst (fst (level_score (Some x2) a b ev)))%Q.
Proof.
  intros Hd Hx. split; [| split].
  - unfold drift_score. cbn zeta.
    destruct (Qle_bool 30 (Qabs d1)) eqn:E30a;
      destruct (Qle_bool 30 (Qabs d2)) eqn:E30b;
      destruct (Qle_bool w (Qabs d1)) eqn:Ewa;
      destruct (Qle_bool w (Qabs d2)) eqn:Ewb;
      destruct (Qle_bool 5 (Qabs d1)) eqn:E5a;
      destruct (Qle_bool 5 (Qabs d2)) eqn:E5b;
      cbn [fst];
      repeat match goal with
             | H : Qle_bool _ _ = true |- _ => apply Qle_bool_iff in H
             | H : Qle_bool _ _ = false |- _ => apply Qle_bool_false in H
             end;
      rung_order.
  - unfold drift_score. rewrite Qabs_opp_eq. reflexivity.
  - unfold level_score. cbn [fst].
    destruct (Qle_bool x1 a) eqn:Eaa;
      destruct (Qle_bool x2 a) eqn:Eab;
      destruct (Qle_bool x1 b) eqn:Eba;
      destruct (Qle_bool x2 b) eqn:Ebb;
      repeat match goal with
             | H : Qle_bool _ _ = true |- _ => apply Qle_bool_iff in H
             | H : Qle_bool _ _ = false |- _ => apply Qle_bool_false in H
             end;
      rung_order.
Qed.

Lemma radar_ladders_are_monotone_witness :
  (fst (drift_score (Some 4%Q) 10) <= fst (drift_score (Some (- 40)%Q) 10))%Q
  /\ drift_score (Some (- 4)%Q) 10 = drift_score (Some 4%Q) 10
  /\ (fst (fst (level_score (Some 50%Q) 60 120 "ccc.level"))
      <= fst (fst (level_score (Some 130%Q) 60 120 "ccc.level")))%Q.
Proof.
  apply (radar_ladders_are_monotone 4 (- 40) 10 50 130 60 120 "ccc.level").
  - vm_compute. discriminate.
  - vm_compute. discriminate.
Defined.

(** ** The change of a metric *)

(** X14: the sign of a metric's change is the sign of current minus
    previous, also when the previous value is negative: the change is
    positive exactly when the current value is the greater one. *)
Theorem delta_pct_sign (m : Metric) (v p d : Q) :
  value m = Some v -> prev m = Some p -> delta_pct m = Some d ->
  ~ (p == 0)%Q /\ ((0 < d)%Q <-> (p < v)%Q) /\ ((d == 0)%Q <-> (v == p)%Q).
Proof.
  unfold delta_pct. intros -> ->.
  destruct (Qeq_bool p 0) eqn:E; [discriminate |].
  intros H. injection H as <-.
  assert (Hnz : ~ (p == 0)%Q).
  { intros Hz. apply Qeq_bool_iff in Hz. congruence. }
  assert (Hpos : (0 < / Qabs p * 100)%Q).
  { apply Qmult_lt_0_compat; [| reflexivity].
    apply Qinv_lt_0_compat. clear -Hnz.
    destruct p as [n dd]. unfold Qeq in Hnz. unfold Qlt, Qabs. cbn in *. lia. }
  split; [assumption |].
  assert (Hd : ((v - p) / Qabs p * 100 == (v - p) * (/ Qabs p * 100))%Q).
  { unfold Qdiv. ring. }
  split.
  - rewrite Hd. split.
    + intros H. rewrite Qlt_minus_iff.
      setoid_replace (v + - p)%Q with (v - p)%Q by ring.
      apply (Qmult_lt_r _ _ _ Hpos). rewrite Qmult_0_l. assumption.
    + intros H. rewrite Qlt_minus_iff in H.
      setoid_replace (v + - p)%Q with (v - p)%Q in H by ring.
      apply (Qmult_lt_r _ _ _ Hpos) in H. rewrite Qmult_0_l in H. assumption.
  - rewrite Hd. split.
    + intros H. apply Qmult_integral in H. destruct H as [H | H].
      * setoid_replace v with ((v - p) + p)%Q by ring. rewrite H. ring.
      * exfalso. rewrite H in Hpos. apply (Qlt_irrefl 0). assumption.
    + intros H. rewrite H. ring.
Qed.

Definition loss_narrowed : Metric :=
  mkMetric "net_income" "Net Profit" "淨利" (Some (- 50)%Q) (Some (- 100)%Q) "NTD" None.

Lemma delta_pct_sign_witness :
  exists d, delta_pct loss_narrowed = Some d /\ (0 < d)%Q.
Proof.
  eexists. split; [reflexivity |].
  destruct (delta_pct_sign loss_narrowed (- 50) (- 100) _ eq_refl eq_refl eq_refl)
    as (_ & Hsign & _).
  apply Hsign. vm_compute. reflexivity.
Defined.

(** ** Shape of the extraction *)

(** The metric the "Derived OPEX" block appends. *)
Definition derived_opex_metric (v : Q) : Metric :=
  mkMetric "opex" "Operating Expense" "營業費用" (Some v) None "NTD" None.

(** What the loop leaves behind for the metric of one key: a row gap and
    no anchor, or a sheet entry of the ledger with the metric's anchor and
    previous value. *)
Definition row_outcome (sheet : string) (ev : list Evidence) (miss : list string)
           (m : Metric) : Prop :=
  (In ("IS_ROW_MISSING::" ++ key m)%string miss /\ anchor m = None /\ prev m = None)
  \/ (exists e, In e ev /\ ev_metric e = key m /\ ev_sheet e = Some sheet
                /\ ev_anchor e = anchor m /\ ev_previous e = prev m
                /\ ev_derived e = None).

Lemma row_outcome_mono (sheet : string) (ev ev' : list Evidence) (miss miss' : list string)
      (m : Metric) :
  row_outcome sheet ev miss m -> row_outcome sheet (ev ++ ev') (miss ++ miss') m.
Proof.
  intros [(Hin & Ha & Hp) | (e & Hin & H)].
  - left. split; [apply in_or_app; left; assumption | split; assumption].
  - right. exists e. split; [apply in_or_app; left; assumption | assumption].
Qed.

Section ExtractionShape.

Variable py_float : string -> option Q.
Variable norm_text_global : option (cell -> string).

Lemma locate_and_extract_shape (sheet : string) (df : DataFrame)
      (st st' : IsState) (entry : string * list string) :
  locate_and_extract py_float norm_text_global sheet df st entry = Ok st' ->
  exists m ev' miss',
    fst (fst st') = (fst (fst st) ++ [m])%list
    /\ snd (fst st') = (snd (fst st) ++ ev')%list
    /\ snd st' = (snd st ++ miss')%list
    /\ key m = fst entry
    /\ row_outcome sheet (snd (fst st')) (snd st') m.
Proof.
  destruct st as [[metrics evidence] missing]. unfold locate_and_extract.
  destruct (_find_row norm_text_global df (snd entry) None) as [[r |] | ex];
    cbn [bind]; [| | discriminate].
  - unfold extract_located.
    destruct (_find_numeric_in_row py_float df r) as [[[[curr curr_c] prv] prev_c] | ex];
      cbn [bind]; [| discriminate].
    intros H. injection H as <-. cbn [fst snd].
    eexists. exists [mkEvidence (fst entry) (Some sheet)
                       match curr_c with Some c => Some (_a1 sheet r c) | None => None end
                       None curr prv], [].
    split; [reflexivity |]. split; [reflexivity |].
    split; [rewrite app_nil_r; reflexivity |]. split; [reflexivity |].
    right. eexists. split; [apply in_or_app; right; left; reflexivity |].
    cbn. repeat split.
  - intros H. injection H as <-. cbn [fst snd].
    eexists. exists [], [("IS_ROW_MISSING::" ++ fst entry)%string].
    split; [reflexivity |]. split; [rewrite app_nil_r; reflexivity |].
    split; [reflexivity |]. split; [reflexivity |].
    left. cbn [key anchor prev]. split; [| split; reflexivity].
    apply in_or_app. right. left. reflexivity.
Qed.

Lemma extraction_loop_shape (sheet : string) (df : DataFrame)
      (keys : list (string * list string)) (st st' : IsState) :
  foldM (locate_and_extract py_float norm_text_global sheet df) keys st = Ok st' ->
  exists ms ev' miss',
    fst (fst st') = (fst (fst st) ++ ms)%list
    /\ snd (fst st') = (snd (fst st) ++ ev')%list
    /\ snd st' = (snd st ++ miss')%list
    /\ map key ms = map fst keys
    /\ Forall (row_outcome sheet (snd (fst st')) (snd st')) ms.
Proof.
  revert st. induction keys as [| entry rest IH]; intros st; cbn [foldM].
  - intros H. injection H as <-. exists [], [], [].
    rewrite !app_nil_r. repeat split. constructor.
  - destruct (locate_and_extract py_float norm_text_global sheet df st entry)
      as [st1 | ex] eqn:E; cbn [bind]; [| discriminate].
    intros Hrest.
    destruct (locate_and_extract_shape _ _ _ _ _ E)
      as (m & ev1 & miss1 & Hm1 & Hev1 & Hmiss1 & Hk & Hout).
    destruct (IH _ Hrest) as (ms & ev2 & miss2 & Hm2 & Hev2 & Hmiss2 & Hks & Houts).
    exists (m :: ms), (ev1 ++ ev2)%list, (miss1 ++ miss2)%list.
    rewrite Hm2, Hm1, Hev2, Hev1, Hmiss2, Hmiss1, <- !app_assoc. cbn [app map].
    split; [reflexivity |]. split; [reflexivity |]. split; [reflexivity |].
    split; [rewrite Hk, Hks; reflexivity |].
    constructor.
    + rewrite Hev1, Hmiss1 in Hout. rewrite !app_assoc.
      apply row_outcome_mono. assumption.
    + rewrite Hev2, Hev1, Hmiss2, Hmiss1, <- !app_assoc in Houts. assumption.
Qed.

End ExtractionShape.

(** Two metrics that differ at most in the value, and only when keyed
    gross_margin. *)
Definition same_but_margin (m m' : Metric) : Prop :=
  key m' = key m /\ anchor m' = anchor m /\ prev m' = prev m
  /\ (key m <> "gross_margin" -> m' = m).

Lemma same_but_margin_refl (ms : list Metric) : Forall2 same_but_margin ms ms.
Proof.
  induction ms as [| m rest IH]; constructor; [| assumption].
  repeat split.
Qed.

Lemma set_first_value_same (v : Q) (ms : list Metric) :
  Forall2 same_but_margin ms (set_first_value "gross_margin" v ms).
Proof.
  induction ms as [| m rest IH]; cbn [set_first_value]; [constructor |].
  destruct (String.eqb (key m) "gross_margin") eqn:E.
  - constructor; [| apply same_but_margin_refl].
    apply String.eqb_eq in E. repeat split. intros Hne. contradiction.
  - constructor; [| assumption]. repeat split.
Qed.

Lemma row_outcome_same (sheet : string) (ev : list Evidence) (miss : list string)
      (m m' : Metric) :
  same_but_margin m m' -> row_outcome sheet ev miss m -> row_outcome sheet ev miss m'.
Proof.
  intros (Hk & Ha & Hp & _). unfold row_outcome. rewrite Hk, Ha, Hp. auto.
Qed.

Lemma derive_opex_shape (ms : list Metric) (ev : list Evidence) (miss : list string) :
  exists tail ev' miss',
    derive_opex (ms, ev, miss) = ((ms ++ tail)%list, (ev ++ ev')%list, (miss ++ miss')%list)
    /\ ((tail = [] /\ In "DERIVE_OPEX_MISSING_INPUT" (miss ++ miss')%list
         /\ (first_value "gross_profit" ms = None \/ first_value "opex" ms = None))
        \/ (exists gp oi, first_value "gross_profit" ms = Some gp
                          /\ first_value "opex" ms = Some oi
                          /\ tail = [derived_opex_metric (gp - oi)]
                          /\ miss' = [])).
Proof.
  unfold derive_opex.
  destruct (first_value "gross_profit" ms) as [gp |] eqn:Egp;
    [destruct (first_value "opex" ms) as [oi |] eqn:Eoi |].
  - do 3 eexists. split; [rewrite (app_nil_r miss); reflexivity |].
    right. exists gp, oi. repeat split.
  - exists [], [], ["DERIVE_OPEX_MISSING_INPUT"]. rewrite !app_nil_r.
    split; [reflexivity |]. left. split; [reflexivity |].
    split; [apply in_or_app; right; left; reflexivity | right; reflexivity].
  - exists [], [], ["DERIVE_OPEX_MISSING_INPUT"]. rewrite !app_nil_r.
    split; [reflexivity |]. left. split; [reflexivity |].
    split; [apply in_or_app; right; left; reflexivity | left; reflexivity].
Qed.

Lemma derive_gross_margin_shape (gp : option Q) (ms : list Metric) (ev : list Evidence)
      (miss : list string) :
  exists ms' ev',
    derive_gross_margin gp (ms, ev, miss) = (ms', (ev ++ ev')%list, miss)
    /\ Forall2 same_but_margin ms ms'.
Proof.
  unfold derive_gross_margin.
  destruct (first_metric "gross_margin" ms) as [gm |];
    [destruct (first_value "revenue" ms) as [rv |];
     [destruct gp as [g |];
      [destruct (value gm);
       [| destruct (Qeq_bool rv 0)] |] |] |].
  all: try (exists ms, []; rewrite app_nil_r; split;
            [reflexivity | apply same_but_margin_refl]).
  do 2 eexists. split; [reflexivity | apply set_first_value_same].
Qed.

Section ExtractionResult.

Variable py_float : string -> option Q.
Variable norm_text_global : option (cell -> string).

(** The metric list of an extraction that found a sheet: the five keys in
    the order of [_IS_KEYS], then the derived OPEX metric when gross profit
    and OPEX both have a value, and a DERIVE_OPEX_MISSING_INPUT gap when
    not. *)
Lemma extraction_shape (sheets : Sheets) (lang sheet : string)
      (ms : list Metric) (ev : list Evidence) (miss : list string) :
  choose_is_sheet sheets = Some sheet ->
  _extract_is_metrics py_float norm_text_global sheets lang = Ok (ms, ev, miss) ->
  exists m1 m2 m3 m4 m5 tail,
    ms = (m1 :: m2 :: m3 :: m4 :: m5 :: tail)
    /\ map key [m1; m2; m3; m4; m5]
       = ["revenue"; "gross_profit"; "opex"; "net_income"; "gross_margin"]
    /\ Forall (row_outcome sheet ev miss) [m1; m2; m3; m4; m5]
    /\ ((tail = [] /\ In "DERIVE_OPEX_MISSING_INPUT" miss
         /\ (value m2 = None \/ value m3 = None))
        \/ (exists gp oi, value m2 = Some gp /\ value m3 = Some oi
                          /\ tail = [derived_opex_metric (gp - oi)])).
Proof.
  intros Hsheet. unfold _extract_is_metrics. rewrite Hsheet.
  destruct (foldM (locate_and_extract py_float norm_text_global sheet
                     match dict_get sheets sheet with Some df => df | None => [] end)
                  _IS_KEYS ([], [], [])) as [st0 | ex] eqn:E; cbn [bind]; [| discriminate].
  destruct (extraction_loop_shape _ _ _ _ _ _ _ E)
    as (ms0 & ev0 & miss0 & Hm & Hev & Hmiss & Hkeys & Houts).
  destruct st0 as [[metrics0 evidence0] missing0]. cbn [fst snd app] in *.
  subst metrics0 evidence0 missing0.
  destruct ms0 as [| m1 [| m2 [| m3 [| m4 [| m5 [| m6 rest]]]]]]; try discriminate Hkeys.
  cbn [map fst _IS_KEYS] in Hkeys.
  injection Hkeys as Hk1 Hk2 Hk3 Hk4 Hk5.
  assert (Hgp : first_value "gross_profit" [m1; m2; m3; m4; m5] = value m2).
  { unfold first_value, first_metric. cbn [find]. rewrite Hk1, Hk2. reflexivity. }
  assert (Hoi : first_value "opex" [m1; m2; m3; m4; m5] = value m3).
  { unfold first_value, first_metric. cbn [find]. rewrite Hk1, Hk2, Hk3. reflexivity. }
  destruct (derive_opex_shape [m1; m2; m3; m4; m5] ev0 miss0)
    as (tail & ev1 & miss1 & Hopex & Htail).
  rewrite Hopex. cbn [fst snd]. rewrite Hgp. rewrite Hgp, Hoi in Htail.
  destruct (derive_gross_margin_shape (value m2) ([m1; m2; m3; m4; m5] ++ tail)
              (ev0 ++ ev1) (miss0 ++ miss1)) as (ms' & ev2 & Hgm & Hsame).
  rewrite Hgm. intros H. injection H as <- <- <-.
  cbn [app] in Hsame.
  inversion Hsame as [| ? m1' ? l1 S1 R1]; subst.
  inversion R1 as [| ? m2' ? l2 S2 R2]; subst.
  inversion R2 as [| ? m3' ? l3 S3 R3]; subst.
  inversion R3 as [| ? m4' ? l4 S4 R4]; subst.
  inversion R4 as [| ? m5' ? tail' S5 R5]; subst.
  assert (E2 : m2' = m2).
  { destruct S2 as (_ & _ & _ & H). apply H. rewrite Hk2. discriminate. }
  assert (E3 : m3' = m3).
  { destruct S3 as (_ & _ & _ & H). apply H. rewrite Hk3. discriminate. }
  exists m1', m2', m3', m4', m5', tail'.
  split; [reflexivity |]. split.
  { cbn [map]. destruct S1 as (-> & _), S2 as (-> & _), S3 as (-> & _),
                        S4 as (-> & _), S5 as (-> & _).
    rewrite Hk1, Hk2, Hk3, Hk4, Hk5. reflexivity. }
  split.
  { repeat (apply Forall_cons_iff in Houts; destruct Houts as [? Houts]).
    repeat apply Forall_cons; try apply Forall_nil;
      (eapply row_outcome_same; [eassumption |]);
      rewrite <- app_assoc; apply row_outcome_mono; assumption. }
  subst m2' m3'.
  destruct Htail as [(-> & Hin & Hnone) | (gp & oi & Hv2 & Hv3 & -> & ->)].
  - left. inversion R5; subst. repeat split; assumption.
  - right. exists gp, oi. split; [assumption |]. split; [assumption |].
    inversion R5 as [| d d' ? ? Sd Rd]; subst. inversion Rd; subst.
    destruct Sd as (_ & _ & _ & H). rewrite H; [reflexivity | discriminate].
Qed.

(** X15: an extraction that found a sheet returns the five income-statement
    metrics in the fixed order revenue, gross profit, OPEX, net income,
    gross margin; each has a row gap in the backlog and no anchor, or a
    sheet entry in the ledger carrying its anchor and previous value.
    A sixth metric, the derived OPEX, follows exactly when gross profit
    and OPEX both have a value; otherwise the gap
    DERIVE_OPEX_MISSING_INPUT is logged. *)
Theorem extraction_covers_the_five_keys (sheets : Sheets) (lang : string)
        (ms : list Metric) (ev : list Evidence) (miss : list string) :
  sheets <> [] ->
  _extract_is_metrics py_float norm_text_global sheets lang = Ok (ms, ev, miss) ->
  exists sheet m1 m2 m3 m4 m5 tail,
    choose_is_sheet sheets = Some sheet
    /\ ms = (m1 :: m2 :: m3 :: m4 :: m5 :: tail)
    /\ map key [m1; m2; m3; m4; m5]
       = ["revenue"; "gross_profit"; "opex"; "net_income"; "gross_margin"]
    /\ Forall (row_outcome sheet ev miss) [m1; m2; m3; m4; m5]
    /\ ((tail = [] /\ In "DERIVE_OPEX_MISSING_INPUT" miss
         /\ (value m2 = None \/ value m3 = None))
        \/ (exists gp oi, value m2 = Some gp /\ value m3 = Some oi
                          /\ tail = [derived_opex_metric (gp - oi)])).
Proof.
  intros Hne Hrun.
  destruct (choose_is_sheet sheets) as [sheet |] eqn:Hsheet.
  - destruct (extraction_shape _ _ _ _ _ _ Hsheet Hrun)
      as (m1 & m2 & m3 & m4 & m5 & tail & H).
    exists sheet, m1, m2, m3, m4, m5, tail. split; [reflexivity | exact H].
  - exfalso. unfold choose_is_sheet in Hsheet.
    destruct (find (fun s => is_sheet_like (fst s)) sheets) as [[name df] |];
      [discriminate |].
    destruct sheets as [| [name df] rest]; [contradiction Hne; reflexivity | discriminate].
Qed.

End ExtractionResult.

(** X16: with [_norm_text] bound to any function (the module as shipped
    binds it nowhere, and then no extraction returns a gross-profit
    value), whenever the gross-profit row yields a number the fourth radar
    score ("oi.delta") is the neutral 5.0 at confidence 0.2: the radar
    reads the last metric keyed OPEX, which is then the derived one and
    has no previous value, or the extracted one without a value. *)
Theorem op_stability_neutral_with_gross_profit
        (py_float : string -> option Q) (f : cell -> string)
        (sheets : Sheets) (lang : string)
        (ms : list Metric) (ev : list Evidence) (miss : list string)
        (cash : CashCycle) (gp : Q) :
  _extract_is_metrics py_float (Some f) sheets lang = Ok (ms, ev, miss) ->
  first_value "gross_profit" ms = Some gp ->
  nth_error (radar_scores ms cash) 3 = Some (5%Q, (1 # 5)%Q, "oi.delta")
  /\ (forall ms' ev' miss',
         _extract_is_metrics py_float analyze_py_globals sheets lang
         = Ok (ms', ev', miss') ->
         first_value "gross_profit" ms' = None).
Proof.
  intros Hrun Hgp. split.
  - destruct (choose_is_sheet sheets) as [sheet |] eqn:Hsheet.
    + destruct (extraction_shape _ _ _ _ _ _ _ _ Hsheet Hrun)
        as (m1 & m2 & m3 & m4 & m5 & tail & -> & Hkeys & _ & Htail).
      cbn [map] in Hkeys. injection Hkeys as Hk1 Hk2 Hk3 Hk4 Hk5.
      assert (Hv2 : value m2 = Some gp).
      { unfold first_value, first_metric in Hgp. cbn [find] in Hgp.
        rewrite Hk1, Hk2 in Hgp. exact Hgp. }
      assert (Hdelta : delta_of (m_by_get (m1 :: m2 :: m3 :: m4 :: m5 :: tail) "opex")
                       = None).
      { destruct Htail as [(-> & _ & [Hn | Hn]) | (g & oi & _ & Hv3 & ->)].
        - congruence.
        - unfold m_by_get. cbn [rev app find]. rewrite Hk5, Hk4, Hk3. cbn.
          unfold delta_pct. rewrite Hn. reflexivity.
        - unfold m_by_get. cbn [rev app find derived_opex_metric key]. reflexivity. }
      unfold radar_scores. cbn [nth_error]. rewrite Hdelta. reflexivity.
    + unfold _extract_is_metrics in Hrun. rewrite Hsheet in Hrun.
      injection Hrun as <- _ _. discriminate Hgp.
  - intros ms' ev' miss'. unfold analyze_py_globals. rewrite extract_unbound.
    destruct (is_sheet_of sheets) as [df |];
      [destruct (existsb (has_label df) (label_cells df)) |];
      intros H; try discriminate H; injection H as <- _ _; reflexivity.
Qed.

Lemma extraction_covers_the_five_keys_witness :
  demo_book <> []
  /\ exists ms ev miss,
      _extract_is_metrics digits_float (Some norm_sibling) demo_book "en"
      = Ok (ms, ev, miss)
      /\ map key (firstn 5 ms)
         = ["revenue"; "gross_profit"; "opex"; "net_income"; "gross_margin"].
Proof.
  split; [discriminate |].
  destruct (_extract_is_metrics digits_float (Some norm_sibling) demo_book "en")
    as [[[ms ev] miss] | ex] eqn:E; [| vm_compute in E; discriminate].
  exists ms, ev, miss. split; [reflexivity |].
  destruct (extraction_covers_the_five_keys digits_float (Some norm_sibling)
              demo_book "en" ms ev miss ltac:(discriminate) E)
    as (sheet & m1 & m2 & m3 & m4 & m5 & tail & _ & -> & Hk & _).
  exact Hk.
Defined.

Lemma op_stability_neutral_with_gross_profit_witness :
  exists ms ev miss,
    _extract_is_metrics digits_float (Some norm_sibling) demo_book "en"
    = Ok (ms, ev, miss)
    /\ first_value "gross_profit" ms = Some 400%Q
    /\ nth_error (radar_scores ms degraded_cash) 3 = Some (5%Q, (1 # 5)%Q, "oi.delta").
Proof.
  destruct (_extract_is_metrics digits_float (Some norm_sibling) demo_book "en")
    as [[[ms ev] miss] | ex] eqn:E; [| vm_compute in E; discriminate].
  assert (Hgp : first_value "gross_profit" ms = Some 400%Q).
  { pose proof E as E'. vm_compute in E'. injection E' as <- _ _. reflexivity. }
  exists ms, ev, miss. split; [reflexivity |]. split; [exact Hgp |].
  exact (proj1 (op_stability_neutral_with_gross_profit digits_float norm_sibling
                  demo_book "en" ms ev miss degraded_cash 400%Q E Hgp)).
Defined.

(** On the demo workbook the OPEX row went from 100 to 150, a change the
    drift ladder would score 9.0; the radar reads the derived metric and
    reports the neutral 5.0. *)
Example derived_opex_hides_the_opex_change :
  exists ms ev miss,
    _extract_is_metrics digits_float (Some norm_sibling) demo_book "en"
    = Ok (ms, ev, miss)
    /\ option_map (fun m => fst (drift_score (delta_pct m) 10)) (first_metric "opex" ms)
       = Some 9%Q
    /\ option_map (fun s => fst (fst s)) (nth_error (radar_scores ms degraded_cash) 3)
       = Some 5%Q.
Proof.
  do 3 eexists. split; [vm_compute; reflexivity |].
  split; vm_compute; reflexivity.
Qed.

(** ** The second input of the derived OPEX *)




(** ** The four cash-cycle figures *)

Section CashFigures.

Variable py_float : string -> option Q.
Variable py_str : PyText.

Local Abbreviation cash_of sheets := (fst (fst (_extract_cash_cycle py_float py_str sheets))).
Local Abbreviation cash_ev_of sheets := (snd (fst (_extract_cash_cycle py_float py_str sheets))).
Local Abbreviation cash_miss_of sheets := (snd (_extract_cash_cycle py_float py_str sheets)).

(** A figure is absent exactly when its gap is logged. *)
Lemma cash_missing_iff (sheets : Sheets) :
  (dso (cash_of sheets) = None <-> In "MISSING::DSO" (cash_miss_of sheets))
  /\ (dio (cash_of sheets) = None <-> In "MISSING::DIO" (cash_miss_of sheets))
  /\ (dpo (cash_of sheets) = None <-> In "MISSING::DPO" (cash_miss_of sheets))
  /\ (ccc (cash_of sheets) = None <-> In "MISSING::CCC" (cash_miss_of sheets)).
Proof.
  unfold _extract_cash_cycle, _scan_kpi_by_keywords.
  destruct (scan_sheets py_float py_str sheets ["DSO"; "應收天數"; "應收帳款週轉天數"])
    as [[v1 a1] |];
    destruct (scan_sheets py_float py_str sheets ["DIO"; "存貨天數"; "存貨週轉天數"])
      as [[v2 a2] |];
    destruct (scan_sheets py_float py_str sheets ["DPO"; "應付天數"; "應付帳款週轉天數"])
      as [[v3 a3] |];
    destruct (scan_sheets py_float py_str sheets ["CCC"; "現金週轉"; "現金循環"])
      as [[v4 a4] |];
    cbn; repeat split; intros H; try discriminate H; try reflexivity;
    repeat (destruct H as [H | H]; try discriminate H); try contradiction; auto.
Qed.

(** X17: each of DSO, DIO, DPO and CCC ends in exactly one place: a ledger
    entry with value and anchor when the scan found it, a MISSING gap when
    it did not. Entries and gaps together are always four, in the order
    DSO, DIO, DPO, CCC. *)
Theorem cash_cycle_figures_partition (sheets : Sheets) :
  length (cash_ev_of sheets) + length (cash_miss_of sheets) = 4
  /\ (dso (cash_of sheets) = None <-> In "MISSING::DSO" (cash_miss_of sheets))
  /\ (dio (cash_of sheets) = None <-> In "MISSING::DIO" (cash_miss_of sheets))
  /\ (dpo (cash_of sheets) = None <-> In "MISSING::DPO" (cash_miss_of sheets))
  /\ (ccc (cash_of sheets) = None <-> In "MISSING::CCC" (cash_miss_of sheets))
  /\ (dso (cash_of sheets) <> None <-> In "DSO" (map ev_metric (cash_ev_of sheets)))
  /\ (dio (cash_of sheets) <> None <-> In "DIO" (map ev_metric (cash_ev_of sheets)))
  /\ (dpo (cash_of sheets) <> None <-> In "DPO" (map ev_metric (cash_ev_of sheets)))
  /\ (ccc (cash_of sheets) <> None <-> In "CCC" (map ev_metric (cash_ev_of sheets)))
  /\ Forall (fun e => ev_current e <> None /\ ev_anchor e <> None)
            (cash_ev_of sheets).
Proof.
  split; [| split; [| split; [| split; [| split]]]];
    try apply (cash_missing_iff sheets).
  - unfold _extract_cash_cycle, _scan_kpi_by_keywords.
    destruct (scan_sheets py_float py_str sheets ["DSO"; "應收天數"; "應收帳款週轉天數"])
      as [[v1 a1] |];
      destruct (scan_sheets py_float py_str sheets ["DIO"; "存貨天數"; "存貨週轉天數"])
        as [[v2 a2] |];
      destruct (scan_sheets py_float py_str sheets ["DPO"; "應付天數"; "應付帳款週轉天數"])
        as [[v3 a3] |];
      destruct (scan_sheets py_float py_str sheets ["CCC"; "現金週轉"; "現金循環"])
        as [[v4 a4] |];
      reflexivity.
  - unfold _extract_cash_cycle, _scan_kpi_by_keywords.
    destruct (scan_sheets py_float py_str sheets ["DSO"; "應收天數"; "應收帳款週轉天數"])
      as [[v1 a1] |];
      destruct (scan_sheets py_float py_str sheets ["DIO"; "存貨天數"; "存貨週轉天數"])
        as [[v2 a2] |];
      destruct (scan_sheets py_float py_str sheets ["DPO"; "應付天數"; "應付帳款週轉天數"])
        as [[v3 a3] |];
      destruct (scan_sheets py_float py_str sheets ["CCC"; "現金週轉"; "現金循環"])
        as [[v4 a4] |];
      cbn; repeat split; try (intros H; try discriminate H);
      try (repeat (destruct H as [H | H]; try discriminate H); try contradiction);
      try (intros Habs; discriminate Habs);
      try (exfalso; apply H; reflexivity);
      try (repeat constructor; discriminate);
      auto 10.
Qed.

End CashFigures.

(** ** What status OK stands for *)

(** A workbook with every row and every cash-cycle figure, whose revenue
    row holds no number. *)
Definition thin_book : Sheets :=
  [ ("IS", [ [CStr "Revenue"; CStr "n/a"; CStr "n/a"];
             [CStr "Gross Profit"; CNum 300; CNum 400];
             [CStr "Operating Expenses"; CNum 100; CNum 150];
             [CStr "Net Income"; CNum 50; CNum 80];
             [CStr "Gross Margin"; CNum 30; CNum 33];
             [CStr "DSO"; CNum 45; CNum 40];
             [CStr "DIO"; CNum 30; CNum 31];
             [CStr "DPO"; CNum 20; CNum 21];
             [CStr "CCC"; CNum 55; CNum 50] ]) ].

Definition thin_fs : FS :=
  mkFS (fun _ => Ok (mkStat 1700000000 4096)) (fun path => path) (fun _ => Some thin_book).

Section StatusOk.

Variable py_float : string -> option Q.
Variable py_str : PyText.
Variable path_stem : string -> string.
Variable lib_file : option (list Dim).

(** The function [_norm_text] is bound to. *)
Variable f : cell -> string.

Local Abbreviation analyze :=
  (analyze_file py_float py_str path_stem (Some f) lib_file).

(** X18: with [_norm_text] bound to any function (the module as shipped
    binds it nowhere and never reports OK), status OK means that all five
    income-statement rows were located, that gross profit and OPEX both
    have a value, so that the KPI list has six entries, the sixth being
    the derived OPEX gross profit minus OPEX, and that all four cash-cycle
    figures were found. It does not mean that every KPI has a value: a
    located row without a number logs no gap. *)
Theorem ok_needs_every_row (fs : FS) (file_path : string) (p : Params) (a : Analysis) :
  analyze fs file_path p = Ok a ->
  status a = "OK" ->
  map canonical_metric_id (kpis a)
  = ["revenue"; "gross_profit"; "opex"; "net_income"; "gross_margin"; "opex"]
  /\ (exists gp oi,
         nth_error (map kpi_value (kpis a)) 1 = Some (Some gp)
         /\ nth_error (map kpi_value (kpis a)) 2 = Some (Some oi)
         /\ nth_error (map kpi_value (kpis a)) 5 = Some (Some (gp - oi)%Q))
  /\ (forall k, In k ["revenue"; "gross_profit"; "opex"; "net_income"; "gross_margin"] ->
                exists e, In e (evidence_ledger a) /\ ev_metric e = k
                          /\ ev_sheet e <> None)
  /\ dso (cash_cycle a) <> None /\ dio (cash_cycle a) <> None
  /\ dpo (cash_cycle a) <> None /\ ccc (cash_cycle a) <> None.
Proof.
  unfold analyze_file, analyze_body.
  destruct (_extract_is_metrics py_float (Some f)
              (_read_all_sheets fs file_path) (p_lang p))
    as [[[ms ev] miss] | ex] eqn:E; cbn [bind try_except];
    [| intros H; injection H as <-; discriminate].
  pose proof (cash_missing_iff py_float py_str (_read_all_sheets fs file_path)) as Hcash.
  destruct (_extract_cash_cycle py_float py_str (_read_all_sheets fs file_path))
    as [[cash cev] cmiss]. cbn [fst snd] in Hcash.
  intros H. injection H as <-. cbn [status kpis evidence_ledger cash_cycle].
  destruct (miss ++ cmiss)%list as [| g rest] eqn:Emiss; [| discriminate].
  intros _. apply app_eq_nil in Emiss. destruct Emiss as [-> ->].
  destruct (choose_is_sheet (_read_all_sheets fs file_path)) as [sheet |] eqn:Hsheet.
  2:{ unfold _extract_is_metrics in E. rewrite Hsheet in E. discriminate E. }
  destruct (extraction_shape _ _ _ _ _ _ _ _ Hsheet E)
    as (m1 & m2 & m3 & m4 & m5 & tail & -> & Hkeys & Houts & Htail).
  destruct Htail as [(_ & [] & _) | (gp & oi & Hv2 & Hv3 & ->)].
  cbn [map] in Hkeys. injection Hkeys as Hk1 Hk2 Hk3 Hk4 Hk5.
  split; [| split; [| split]].
  - unfold build_kpis. cbn [flat_map]. rewrite Hk1, Hk2, Hk3, Hk4, Hk5.
    cbn. rewrite Hk1, Hk2, Hk3, Hk4, Hk5. reflexivity.
  - exists gp, oi. unfold build_kpis. cbn [flat_map]. rewrite Hk1, Hk2, Hk3, Hk4, Hk5.
    cbn. rewrite Hv2, Hv3. repeat split.
  - intros k Hk.
    assert (Hm : exists m, In m [m1; m2; m3; m4; m5] /\ key m = k).
    { cbn in Hk.
      destruct Hk as [<- | [<- | [<- | [<- | [<- | []]]]]]; eexists;
        (split; [| eassumption]); cbn; auto 6. }
    destruct Hm as (m & Hin & <-).
    rewrite Forall_forall in Houts. apply Houts in Hin.
    destruct Hin as [([] & _) | (e & Hin & Hke & Hsh & _)].
    exists e. split; [apply in_or_app; left; assumption |].
    split; [assumption | rewrite Hsh; discriminate].
  - destruct Hcash as (H1 & H2 & H3 & H4).
    repeat split; intros Hn;
      [apply H1 in Hn | apply H2 in Hn | apply H3 in Hn | apply H4 in Hn];
      contradiction Hn.
Qed.

End StatusOk.

Lemma ok_needs_every_row_witness :
  exists a,
    analyze_file digits_float demo_text (fun path => path) (Some norm_sibling) None
                 thin_fs "book.xlsx" demo_params = Ok a
    /\ status a = "OK"
    /\ map canonical_metric_id (kpis a)
       = ["revenue"; "gross_profit"; "opex"; "net_income"; "gross_margin"; "opex"]
    /\ nth_error (map kpi_value (kpis a)) 0 = Some None.
Proof.
  destruct (analyze_file digits_float demo_text (fun path => path)
              (Some norm_sibling) None thin_fs "book.xlsx" demo_params)
    as [a | ex] eqn:E; [| vm_compute in E; discriminate].
  assert (Hs : status a = "OK" /\ nth_error (map kpi_value (kpis a)) 0 = Some None).
  { pose proof E as E'. vm_compute in E'. injection E' as <-. split; reflexivity. }
  destruct Hs as [Hs Hrev].
  exists a. split; [reflexivity |]. split; [exact Hs |].
  destruct (ok_needs_every_row digits_float demo_text (fun path => path)
              None norm_sibling thin_fs "book.xlsx" demo_params a E Hs)
    as (Hids & _).
  split; [exact Hids | exact Hrev].
Defined.

(** ** The Row Locator once [_norm_text] is bound *)

Lemma foldM_pure {S A : Type} (body : S -> A -> result S) (g : S -> A -> S) :
  (forall s x, body s x = Ok (g s x)) ->
  forall xs s, foldM body xs s = Ok (fold_left g xs s).
Proof.
  intros Hbody xs. induction xs as [| x rest IH]; intros s; cbn; [reflexivity |].
  rewrite Hbody. cbn. apply IH.
Qed.

Section BoundLocator.

(** The function [_norm_text] is bound to. *)
Variable f : cell -> string.
Variables (df : DataFrame) (keywords : list string) (forbid : option (list string)).

Definition forbid_tokens : list string :=
  match forbid with Some l => l | None => [] end.

(** One forbidden token found in the label costs 40 points. *)
Definition penalty (s : string) (score : Z) (fb : string) : Z :=
  if Text.nonempty (f (CStr fb)) && Text.contains (f (CStr fb)) s
  then (score - 40)%Z else score.

(** The score of label [s] after keyword [kw], given the score so far. *)
Definition keyword_step (s : string) (score_here : option Z) (kw : string) : option Z :=
  if negb (Text.nonempty (f (CStr kw))) then score_here
  else
    match match_score s (f (CStr kw)) with
    | None => score_here
    | Some score0 =>
        Some (match score_here with
              | None => fold_left (penalty s) forbid_tokens score0
              | Some h => Z.max h (fold_left (penalty s) forbid_tokens score0)
              end)
    end.

(** The score of a cell: none for a blank cell, an empty label, or a label
    no keyword matches; otherwise the best keyword score. *)
Definition cell_score (rc : nat * nat) : option Z :=
  let val := iat df (fst rc) (snd rc) in
  if is_blank val then None
  else if negb (Text.nonempty (f val)) then None
       else fold_left (keyword_step (f val)) keywords None.

(** [if score_here > best[0]: best = (score_here, r)] *)
Definition pick (best : Z * option nat) (rc : nat * nat) : Z * option nat :=
  match cell_score rc with
  | None => best
  | Some sh => if (fst best <? sh)%Z then (sh, Some (fst rc)) else best
  end.

Lemma visit_cell_bound (best : Z * option nat) (rc : nat * nat) :
  visit_cell (Some f) df keywords forbid_tokens best rc = Ok (pick best rc).
Proof.
  unfold visit_cell, pick, cell_score. cbn zeta.
  destruct (is_blank (iat df (fst rc) (snd rc))); [reflexivity |].
  cbn [call_norm_text bind].
  destruct (negb (Text.nonempty (f (iat df (fst rc) (snd rc))))); [reflexivity |].
  rewrite (foldM_pure _ (keyword_step (f (iat df (fst rc) (snd rc))))).
  - cbn [bind]. destruct (fold_left _ keywords None); reflexivity.
  - intros sh kw. unfold score_keyword, keyword_step. cbn [call_norm_text bind].
    destruct (negb (Text.nonempty (f (CStr kw)))); [reflexivity |].
    destruct (match_score _ _) as [sc0 |]; [| reflexivity].
    rewrite (foldM_pure _ (penalty (f (iat df (fst rc) (snd rc))))).
    + cbn [bind]. destruct sh; reflexivity.
    + intros sc fb. reflexivity.
Qed.

(** The cell scores strictly below [sh], or has no score. *)
Definition below (sh : Z) (rc : nat * nat) : Prop :=
  match cell_score rc with
  | None => True
  | Some x => (x < sh)%Z
  end.

(** The cell scores at most [sh], or has no score. *)
Definition not_above (sh : Z) (rc : nat * nat) : Prop :=
  match cell_score rc with
  | None => True
  | Some x => (x <= sh)%Z
  end.

(** The scan with a best score in hand: it stays when no later cell beats
    it, otherwise the first of the best later cells replaces it. *)
Lemma pick_from (cells : list (nat * nat)) (b : Z) (r : option nat)
      (b' : Z) (r' : option nat) :
  fold_left pick cells (b, r) = (b', r') ->
  (b' = b /\ r' = r /\ Forall (not_above b) cells)
  \/ (exists l1 rc l2,
         cells = (l1 ++ rc :: l2)%list /\ cell_score rc = Some b'
         /\ r' = Some (fst rc) /\ (b < b')%Z
         /\ Forall (below b') l1 /\ Forall (not_above b') l2).
Proof.
  revert b r. induction cells as [| rc rest IH]; intros b r; cbn [fold_left].
  - intros H. injection H as <- <-. left. repeat split. constructor.
  - unfold pick at 2. destruct (cell_score rc) as [sh |] eqn:Esc; cbn [fst].
    + destruct (Z.ltb_spec b sh) as [Hlt | Hge]; intros H; apply IH in H.
      * right. destruct H as [(-> & -> & Hall) | (l1 & rc' & l2 & -> & Hs & -> & Hb & H1 & H2)].
        -- exists [], rc, rest. repeat split; try assumption. constructor.
        -- exists (rc :: l1), rc', l2. repeat split; try assumption; [lia |].
           constructor; [| assumption]. unfold below. rewrite Esc. assumption.
      * destruct H as [(-> & -> & Hall) | (l1 & rc' & l2 & -> & Hs & -> & Hb & H1 & H2)].
        -- left. repeat split. constructor; [| assumption].
           unfold not_above. rewrite Esc. assumption.
        -- right. exists (rc :: l1), rc', l2. repeat split; try assumption.
           constructor; [| assumption]. unfold below. rewrite Esc. lia.
    + intros H. apply IH in H.
      destruct H as [(-> & -> & Hall) | (l1 & rc' & l2 & -> & Hs & -> & Hb & H1 & H2)].
      * left. repeat split. constructor; [| assumption].
        unfold not_above. rewrite Esc. exact I.
      * right. exists (rc :: l1), rc', l2. repeat split; try assumption.
        constructor; [| assumption]. unfold below. rewrite Esc. exact I.
Qed.

Lemma below_weaken (x y : Z) (rc : nat * nat) : (x <= y)%Z -> below x rc -> below y rc.
Proof.
  unfold below. destruct (cell_score rc); [lia | auto].
Qed.

Lemma not_above_below (x y : Z) (rc : nat * nat) :
  (x < y)%Z -> not_above x rc -> below y rc.
Proof.
  unfold below, not_above. destruct (cell_score rc); [lia | auto].
Qed.

(** X19: with [_norm_text] bound the Row Locator always returns. The row
    it returns is that of the first cell, in visiting order, that reaches
    the highest score, and that score is at least 50; it returns no row
    exactly in the case where every cell scores below 50 or has no score.
    A cell's score is its best keyword score (100 exact, 90 prefix, 60
    contained), less 40 for each forbidden token in the label. *)
Theorem find_row_bound_first_best :
  exists res,
    _find_row (Some f) df keywords forbid = Ok res
    /\ match res with
       | Some r =>
           exists l1 rc l2 sh,
             label_cells df = (l1 ++ rc :: l2)%list /\ fst rc = r
             /\ cell_score rc = Some sh /\ (50 <= sh)%Z
             /\ Forall (below sh) l1 /\ Forall (not_above sh) l2
       | None => Forall (below 50) (label_cells df)
       end
    /\ (res = None <-> Forall (below 50) (label_cells df)).
Proof.
  unfold _find_row. fold forbid_tokens.
  rewrite (foldM_pure _ pick visit_cell_bound). cbn [bind].
  destruct (fold_left pick (label_cells df) ((- 10 ^ 9)%Z, None)) as [b' r'] eqn:E.
  apply pick_from in E. cbn [fst snd].
  destruct E as [(-> & -> & Hall) | (l1 & rc & l2 & Hcells & Hs & -> & Hb & H1 & H2)].
  - assert (Hlow : Forall (below 50) (label_cells df)).
    { eapply Forall_impl; [| exact Hall]. intros rc. apply not_above_below. reflexivity. }
    exists None. split; [reflexivity |]. split; [exact Hlow | tauto].
  - destruct (Z.ltb_spec b' 50) as [Hlt | Hge].
    + assert (Hlow : Forall (below 50) (label_cells df)).
      { rewrite Hcells. apply Forall_app. split.
        - eapply Forall_impl; [| exact H1]. intros x. apply below_weaken. lia.
        - constructor; [unfold below; rewrite Hs; assumption |].
          eapply Forall_impl; [| exact H2]. intros x. apply not_above_below. assumption. }
      exists None. split; [reflexivity |]. split; [exact Hlow | tauto].
    + exists (Some (fst rc)). split; [reflexivity |]. split.
      * exists l1, rc, l2, b'. repeat split; assumption.
      * split; [discriminate |]. intros Hlow. exfalso.
        rewrite Hcells in Hlow. apply Forall_app in Hlow. destruct Hlow as [_ Hlow].
        inversion Hlow as [| ? ? Hrc _]. unfold below in Hrc. rewrite Hs in Hrc. lia.
Qed.

End BoundLocator.

(** ** What the cache key sees *)

Definition miss_note : CacheNote := mkNote false (Some 0%Q) None.

(** [p] with another prompt. *)
Definition with_prompt (p : Params) (prompt : string) : Params :=
  mkParams (p_lang p) prompt (p_cycle p) (p_terms p) (p_mode p) (p_hold p).

(** The workbook of [demo_fs] replaced by another one of the same size and
    modification time. *)
Definition swapped_fs : FS :=
  mkFS (fs_stat demo_fs) (fs_resolve demo_fs) (fun _ => Some thin_book).

Lemma cache_get_none (k : CacheKey) (c : Cache) :
  cache_get k c = None <-> ~ In k (map fst c).
Proof.
  induction c as [| [k' e'] rest IH]; cbn; [tauto |].
  destruct (key_eqb k' k) eqn:E.
  - apply key_eqb_eq in E. split; [discriminate | intros H; contradiction H; auto].
  - apply key_eqb_neq in E. rewrite IH. tauto.
Qed.

Lemma cache_get_set_other (k k' : CacheKey) (e : CacheEntry) (c : Cache) :
  k' <> k -> cache_get k' c = None -> cache_get k' (cache_set k e c) = None.
Proof.
  intros Hne Hnone. apply cache_get_none. apply cache_get_none in Hnone.
  intros Hin. apply cache_set_keys in Hin. tauto.
Qed.

Lemma cache_get_prune_none (k : CacheKey) (c : Cache) :
  cache_get k c = None -> cache_get k (prune_oldest c) = None.
Proof.
  rewrite !cache_get_none. intros Hnot Hin. apply Hnot.
  apply in_map_iff in Hin. destruct Hin as (x & <- & Hx).
  apply in_map. apply prune_oldest_incl. assumption.
Qed.

Lemma cache_set_fresh (k : CacheKey) (e : CacheEntry) (c : Cache) :
  cache_get k c = None -> length (cache_set k e c) = S (length c).
Proof.
  induction c as [| [k' e'] rest IH]; cbn; [reflexivity |].
  destruct (key_eqb k' k); [discriminate |].
  intros H. cbn. rewrite IH; [reflexivity | assumption].
Qed.

(** Two misses that overlap: each makes the length check of the pruning
    step while the dictionary has seven entries, so neither prunes, and
    each then stores under a key of its own. Nine entries are left: the
    bound of eight is a property of calls that run one after the other. *)
Lemma overlapping_misses_leave_nine (c : Cache) (kA kB : CacheKey) (eA eB : CacheEntry) :
  length c = 7 -> cache_get kA c = None -> cache_get kB c = None -> kA <> kB ->
  prune_oldest c = c
  /\ length (cache_set kB eB (cache_set kA eA c)) = 9.
Proof.
  intros Hlen HA HB Hne. split.
  - unfold prune_oldest, _ANALYSIS_CACHE_MAX. rewrite Hlen. reflexivity.
  - rewrite cache_set_fresh.
    + rewrite cache_set_fresh; [rewrite Hlen; reflexivity | assumption].
    + apply cache_get_set_other; [intros H; apply Hne; symmetry; exact H | assumption].
Qed.

Section CacheKeys.

Variable py_float : string -> option Q.
Variable py_str : PyText.
Variable path_stem : string -> string.
Variable norm_text_global : option (cell -> string).
Variable lib_file : option (list Dim).
Variable sha1_hex12 : string -> result string.
Variable round2 : Q -> Q.

Local Abbreviation analyze :=
  (analyze_file py_float py_str path_stem norm_text_global lib_file).

Local Abbreviation cached :=
  (analyze_file_cached py_float py_str path_stem norm_text_global lib_file
                       sha1_hex12 round2).

(** X20: the cache trusts the file's size and modification time. Once an
    analysis is stored, a file whose content changed but whose resolved
    path, size and modification time did not is answered from the cache
    for thirty minutes: the call is a hit, returns the stored analysis and
    does not read the workbook. *)
Theorem cache_trusts_the_file_stat (fs1 fs2 : FS) (c : Cache) (now1 now2 : Q)
        (file_path : string) (p : Params) (a1 : Analysis) (c1 : Cache) :
  cached fs1 c now1 file_path p = Ok (a1, c1) ->
  sys_cache (system a1) = Some miss_note ->
  fs_stat fs2 file_path = fs_stat fs1 file_path ->
  fs_resolve fs2 file_path = fs_resolve fs1 file_path ->
  (now2 - now1 < 1800)%Q ->
  exists a2,
    cached fs2 c1 now2 file_path p = Ok (a2, c1)
    /\ strip_cache a2 = strip_cache a1
    /\ sys_cache (system a2) = Some (mkNote true (Some (round2 (now2 - now1))) None).
Proof.
  intros Hcall Hnote Hstat Hres Httl. apply cached_call_paths in Hcall.
  destruct Hcall as [(st & ph & ent & _ & _ & _ & _ & -> & _)
                    | [(st & ph & u & Hst & Hph & _ & Hu & -> & ->)
                      | (ex & u & _ & _ & -> & _)]];
    [cbn in Hnote; discriminate | | cbn in Hnote; discriminate].
  unfold analyze_file_cached, cached_body.
  rewrite Hstat, Hst, Hph.
  assert (Hkey : cache_key fs2 file_path p st ph = cache_key fs1 file_path p st ph).
  { unfold cache_key. rewrite Hres. reflexivity. }
  rewrite Hkey, cache_get_set. cbn [ts data].
  assert (Hlt : Qltb (now2 - now1) _ANALYSIS_CACHE_TTL_S = true).
  { apply Qltb_lt. unfold _ANALYSIS_CACHE_TTL_S.
    setoid_replace (30 * 60)%Q with 1800%Q by reflexivity. assumption. }
  rewrite Hlt. cbn [try_except]. eexists. split; [reflexivity |].
  split; reflexivity.
Qed.

(** X21: the prompt is part of the cache key although the analysis does not
    read it. A call that differs from a stored one in the prompt alone is
    a miss when the prompt digests differ: the workbook is analysed again,
    with the same result. (A prompt that cannot be encoded for its digest
    takes the fallback instead, with the same result again.) *)
Theorem prompt_only_splits_the_cache (fs : FS) (c : Cache) (now1 now2 : Q)
        (file_path : string) (p : Params) (prompt : string)
        (a1 : Analysis) (c1 : Cache) :
  cached fs c now1 file_path p = Ok (a1, c1) ->
  sys_cache (system a1) = Some miss_note ->
  sha1_hex12 prompt <> sha1_hex12 (p_prompt p) ->
  (forall st ph', sha1_hex12 prompt = Ok ph' ->
                  cache_get (cache_key fs file_path (with_prompt p prompt) st ph') c
                  = None) ->
  analyze fs file_path (with_prompt p prompt) = analyze fs file_path p
  /\ exists a2 c2,
      cached fs c1 now2 file_path (with_prompt p prompt) = Ok (a2, c2)
      /\ sys_cache (system a2)
         = Some match sha1_hex12 prompt with
                | Ok _ => miss_note
                | Raise ex => mkNote false None (Some (exc_kind ex ++ ": " ++ exc_msg ex))
                end
      /\ strip_cache a2 = strip_cache a1.
Proof.
  intros Hcall Hnote Hsha Hfresh. split; [reflexivity |].
  apply cached_call_paths in Hcall.
  destruct Hcall as [(st & ph & ent & _ & _ & _ & _ & -> & _)
                    | [(st & ph & u & Hst & Hph & _ & Hu & -> & ->)
                      | (ex & u & _ & _ & -> & _)]];
    [cbn in Hnote; discriminate | | cbn in Hnote; discriminate].
  unfold analyze_file_cached, cached_body, cached_miss.
  rewrite Hst. cbn [with_prompt p_prompt].
  change (analyze fs file_path (with_prompt p prompt)) with (analyze fs file_path p).
  destruct (sha1_hex12 prompt) as [ph' | ex] eqn:Hph'.
  - rewrite cache_get_set_other.
    + rewrite Hu. cbn [bind try_except]. do 2 eexists. split; [reflexivity |].
      split; reflexivity.
    + unfold cache_key, with_prompt. intros Heq.
      injection Heq as Heq. apply Hsha. rewrite Hph, Heq. reflexivity.
    + apply cache_get_prune_none. apply Hfresh. reflexivity.
  - cbn [try_except]. rewrite Hu. cbn [bind]. do 2 eexists. split; [reflexivity |].
    split; reflexivity.
Qed.


End CacheKeys.

Lemma cache_trusts_the_file_stat_witness :
  exists a1 c1 a2 fresh,
    analyze_file_cached digits_float demo_text (fun path => path) (Some norm_sibling)
                        None (fun prompt => Ok prompt) round_half_even_2
                        demo_fs [] 10%Q "book.xlsx" demo_params = Ok (a1, c1)
    /\ analyze_file_cached digits_float demo_text (fun path => path)
                           (Some norm_sibling) None (fun prompt => Ok prompt)
                           round_half_even_2
                           swapped_fs c1 25%Q "book.xlsx" demo_params = Ok (a2, c1)
    /\ analyze_file digits_float demo_text (fun path => path) (Some norm_sibling)
                    None swapped_fs "book.xlsx" demo_params = Ok fresh
    /\ strip_cache a2 = strip_cache a1
    /\ status a2 = "PARTIAL" /\ status fresh = "OK".
Proof.
  destruct (analyze_file_cached digits_float demo_text (fun path => path)
              (Some norm_sibling) None (fun prompt => Ok prompt) round_half_even_2
              demo_fs [] 10%Q "book.xlsx" demo_params) as [[a1 c1] | ex] eqn:E1;
    [| vm_compute in E1; discriminate].
  assert (Hnote : sys_cache (system a1) = Some miss_note /\ status a1 = "PARTIAL").
  { pose proof E1 as E. vm_compute in E. injection E as <- _. split; reflexivity. }
  destruct Hnote as [Hnote Hst1].
  assert (Hlt : (25 - 10 < 1800)%Q) by (vm_compute; reflexivity).
  destruct (cache_trusts_the_file_stat digits_float demo_text (fun path => path)
              (Some norm_sibling) None (fun prompt => Ok prompt) round_half_even_2
              demo_fs swapped_fs [] 10%Q 25%Q "book.xlsx" demo_params a1 c1
              E1 Hnote eq_refl eq_refl Hlt) as (a2 & H2 & Hs & _).
  exists a1, c1, a2. eexists.
  split; [reflexivity |]. split; [exact H2 |].
  split; [vm_compute; reflexivity |]. split; [exact Hs |].
  split; [| reflexivity].
  change (status a2) with (status (strip_cache a2)). rewrite Hs. exact Hst1.
Defined.

Lemma prompt_only_splits_the_cache_witness :
  exists a1 c1 a2 c2,
    analyze_file_cached digits_float demo_text (fun path => path) (Some norm_sibling)
                        None (fun prompt => Ok prompt) round_half_even_2
                        demo_fs [] 10%Q "book.xlsx" demo_params = Ok (a1, c1)
    /\ analyze_file_cached digits_float demo_text (fun path => path)
                           (Some norm_sibling) None (fun prompt => Ok prompt)
                           round_half_even_2
                           demo_fs c1 25%Q "book.xlsx" (with_prompt demo_params "why?")
       = Ok (a2, c2)
    /\ sys_cache (system a2) = Some miss_note
    /\ strip_cache a2 = strip_cache a1.
Proof.
  destruct (analyze_file_cached digits_float demo_text (fun path => path)
              (Some norm_sibling) None (fun prompt => Ok prompt) round_half_even_2
              demo_fs [] 10%Q "book.xlsx" demo_params) as [[a1 c1] | ex] eqn:E1;
    [| vm_compute in E1; discriminate].
  assert (Hnote : sys_cache (system a1) = Some miss_note).
  { pose proof E1 as E. vm_compute in E. injection E as <- _. reflexivity. }
  destruct (prompt_only_splits_the_cache digits_float demo_text (fun path => path)
              (Some norm_sibling) None (fun prompt => Ok prompt) round_half_even_2
              demo_fs [] 10%Q 25%Q "book.xlsx" demo_params "why?" a1 c1
              E1 Hnote ltac:(discriminate) (fun _ _ _ => eq_refl))
    as (_ & a2 & c2 & H2 & Hn & Hs).
  exists a1, c1, a2, c2. split; [reflexivity |]. repeat split; assumption.
Defined.

(** ** Anchors name the cell the value was read from *)

(** The anchor [anc] names a cell of the workbook whose number is [v]. *)
Definition names_cell_of (py_float : string -> option Q) (sheets : Sheets)
           (anc : string) (v : option Q) : Prop :=
  exists sheet df r c x,
    In (sheet, df) sheets /\ r < shape0 df /\ c < shape1 df
    /\ anc = _a1 sheet r c /\ v = Some x
    /\ _to_float py_float (iat df r c) = Some x.

Lemma dict_get_in {V : Type} (d : list (string * V)) (k : string) (v : V) :
  dict_get d k = Some v -> In (k, v) d.
Proof.
  induction d as [| [k' v'] rest IH]; cbn; [discriminate |].
  destruct (String.eqb k' k) eqn:E.
  - intros H. injection H as <-. apply String.eqb_eq in E. subst. left. reflexivity.
  - intros H. right. apply IH. assumption.
Qed.

Lemma build_kpis_anchor (lang : string) (metrics : list Metric) (k : Kpi) :
  In k (build_kpis lang metrics) ->
  exists m, In m metrics /\ kpi_value k = value m /\ kpi_anchor k = anchor m.
Proof.
  unfold build_kpis. intros Hin. apply in_flat_map in Hin.
  destruct Hin as (m & Hm & Hk). exists m. split; [assumption |].
  destruct (String.eqb (key m) "gross_margin").
  - destruct Hk as [<- | []]. split; reflexivity.
  - destruct (is_amount_key (key m)); [| destruct Hk].
    destruct Hk as [<- | []]. split; reflexivity.
Qed.

Lemma set_first_value_Forall (P : Metric -> Prop) (k : string) (v : Q)
      (ms : list Metric) :
  Forall P ms ->
  (forall m, first_metric k ms = Some m ->
             P (mkMetric (key m) (label_en m) (label_zh m) (Some v) (prev m)
                         (unit m) (anchor m))) ->
  Forall P (set_first_value k v ms).
Proof.
  induction ms as [| m0 rest IH]; cbn [set_first_value]; [constructor |].
  intros Hall Hnew. inversion Hall as [| ? ? H0 Hrest]; subst.
  unfold first_metric in Hnew. cbn [find] in Hnew.
  destruct (String.eqb (key m0) k).
  - constructor; [apply Hnew; reflexivity | assumption].
  - constructor; [assumption | apply IH; assumption].
Qed.

Section Anchors.

Variable py_float : string -> option Q.
Variable py_str : PyText.
Variable path_stem : string -> string.
Variable norm_text_global : option (cell -> string).
Variable lib_file : option (list Dim).

(** The anchor of a metric, if any, names a cell of [df] holding its
    current value. *)
Definition metric_anchored (sheet : string) (df : DataFrame) (m : Metric) : Prop :=
  forall anc, anchor m = Some anc -> names_cell_of py_float [(sheet, df)] anc (value m).

Definition entry_anchored (sheets : Sheets) (e : Evidence) : Prop :=
  forall anc, ev_anchor e = Some anc -> names_cell_of py_float sheets anc (ev_current e).

Lemma names_cell_of_incl (s1 s2 : Sheets) (anc : string) (v : option Q) :
  (forall x, In x s1 -> In x s2) ->
  names_cell_of py_float s1 anc v -> names_cell_of py_float s2 anc v.
Proof.
  intros Hincl (sheet & df & r & c & x & Hin & H). exists sheet, df, r, c, x.
  split; [apply Hincl; assumption | assumption].
Qed.

(** A current column is a column of the row, inside the frame, and holds
    the current value. *)
Lemma find_numeric_anchor (df : DataFrame) (r : nat)
      (curr : option Q) (curr_c : option nat) (prv : option Q) (prev_c : option nat)
      (c : nat) :
  _find_numeric_in_row py_float df r = Ok (curr, curr_c, prv, prev_c) ->
  curr_c = Some c ->
  r < shape0 df /\ c < shape1 df
  /\ exists v, curr = Some v /\ _to_float py_float (iat df r c) = Some v.
Proof.
  intros Hrun ->. destruct (Nat.lt_ge_cases r (shape0 df)) as [Hr | Hr].
  - destruct (find_numeric_in_row_spec py_float df r Hr) as (res & Hres & Hspec).
    rewrite Hrun in Hres. injection Hres as <-. cbn in Hspec.
    destruct Hspec as (Hc & (v & Hv & Hnum) & _).
    split; [assumption |]. split; [assumption |]. exists v. split; assumption.
  - exfalso. unfold _find_numeric_in_row, cols_right_to_left in Hrun.
    destruct (shape1 df) as [| n] eqn:En.
    + cbn in Hrun. discriminate Hrun.
    + rewrite rev_seq_S in Hrun. cbn [scan_nums] in Hrun.
      unfold iat_checked in Hrun.
      assert (Hout : (r <? shape0 df) = false) by (apply Nat.ltb_ge; assumption).
      rewrite Hout in Hrun. cbn in Hrun. discriminate Hrun.
Qed.

Lemma extract_located_anchored (sheet : string) (df : DataFrame) (k : string) (r : nat)
      (m : Metric) (e : Evidence) :
  extract_located py_float sheet df k r = Ok (m, e) ->
  metric_anchored sheet df m /\ entry_anchored [(sheet, df)] e.
Proof.
  unfold extract_located.
  destruct (_find_numeric_in_row py_float df r) as [[[[curr curr_c] prv] prev_c] | ex] eqn:E;
    cbn [bind]; [| discriminate].
  intros H. injection H as <- <-.
  assert (Hanc : forall anc,
             match curr_c with Some c => Some (_a1 sheet r c) | None => None end = Some anc ->
             names_cell_of py_float [(sheet, df)] anc curr).
  { intros anc Hanc. destruct curr_c as [c |]; [| discriminate].
    injection Hanc as <-.
    destruct (find_numeric_anchor _ _ _ _ _ _ c E eq_refl) as (Hr & Hc & v & Hv & Hnum).
    exists sheet, df, r, c, v. repeat split; try assumption. left. reflexivity. }
  split; intros anc Ha; cbn in Ha |- *; apply Hanc; assumption.
Qed.

Lemma locate_and_extract_anchored (sheet : string) (df : DataFrame)
      (st st' : IsState) (entry : string * list string) :
  Forall (metric_anchored sheet df) (fst (fst st))
  /\ Forall (entry_anchored [(sheet, df)]) (snd (fst st)) ->
  locate_and_extract py_float norm_text_global sheet df st entry = Ok st' ->
  Forall (metric_anchored sheet df) (fst (fst st'))
  /\ Forall (entry_anchored [(sheet, df)]) (snd (fst st')).
Proof.
  destruct st as [[metrics evidence] missing]. cbn [fst snd]. intros [Hm He].
  unfold locate_and_extract.
  destruct (_find_row norm_text_global df (snd entry) None) as [[r |] | ex];
    cbn [bind]; [| | discriminate].
  - destruct (extract_located py_float sheet df (fst entry) r) as [[m e] | ex] eqn:E;
      cbn [bind]; [| discriminate].
    intros H. injection H as <-. cbn [fst snd].
    destruct (extract_located_anchored _ _ _ _ _ _ E) as [Hma Hea].
    split; apply Forall_app; (split; [assumption |]); constructor;
      try assumption; constructor.
  - intros H. injection H as <-. cbn [fst snd]. split; [| assumption].
    apply Forall_app. split; [assumption |]. constructor; [| constructor].
    intros anc Ha. discriminate Ha.
Qed.

Lemma derive_opex_anchored (sheets : Sheets) (ms : list Metric) (ev : list Evidence)
      (miss : list string) :
  Forall (entry_anchored sheets) ev ->
  Forall (entry_anchored sheets) (snd (fst (derive_opex (ms, ev, miss)))).
Proof.
  intros He. unfold derive_opex.
  destruct (first_value "gross_profit" ms); [destruct (first_value "opex" ms) |];
    cbn [fst snd]; try assumption.
  apply Forall_app. split; [assumption |]. constructor; [| constructor].
  intros anc Ha. discriminate Ha.
Qed.

(** Extraction and derivation: every anchor of a metric or of a ledger
    entry names a cell of the workbook holding the value it stands by. *)
Lemma extract_is_metrics_anchored (sheets : Sheets) (lang : string)
      (ms : list Metric) (ev : list Evidence) (miss : list string) :
  _extract_is_metrics py_float norm_text_global sheets lang = Ok (ms, ev, miss) ->
  Forall (fun m => forall anc, anchor m = Some anc ->
                               names_cell_of py_float sheets anc (value m)) ms
  /\ Forall (entry_anchored sheets) ev.
Proof.
  unfold _extract_is_metrics.
  destruct (choose_is_sheet sheets) as [name |];
    [| intros H; injection H as <- <- <-; split; constructor].
  set (df := match dict_get sheets name with Some df => df | None => [] end).
  destruct (foldM (locate_and_extract py_float norm_text_global name df)
                  _IS_KEYS ([], [], [])) as [st0 | ex] eqn:E; cbn [bind]; [| discriminate].
  assert (Hinv : Forall (metric_anchored name df) (fst (fst st0))
                 /\ Forall (entry_anchored [(name, df)]) (snd (fst st0))).
  { eapply (foldM_invariant
              (fun s : IsState =>
                 Forall (metric_anchored name df) (fst (fst s))
                 /\ Forall (entry_anchored [(name, df)]) (snd (fst s))));
      [| | exact E].
    - intros s x s' Hs Hstep. eapply locate_and_extract_anchored; eassumption.
    - split; constructor. }
  assert (Hincl : forall anc v, names_cell_of py_float [(name, df)] anc v ->
                                names_cell_of py_float sheets anc v).
  { intros anc v (sheet & d & r & c & x & Hin & Hr & Hrest).
    destruct Hin as [Heq | []]. injection Heq as <- <-.
    exists name, df, r, c, x. split; [| split; assumption].
    subst df. destruct (dict_get sheets name) as [d |] eqn:Eget.
    - apply dict_get_in. assumption.
    - cbn in Hr. lia. }
  destruct st0 as [[ms0 ev0] miss0]. cbn [fst snd] in *. destruct Hinv as [Hm He].
  assert (Hm' : Forall (fun m => forall anc, anchor m = Some anc ->
                                 names_cell_of py_float sheets anc (value m)) ms0).
  { eapply Forall_impl; [| exact Hm]. intros m H anc Ha. apply Hincl, H. assumption. }
  assert (He' : Forall (entry_anchored sheets) ev0).
  { eapply Forall_impl; [| exact He]. intros e H anc Ha. apply Hincl, H. assumption. }
  clear Hm He E.
  destruct (derive_opex_shape ms0 ev0 miss0) as (tail & ev1 & miss1 & Hopex & Htail).
  rewrite Hopex.
  assert (Hm1 : Forall (fun m => forall anc, anchor m = Some anc ->
                                 names_cell_of py_float sheets anc (value m))
                       (ms0 ++ tail)).
  { apply Forall_app. split; [assumption |].
    destruct Htail as [(-> & _) | (gp & oi & _ & _ & -> & _)]; [constructor |].
    constructor; [| constructor]. intros anc Ha. discriminate Ha. }
  assert (He1 : Forall (entry_anchored sheets) (ev0 ++ ev1)).
  { pose proof (derive_opex_anchored sheets ms0 ev0 miss0 He') as H.
    rewrite Hopex in H. exact H. }
  unfold derive_gross_margin.
  destruct (first_metric "gross_margin" (ms0 ++ tail)) as [gm |] eqn:Egm;
    [| intros H; injection H as <- <- <-; split; assumption].
  destruct (first_value "revenue" (ms0 ++ tail)) as [rv |];
    [| intros H; injection H as <- <- <-; split; assumption].
  destruct (first_value "gross_profit" ms0) as [gp |];
    [| intros H; injection H as <- <- <-; split; assumption].
  destruct (value gm) as [gv |] eqn:Egv;
    [intros H; injection H as <- <- <-; split; assumption |].
  destruct (Qeq_bool rv 0);
    [intros H; injection H as <- <- <-; split; assumption |].
  intros H. injection H as <- <- <-. split.
  - apply set_first_value_Forall; [assumption |].
    intros m Hfirst anc Ha. cbn in Ha. exfalso.
    rewrite Egm in Hfirst. injection Hfirst as <-.
    assert (Hin : In gm (ms0 ++ tail)).
    { unfold first_metric in Egm. apply find_some in Egm. apply Egm. }
    rewrite Forall_forall in Hm1.
    destruct (Hm1 gm Hin anc Ha) as (sheet & d & r & c & x & _ & _ & _ & _ & Hv & _).
    congruence.
  - apply Forall_app. split; [assumption |]. constructor; [| constructor].
    intros anc Ha. discriminate Ha.
Qed.

(** The cash-cycle side: an anchor names the cell the figure was read
    from. *)
Lemma scan_kpi_anchored (sheets : Sheets) (kws : list string) (v : Q) (anc : string) :
  _scan_kpi_by_keywords py_float py_str sheets kws = (Some v, Some anc) ->
  names_cell_of py_float sheets anc (Some v).
Proof.
  unfold _scan_kpi_by_keywords.
  pose proof (scan_sheets_spec py_float py_str kws sheets) as Hspec.
  destruct (scan_sheets py_float py_str sheets kws) as [[v' a'] |]; [| discriminate].
  intros H. injection H as <- <-.
  destruct Hspec as (s1 & sheet & df & s2 & l1 & r & c & l2 & -> & _ & Hr & Hc & _ & Hhit & _).
  assert (Hin : In (sheet, df) (s1 ++ (sheet, df) :: s2)).
  { apply in_or_app. right. left. reflexivity. }
  destruct Hhit as [(cc & (_ & _ & Hcc) & Hv & _ & ->)
                   | (_ & rr & (_ & _ & Hrr) & Hv & _ & ->)].
  - exists sheet, df, r, cc, v'. repeat split; assumption.
  - exists sheet, df, rr, c, v'. repeat split; assumption.
Qed.

Lemma extract_cash_cycle_anchored (sheets : Sheets) :
  Forall (entry_anchored sheets) (snd (fst (_extract_cash_cycle py_float py_str sheets))).
Proof.
  unfold _extract_cash_cycle.
  pose proof (scan_kpi_anchored sheets ["DSO"; "應收天數"; "應收帳款週轉天數"]) as H1.
  pose proof (scan_kpi_anchored sheets ["DIO"; "存貨天數"; "存貨週轉天數"]) as H2.
  pose proof (scan_kpi_anchored sheets ["DPO"; "應付天數"; "應付帳款週轉天數"]) as H3.
  pose proof (scan_kpi_anchored sheets ["CCC"; "現金週轉"; "現金循環"]) as H4.
  destruct (_scan_kpi_by_keywords py_float py_str sheets
              ["DSO"; "應收天數"; "應收帳款週轉天數"]) as [[v1 |] a1];
    destruct (_scan_kpi_by_keywords py_float py_str sheets
                ["DIO"; "存貨天數"; "存貨週轉天數"]) as [[v2 |] a2];
    destruct (_scan_kpi_by_keywords py_float py_str sheets
                ["DPO"; "應付天數"; "應付帳款週轉天數"]) as [[v3 |] a3];
    destruct (_scan_kpi_by_keywords py_float py_str sheets
                ["CCC"; "現金週轉"; "現金循環"]) as [[v4 |] a4];
    cbn;
    repeat (apply Forall_cons;
            [intros anc Ha; cbn in Ha |- *; subst;
             first [apply H1; reflexivity | apply H2; reflexivity
                   | apply H3; reflexivity | apply H4; reflexivity] |]);
    apply Forall_nil.
Qed.

(** X23: anchors are truthful. In every result of [analyze_file], an
    anchor of a ledger entry or of a KPI names a cell inside a sheet of the
    workbook, and the number in that cell is the entry's current value,
    the KPI's value. *)
Theorem anchors_name_the_cell_read (fs : FS) (file_path : string) (p : Params) :
  exists a,
    analyze_file py_float py_str path_stem norm_text_global lib_file fs file_path p
    = Ok a
    /\ Forall (fun e => forall anc, ev_anchor e = Some anc ->
                 names_cell_of py_float (_read_all_sheets fs file_path) anc
                               (ev_current e))
              (evidence_ledger a)
    /\ Forall (fun k => forall anc, kpi_anchor k = Some anc ->
                 names_cell_of py_float (_read_all_sheets fs file_path) anc
                               (kpi_value k))
              (kpis a).
Proof.
  unfold analyze_file, analyze_body.
  destruct (_extract_is_metrics py_float norm_text_global
              (_read_all_sheets fs file_path) (p_lang p))
    as [[[ms ev] miss] | ex] eqn:E; cbn [bind try_except].
  - pose proof (extract_cash_cycle_anchored (_read_all_sheets fs file_path)) as Hcash.
    destruct (_extract_cash_cycle py_float py_str (_read_all_sheets fs file_path))
      as [[cash cev] cmiss]. cbn [fst snd] in Hcash.
    destruct (extract_is_metrics_anchored _ _ _ _ _ E) as [Hm He].
    eexists. split; [reflexivity |]. cbn [evidence_ledger kpis]. split.
    + apply Forall_app. split; assumption.
    + apply Forall_forall. intros k Hk anc Ha.
      apply build_kpis_anchor in Hk. destruct Hk as (m & Hin & Hv & Hanc).
      rewrite Forall_forall in Hm. rewrite Hv. apply (Hm m Hin). congruence.
  - eexists. split; [reflexivity |]. cbn. split; constructor.
Qed.

End Anchors.
